(** * LSDC2 Discord bot: the command-registration scripts

    The repository is a set of stand-alone Python scripts (under [scripts/])
    that register, list, update and delete the slash commands of a Discord
    application.  Every script is a module body: it reads credentials from
    the console, calls [requests.get/post/patch/delete] and prints.

    The scripts are embedded as programs of a small monad with three
    effects: a log of what the script did (console prompts, HTTP calls with
    the reply they received, printed lines), the state of the outside world
    (what the operator types, the remote service) and Python exceptions. *)

From Stdlib Require Import String Ascii List ZArith Bool Arith Lia DecimalString.
Import ListNotations.
Open Scope string_scope.
Set Warnings "-register-all".

(** ** Values *)

(** What [Response.json()] returns, and what the scripts pass as [json=]:
    Python objects made of [None], booleans, integers, strings, lists and
    dicts.  A dict is kept as its items in insertion order (keys distinct).
    A [str] is a [string], one [ascii] per character. *)
Inductive json : Type :=
| JNull
| JBool (b : bool)
| JInt (n : Z)
| JStr (s : string)
| JList (items : list json)
| JDict (fields : list (string * json)).

Inductive method : Type := GET | POST | PATCH | DELETE.

(** One call [requests.<verb>(url, headers=headers, json=...)]. *)
Record request : Type := mkRequest {
  verb : method;
  url : string;
  headers : list (string * string);
  json_arg : option json
}.

(** A [requests.Response]: the status, the raw body ([r.content]) and what
    [r.json()] decodes it to ([None] when the body is not JSON). *)
Record response : Type := mkResponse {
  status_code : nat;
  content : string;
  decoded : option json
}.

(** A call either returns a response, whatever its status, or raises
    [requests.RequestException] (no connection, time-out, ...). *)
Inductive reply : Type :=
| Answered (r : response)
| Unreachable.

Inductive exn : Type :=
| EOFError
| RequestException
| JSONDecodeError
| TypeError
| KeyError.

Inductive outcome (A : Type) : Type :=
| Done (a : A)
| Raised (e : exn).
Arguments Done {A} a.
Arguments Raised {A} e.

(** What a script does, in order.  A prompt records what came back from the
    console ([None]: end of input, the call raised [EOFError]). *)
Inductive event : Type :=
| EvInput (prompt : string) (typed : option string)
| EvGetpass (prompt : string) (typed : option string)
| EvHttp (rq : request) (rp : reply)
| EvPrint (line : string).

(** ** The outside world *)

(** The remote service behind [requests] and the interpreter's [repr] of a
    decoded value that is not a [str] (used by f-strings only). *)
Class Platform : Type := {
  world : Type;
  serve : request -> world -> reply * world;
  py_repr : json -> string
}.

Section Monad.
Context {P : Platform}.

Record machine : Type := mkMachine {
  keyboard : list string;
  remote : world
}.

Record result (A : Type) : Type := mkResult {
  out : outcome A;
  final : machine;
  emitted : list event
}.

Definition M (A : Type) : Type := machine -> result A.

Definition ret {A} (a : A) : M A :=
  fun s => mkResult A (Done a) s [].

Definition bind {A B} (m : M A) (f : A -> M B) : M B :=
  fun s =>
    let r := m s in
    match out A r with
    | Done a =>
        let r' := f a (final A r) in
        mkResult B (out B r') (final B r') (emitted A r ++ emitted B r')
    | Raised e => mkResult B (Raised e) (final A r) (emitted A r)
    end.

Definition raise {A} (e : exn) : M A :=
  fun s => mkResult A (Raised e) s [].

Definition lift {A} (o : outcome A) : M A :=
  match o with
  | Done a => ret a
  | Raised e => raise e
  end.

End Monad.

Arguments out {P A} r.
Arguments final {P A} r.
Arguments emitted {P A} r.
Arguments mkResult {P A} out final emitted.

Declare Scope script_scope.
Delimit Scope script_scope with script.
Notation "x <- m ;; k" := (bind m (fun x => k))
  (at level 61, m at next level, right associativity) : script_scope.
Notation "m ;; k" := (bind m (fun _ => k))
  (at level 61, right associativity) : script_scope.
Open Scope script_scope.

(** ** Python primitives the scripts use *)

Definition decimal (n : nat) : string :=
  NilZero.string_of_uint (Nat.to_uint n).

Definition hex_digit (n : nat) : ascii :=
  match n with
  | 0 => "0" | 1 => "1" | 2 => "2" | 3 => "3" | 4 => "4" | 5 => "5"
  | 6 => "6" | 7 => "7" | 8 => "8" | 9 => "9" | 10 => "a" | 11 => "b"
  | 12 => "c" | 13 => "d" | 14 => "e" | _ => "f"
  end%char.

Fixpoint occurs (c : ascii) (s : string) : bool :=
  match s with
  | EmptyString => false
  | String d s' => Ascii.eqb c d || occurs c s'
  end.

Definition backslash : ascii := ascii_of_nat 92.
Definition double_quote : ascii := ascii_of_nat 34.
Definition single_quote : ascii := ascii_of_nat 39.

Definition escaped (c : ascii) : string :=
  String backslash (String c EmptyString).

Fixpoint bytes_escape (quote : ascii) (s : string) : string :=
  match s with
  | EmptyString => EmptyString
  | String c s' =>
      let n := nat_of_ascii c in
      (if Ascii.eqb c quote || Ascii.eqb c backslash then escaped c
       else if (n =? 9)%nat then escaped "t"
       else if (n =? 10)%nat then escaped "n"
       else if (n =? 13)%nat then escaped "r"
       else if (n <? 32)%nat || (127 <=? n)%nat
       then String backslash
              (String "x" (String (hex_digit (n / 16))
                             (String (hex_digit (n mod 16)) EmptyString)))
       else String c EmptyString) ++ bytes_escape quote s'
  end.

(** [repr] of a [bytes] object, as [print] shows [r.content]. *)
Definition bytes_repr (s : string) : string :=
  let quote : ascii :=
    if occurs single_quote s && negb (occurs double_quote s)
    then double_quote else single_quote in
  "b" ++ String quote (bytes_escape quote s) ++ String quote EmptyString.

(** [len(v)] *)
Definition py_len (v : json) : outcome nat :=
  match v with
  | JList items => Done (List.length items)
  | JDict fields => Done (List.length fields)
  | JStr s => Done (String.length s)
  | _ => Raised TypeError
  end.

Fixpoint characters (s : string) : list json :=
  match s with
  | EmptyString => []
  | String c s' => JStr (String c EmptyString) :: characters s'
  end.

(** The items [for cmd in v] runs through: a dict yields its keys. *)
Definition py_iter (v : json) : outcome (list json) :=
  match v with
  | JList items => Done items
  | JDict fields => Done (map (fun kv => JStr (fst kv)) fields)
  | JStr s => Done (characters s)
  | _ => Raised TypeError
  end.

Fixpoint dict_get (key : string) (fields : list (string * json)) : option json :=
  match fields with
  | [] => None
  | (k, v) :: rest => if String.eqb k key then Some v else dict_get key rest
  end.

(** [v[key]] for a [str] key. *)
Definition py_getitem (v : json) (key : string) : outcome json :=
  match v with
  | JDict fields =>
      match dict_get key fields with
      | Some x => Done x
      | None => Raised KeyError
      end
  | _ => Raised TypeError
  end.

(** [s + v] for a [str] s. *)
Definition py_add (s : string) (v : json) : outcome string :=
  match v with
  | JStr t => Done (s ++ t)
  | _ => Raised TypeError
  end.

(** [v == s] for a [str] s. *)
Definition py_eq (v : json) (s : string) : bool :=
  match v with
  | JStr t => String.eqb t s
  | _ => false
  end.

Section Primitives.
Context {P : Platform}.

(** A replacement field [{v}] of an f-string. *)
Definition py_format (v : json) : string :=
  match v with
  | JStr s => s
  | _ => py_repr v
  end.

Definition read_line (ev : option string -> event) : M string :=
  fun s =>
    match keyboard s with
    | line :: rest =>
        mkResult (Done line) (mkMachine rest (remote s)) [ev (Some line)]
    | [] => mkResult (Raised EOFError) s [ev None]
    end.

(** [input(prompt)] *)
Definition input (prompt : string) : M string :=
  read_line (EvInput prompt).

(** [getpass.getpass(prompt=prompt)] *)
Definition getpass (prompt : string) : M string :=
  read_line (EvGetpass prompt).

(** [print(line)] *)
Definition print (line : string) : M unit :=
  fun s => mkResult (Done tt) s [EvPrint line].

(** [print(label, r.content)]: the arguments separated by a space. *)
Definition print_result (label : string) (r : response) : M unit :=
  print (label ++ " " ++ bytes_repr (content r)).

Definition call (rq : request) : M response :=
  fun s =>
    let (rp, w) := serve rq (remote s) in
    mkResult
      match rp with
      | Answered r => Done r
      | Unreachable => Raised RequestException
      end
      (mkMachine (keyboard s) w)
      [EvHttp rq rp].

Definition requests_get (u : string) (h : list (string * string)) : M response :=
  call (mkRequest GET u h None).

Definition requests_delete (u : string) (h : list (string * string)) : M response :=
  call (mkRequest DELETE u h None).

Definition requests_post (u : string) (h : list (string * string)) (j : json)
  : M response :=
  call (mkRequest POST u h (Some j)).

Definition requests_patch (u : string) (h : list (string * string)) (j : json)
  : M response :=
  call (mkRequest PATCH u h (Some j)).

(** [r.json()] *)
Definition response_json (r : response) : M json :=
  match decoded r with
  | Some v => ret v
  | None => raise JSONDecodeError
  end.

Definition len (v : json) : M nat := lift (py_len v).
Definition getitem (v : json) (key : string) : M json := lift (py_getitem v key).
Definition add (s : string) (v : json) : M string := lift (py_add s v).

(** [for x in items: body x] *)
Fixpoint each (items : list json) (body : json -> M unit) : M unit :=
  match items with
  | [] => ret tt
  | x :: rest => body x ;; each rest body
  end.

Definition for_in (v : json) (body : json -> M unit) : M unit :=
  items <- lift (py_iter v) ;; each items body.

(** A loop whose body may [break]: the body returns [true] when it did. *)
Fixpoint each_until (items : list json) (body : json -> M bool) : M unit :=
  match items with
  | [] => ret tt
  | x :: rest =>
      stop <- body x ;;
      if stop then ret tt else each_until rest body
  end.

Definition for_in_break (v : json) (body : json -> M bool) : M unit :=
  items <- lift (py_iter v) ;; each_until items body.

End Primitives.

(** ** The scripts

    One module per file of [scripts/], its module body as [main]: the
    prompts, then the script's [work] with what was typed.  The delete
    scripts' two blocks (the source marks them [# Remove app commands] and
    [# Remove guild commands]) are definitions of their own. *)

Definition api : string := "https://discord.com/api/v10".

Definition authorization (token : string) : list (string * string) :=
  [("Authorization", "Bot " ++ token)].

(** scripts/bootsrap.py *)
Module bootsrap.
Section Code.
Context {P : Platform}.

Definition ADMINISTRATOR_PERM : Z := 0x0000000000000008.
Definition MANAGER_PERM : Z := 0x0000000000000020.

Definition json_bootstrap : json :=
  JDict [("name", JStr "bootstrap");
         ("type", JInt 1);
         ("description", JStr "Register LSDC2 bot commands in your guild");
         ("default_member_permissions", JInt ADMINISTRATOR_PERM)].

Definition json_registergame : json :=
  JDict [("name", JStr "register-game");
         ("type", JInt 1);
         ("description", JStr "Add a new game in the LSDC2 launcher");
         ("default_member_permissions", JInt ADMINISTRATOR_PERM);
         ("dm_permission", JBool true);
         ("options",
          JList [JDict [("type", JInt 3);
                        ("name", JStr "spec-url");
                        ("description",
                         JStr "Url to LSDC2-compatible game description")];
                 JDict [("type", JInt 5);
                        ("name", JStr "overwrite");
                        ("description",
                         JStr "If true, overwrite any existing spec")]])].

Definition json_spinupgame : json :=
  JDict [("name", JStr "spinup");
         ("description", JStr "Start a new server instance");
         ("default_member_permissions", JInt MANAGER_PERM);
         ("options",
          JList [JDict [("type", JInt 3);
                        ("name", JStr "game-type");
                        ("description", JStr "Game type to start");
                        ("required", JBool true)]])].

Definition work (app token : string) : M unit :=
  let headers := authorization token in
  let url := api ++ "/applications/" ++ app ++ "/commands" in
  r <- requests_post url headers json_bootstrap ;;
  print_result "BOOSTRAP result: " r ;;
  r <- requests_post url headers json_registergame ;;
  print_result "ADD-GAME result: " r ;;
  r <- requests_post url headers json_spinupgame ;;
  print_result "ADD-GAME result: " r.

Definition main : M unit :=
  app <- input "Application id: " ;;
  token <- getpass "Bot token: " ;;
  work app token.

End Code.
End bootsrap.

(** scripts/cleanup.py *)
Module cleanup.
Section Code.
Context {P : Platform}.

Definition remove_app_commands (app : string) (headers : list (string * string))
  : M unit :=
  let url := api ++ "/applications/" ++ app ++ "/commands" in
  r <- requests_get url headers ;;
  jbody <- response_json r ;;
  n <- len jbody ;;
  print ("Number of global commands: " ++ decimal n) ;;
  for_in jbody (fun cmd =>
    id <- getitem cmd "id" ;;
    cmd_url <- add (url ++ "/") id ;;
    r <- requests_delete cmd_url headers ;;
    ret tt).

Definition remove_guild_commands (app guild : string)
    (headers : list (string * string)) : M unit :=
  let url := api ++ "/applications/" ++ app ++ "/guilds/" ++ guild ++ "/commands" in
  r <- requests_get url headers ;;
  jbody <- response_json r ;;
  n <- len jbody ;;
  print ("Number of guilds commands: " ++ decimal n) ;;
  for_in jbody (fun cmd =>
    id <- getitem cmd "id" ;;
    cmd_url <- add (url ++ "/") id ;;
    r <- requests_delete cmd_url headers ;;
    ret tt).

Definition work (app guild token : string) : M unit :=
  let headers := authorization token in
  remove_app_commands app headers ;;
  remove_guild_commands app guild headers.

Definition main : M unit :=
  app <- input "Application id: " ;;
  guild <- input "Guild id: " ;;
  token <- getpass "Bot token: " ;;
  work app guild token.

End Code.
End cleanup.

(** scripts/delete_all_commands.py *)
Module delete_all_commands.
Section Code.
Context {P : Platform}.

Definition remove_app_commands (app : string) (headers : list (string * string))
  : M unit :=
  let url := api ++ "/applications/" ++ app ++ "/commands" in
  r <- requests_get url headers ;;
  jbody <- response_json r ;;
  n <- len jbody ;;
  print ("Number of global commands: " ++ decimal n) ;;
  for_in jbody (fun cmd =>
    name <- getitem cmd "name" ;;
    print ("Deleting command: " ++ py_format name) ;;
    id <- getitem cmd "id" ;;
    cmd_url <- add (url ++ "/") id ;;
    r <- requests_delete cmd_url headers ;;
    ret tt).

Definition remove_guild_commands (app guild : string)
    (headers : list (string * string)) : M unit :=
  let url := api ++ "/applications/" ++ app ++ "/guilds/" ++ guild ++ "/commands" in
  r <- requests_get url headers ;;
  jbody <- response_json r ;;
  n <- len jbody ;;
  print ("Number of guilds commands: " ++ decimal n) ;;
  for_in jbody (fun cmd =>
    name <- getitem cmd "name" ;;
    print ("Deleting command: " ++ py_format name) ;;
    id <- getitem cmd "id" ;;
    cmd_url <- add (url ++ "/") id ;;
    r <- requests_delete cmd_url headers ;;
    ret tt).

Definition work (app guild token : string) : M unit :=
  let headers := authorization token in
  remove_app_commands app headers ;;
  remove_guild_commands app guild headers.

Definition main : M unit :=
  app <- input "Application id: " ;;
  guild <- input "Guild id: " ;;
  token <- getpass "Bot token: " ;;
  work app guild token.

End Code.
End delete_all_commands.

(** scripts/delete_global_cmd.py *)
Module delete_global_cmd.
Section Code.
Context {P : Platform}.

Definition remove_app_commands (app : string) (headers : list (string * string))
  : M unit :=
  let url := api ++ "/applications/" ++ app ++ "/commands" in
  r <- requests_get url headers ;;
  jbody <- response_json r ;;
  n <- len jbody ;;
  print ("Number of global commands: " ++ decimal n) ;;
  for_in jbody (fun cmd =>
    name <- getitem cmd "name" ;;
    print ("Deleting command: " ++ py_format name) ;;
    id <- getitem cmd "id" ;;
    cmd_url <- add (url ++ "/") id ;;
    r <- requests_delete cmd_url headers ;;
    ret tt).

Definition work (app token : string) : M unit :=
  let headers := authorization token in
  remove_app_commands app headers.

Definition main : M unit :=
  app <- input "Application id: " ;;
  token <- getpass "Bot token: " ;;
  work app token.

End Code.
End delete_global_cmd.

(** scripts/create_global_commands.py *)
Module create_global_commands.
Section Code.
Context {P : Platform}.

Definition CHAT_INPUT : Z := 1.
Definition GUILD_INSTALL : Z := 0.
Definition CTX_GUILD : Z := 0.
Definition CTX_BOT_DM : Z := 1.
Definition OPT_STRING : Z := 3.
Definition OPT_BOOL : Z := 5.
Definition ADMINISTRATOR_PERM : Z := 0x0000000000000008.
Definition MANAGER_PERM : Z := 0x0000000000000020.

Definition json_bootstrap : json :=
  JDict [("name", JStr "bootstrap");
         ("type", JInt CHAT_INPUT);
         ("description", JStr "Register LSDC2 bot commands in your guild");
         ("integration_types", JList [JInt GUILD_INSTALL]);
         ("contexts", JList [JInt CTX_GUILD]);
         ("default_member_permissions", JInt ADMINISTRATOR_PERM)].

Definition json_registergame : json :=
  JDict [("name", JStr "register-game");
         ("type", JInt CHAT_INPUT);
         ("description", JStr "Add a new game in the LSDC2 launcher");
         ("integration_types", JList [JInt GUILD_INSTALL]);
         ("contexts", JList [JInt CTX_BOT_DM]);
         ("default_member_permissions", JInt ADMINISTRATOR_PERM);
         ("options",
          JList [JDict [("type", JInt OPT_STRING);
                        ("name", JStr "spec-url");
                        ("description",
                         JStr "Url to LSDC2-compatible game description")];
                 JDict [("type", JInt OPT_BOOL);
                        ("name", JStr "overwrite");
                        ("description",
                         JStr "If true, overwrite any existing spec")]])].

Definition work (app token : string) : M unit :=
  let headers := authorization token in
  let url := api ++ "/applications/" ++ app ++ "/commands" in
  r <- requests_post url headers json_bootstrap ;;
  print_result "BOOSTRAP result: " r ;;
  r <- requests_post url headers json_registergame ;;
  print_result "REGISTER-GAME result: " r.

Definition main : M unit :=
  app <- input "Application id: " ;;
  token <- getpass "Bot token: " ;;
  work app token.

End Code.
End create_global_commands.

(** scripts/create_global_cmd.py.  The file leaves the right-hand sides of
    [app = ] and [token = ] blank, to be written in by whoever runs it: they
    are the arguments of [main]. *)
Module create_global_cmd.
Section Code.
Context {P : Platform}.

Definition CHAT_INPUT : Z := 1.
Definition USER : Z := 2.
Definition GUILD_INSTALL : Z := 0.
Definition CTX_GUILD : Z := 0.
Definition CTX_BOT_DM : Z := 1.
Definition OPT_STRING : Z := 3.
Definition OPT_BOOL : Z := 5.
Definition ADMINISTRATOR_PERM : Z := 0x0000000000000008.
Definition MANAGER_PERM : Z := 0x0000000000000020.

Definition json_welcomeguild : json :=
  JDict [("name", JStr "welcome-guild");
         ("type", JInt CHAT_INPUT);
         ("description",
          JStr "Deploy LSDC2 bot commands, channels and roles in your guild");
         ("integration_types", JList [JInt GUILD_INSTALL]);
         ("contexts", JList [JInt CTX_GUILD]);
         ("default_member_permissions", JInt ADMINISTRATOR_PERM)].

Definition json_goodbyeguild : json :=
  JDict [("name", JStr "goodbye-guild");
         ("type", JInt CHAT_INPUT);
         ("description",
          JStr "Remove everything related to LSDC2 bot from your guild");
         ("integration_types", JList [JInt GUILD_INSTALL]);
         ("contexts", JList [JInt CTX_GUILD]);
         ("default_member_permissions", JInt ADMINISTRATOR_PERM)].

Definition json_registergame : json :=
  JDict [("name", JStr "register-game");
         ("type", JInt CHAT_INPUT);
         ("description", JStr "Add a new game in the LSDC2 launcher");
         ("integration_types", JList [JInt GUILD_INSTALL]);
         ("contexts", JList [JInt CTX_BOT_DM]);
         ("default_member_permissions", JInt ADMINISTRATOR_PERM);
         ("options",
          JList [JDict [("type", JInt OPT_BOOL);
                        ("name", JStr "overwrite");
                        ("description",
                         JStr "If true, overwrite any existing spec")]])].

Definition json_registerenginetier : json :=
  JDict [("name", JStr "register-engine-tier");
         ("type", JInt CHAT_INPUT);
         ("description", JStr "Add/update a engine tier in the LSDC2 launcher");
         ("integration_types", JList [JInt GUILD_INSTALL]);
         ("contexts", JList [JInt CTX_BOT_DM]);
         ("default_member_permissions", JInt ADMINISTRATOR_PERM)].

Definition main (app token : string) : M unit :=
  let headers := authorization token in
  let url := api ++ "/applications/" ++ app ++ "/commands" in
  r <- requests_post url headers json_welcomeguild ;;
  print_result "WELCOME-GUILD result: " r ;;
  r <- requests_post url headers json_goodbyeguild ;;
  print_result "GOODBYE-GUILD result: " r ;;
  r <- requests_post url headers json_registergame ;;
  print_result "REGISTER-GAME result: " r ;;
  r <- requests_post url headers json_registerenginetier ;;
  print_result "REGISTER-ENGINE-TIER result: " r.

End Code.
End create_global_cmd.

(** scripts/update_cmd.py.  [app], [token], [guild_id] and [cmd_name] are
    left blank in the file as well. *)
Module update_cmd.
Section Code.
Context {P : Platform}.

Definition main (app token guild_id cmd_name : string) : M unit :=
  let headers := authorization token in
  let url := api ++ "/applications/" ++ app ++ "/guilds/" ++ guild_id
                 ++ "/commands" in
  r <- requests_get url headers ;;
  jbody <- response_json r ;;
  for_in_break jbody (fun cmd =>
    name <- getitem cmd "name" ;;
    if py_eq name cmd_name then
      id <- getitem cmd "id" ;;
      let url := api ++ "/applications/" ++ app ++ "/guilds/" ++ guild_id
                     ++ "/commands/" ++ py_format id in
      r <- requests_patch url headers cmd ;;
      print_result "UPDATE result: " r ;;
      ret true
    else ret false).

End Code.
End update_cmd.

(** ** The scripts as one family *)

Inductive script : Type :=
| Bootsrap
| Cleanup
| CreateGlobalCmd
| CreateGlobalCommands
| DeleteAllCommands
| DeleteGlobalCmd
| UpdateCmd.

(** What is written into the blanks of the two unfinished scripts. *)
Record blanks : Type := mkBlanks {
  blank_app : string;
  blank_token : string;
  blank_guild_id : string;
  blank_cmd_name : string
}.

Definition run_script {P : Platform} (sc : script) (b : blanks) : M unit :=
  match sc with
  | Bootsrap => bootsrap.main
  | Cleanup => cleanup.main
  | CreateGlobalCmd => create_global_cmd.main (blank_app b) (blank_token b)
  | CreateGlobalCommands => create_global_commands.main
  | DeleteAllCommands => delete_all_commands.main
  | DeleteGlobalCmd => delete_global_cmd.main
  | UpdateCmd =>
      update_cmd.main (blank_app b) (blank_token b) (blank_guild_id b)
        (blank_cmd_name b)
  end.

(** What a script does once it has its credentials. *)
Definition script_work {P : Platform} (sc : script)
    (app guild token cmd_name : string) : M unit :=
  match sc with
  | Bootsrap => bootsrap.work app token
  | Cleanup => cleanup.work app guild token
  | CreateGlobalCmd => create_global_cmd.main app token
  | CreateGlobalCommands => create_global_commands.work app token
  | DeleteAllCommands => delete_all_commands.work app guild token
  | DeleteGlobalCmd => delete_global_cmd.work app token
  | UpdateCmd => update_cmd.main app token guild cmd_name
  end.

(** The five list-then-delete blocks of the delete scripts. *)
Inductive sweep : Type :=
| CleanupApp
| CleanupGuild
| DeleteAllApp
| DeleteAllGuild
| DeleteGlobal.

Definition run_sweep {P : Platform} (sw : sweep) (app guild : string)
    (headers : list (string * string)) : M unit :=
  match sw with
  | CleanupApp => cleanup.remove_app_commands app headers
  | CleanupGuild => cleanup.remove_guild_commands app guild headers
  | DeleteAllApp => delete_all_commands.remove_app_commands app headers
  | DeleteAllGuild => delete_all_commands.remove_guild_commands app guild headers
  | DeleteGlobal => delete_global_cmd.remove_app_commands app headers
  end.

(** ** The specification's vocabulary *)

(** The specification's [Scope]. *)
Inductive scope : Type :=
| Global
| Guild (guild_id : string).

(** The base path of a scope, in the specification's words. *)
Definition base_path (app_id : string) (sc : scope) : string :=
  match sc with
  | Global => "/applications/" ++ app_id ++ "/commands"
  | Guild guild_id =>
      "/applications/" ++ app_id ++ "/guilds/" ++ guild_id ++ "/commands"
  end.

Definition sweep_scope (sw : sweep) (guild : string) : scope :=
  match sw with
  | CleanupApp | DeleteAllApp | DeleteGlobal => Global
  | CleanupGuild | DeleteAllGuild => Guild guild
  end.

(** The word the block prints in its count line. *)
Definition sweep_label (sw : sweep) : string :=
  match sw with
  | CleanupApp | DeleteAllApp | DeleteGlobal => "global"
  | CleanupGuild | DeleteAllGuild => "guilds"
  end.

(** Whether the block prints a line per command before deleting it. *)
Definition sweep_announces (sw : sweep) : bool :=
  match sw with
  | CleanupApp | CleanupGuild => false
  | DeleteAllApp | DeleteAllGuild | DeleteGlobal => true
  end.

(** Whether a script asks for its credentials at the console. *)
Definition prompting (sc : script) : bool :=
  match sc with
  | CreateGlobalCmd | UpdateCmd => false
  | _ => true
  end.

(** Whether a script asks for a guild id. *)
Definition asks_guild (sc : script) : bool :=
  match sc with
  | Cleanup | DeleteAllCommands => true
  | _ => false
  end.

(** Whether a script deletes or updates (the others only create). *)
Definition lists_first (sc : script) : bool :=
  match sc with
  | Cleanup | DeleteAllCommands | DeleteGlobalCmd | UpdateCmd => true
  | Bootsrap | CreateGlobalCmd | CreateGlobalCommands => false
  end.

(** ** Reading a log *)

Definition is_mutating (m : method) : bool :=
  match m with
  | GET => false
  | POST | PATCH | DELETE => true
  end.

Fixpoint requests_of (t : list event) : list request :=
  match t with
  | [] => []
  | EvHttp rq _ :: t' => rq :: requests_of t'
  | _ :: t' => requests_of t'
  end.

Fixpoint printed (t : list event) : list string :=
  match t with
  | [] => []
  | EvPrint line :: t' => line :: printed t'
  | _ :: t' => printed t'
  end.

(** The status of every answered call of a log, in order. *)
Fixpoint statuses (t : list event) : list nat :=
  match t with
  | [] => []
  | EvHttp _ (Answered r) :: t' => status_code r :: statuses t'
  | _ :: t' => statuses t'
  end.

Definition is_console (e : event) : bool :=
  match e with
  | EvInput _ _ | EvGetpass _ _ => true
  | _ => false
  end.

Definition is_success (rp : reply) : bool :=
  match rp with
  | Answered r => (200 <=? status_code r)%nat && (status_code r <? 300)%nat
  | Unreachable => false
  end.

(** How many deletes of a log succeeded and how many failed. *)
Fixpoint tally (t : list event) : nat * nat :=
  match t with
  | [] => (0, 0)
  | EvHttp rq rp :: t' =>
      let (ok, ko) := tally t' in
      match verb rq with
      | DELETE => if is_success rp then (S ok, ko) else (ok, S ko)
      | _ => (ok, ko)
      end
  | _ :: t' => tally t'
  end.

(** What a run shows to whoever started the script: how it ended and
    what it printed. *)
Definition shown {P : Platform} {A} (r : result A) : outcome A * list string :=
  (out r, printed (emitted r)).

(** A family of runs reports its delete tally when the tally can be read
    off what each run shows. *)
Definition reports_tally {P : Platform} {A} (runs : list (result A)) : Prop :=
  exists read : outcome A * list string -> nat * nat,
    Forall (fun r => read (shown r) = tally (emitted r)) runs.

(** A listed command the delete loops can process: a dict whose ["id"] is a
    string (and that has a ["name"], where the loop prints it). *)
Definition command_id (c : json) : option string :=
  match py_getitem c "id" with
  | Done (JStr s) => Some s
  | _ => None
  end.

Definition command_name (c : json) : option json :=
  match py_getitem c "name" with
  | Done v => Some v
  | Raised _ => None
  end.

Definition deletable (announce : bool) (c : json) : bool :=
  match command_id c with
  | Some _ =>
      if announce
      then match command_name c with Some _ => true | None => false end
      else true
  | None => false
  end.

Definition id_of (c : json) : string :=
  match command_id c with
  | Some s => s
  | None => EmptyString
  end.

Definition delete_request (u : string) (h : list (string * string)) (c : json)
  : request :=
  mkRequest DELETE (u ++ "/" ++ id_of c) h None.

Definition announcement {P : Platform} (c : json) : string :=
  match command_name c with
  | Some v => "Deleting command: " ++ py_format v
  | None => EmptyString
  end.

(** Every call of a verb gets a response (of whatever status). *)
Definition always_answers {P : Platform} (m : method) : Prop :=
  forall rq w, verb rq = m -> exists r, fst (serve rq w) = Answered r.

(** The request [rq] acts on a command that a GET earlier in the log [pre]
    listed: its URL is that GET's URL followed by [/] and the command's id. *)
Definition targets_listed {P : Platform} (pre : list event) (rq : request)
  : Prop :=
  exists rq0 r0 jbody items c id,
    In (EvHttp rq0 (Answered r0)) pre /\
    verb rq0 = GET /\
    decoded r0 = Some jbody /\
    py_iter jbody = Done items /\
    In c items /\
    py_getitem c "id" = Done id /\
    url rq = url rq0 ++ "/" ++ py_format id.

(** A property of every HTTP call of a log, given what the log held before
    the call. *)
Definition each_request (good : list event -> request -> Prop)
    (t : list event) : Prop :=
  forall pre rq rp post, t = (pre ++ EvHttp rq rp :: post)%list -> good pre rq.

(** No create, update or delete without a list of the same scope before. *)
Definition fetch_before_change {P : Platform} (pre : list event) (rq : request)
  : Prop :=
  is_mutating (verb rq) = true -> targets_listed pre rq.

(** The URL rule of the remote API: the base path of the scope for GET and
    POST, the base path followed by the id of a listed command for PATCH and
    DELETE. *)
Definition routed {P : Platform} (app guild : string)
    (pre : list event) (rq : request) : Prop :=
  exists sc, In sc [Global; Guild guild] /\
    match verb rq with
    | GET | POST => url rq = api ++ base_path app sc
    | PATCH | DELETE =>
        exists rq0 r0 jbody items c id,
          url rq0 = api ++ base_path app sc /\
          In (EvHttp rq0 (Answered r0)) pre /\
          verb rq0 = GET /\
          decoded r0 = Some jbody /\
          py_iter jbody = Done items /\
          In c items /\
          py_getitem c "id" = Done id /\
          url rq = api ++ base_path app sc ++ "/" ++ py_format id
    end.

(** What was typed at the first prompt that reads [prompt]. *)
Fixpoint typed_at (prompt : string) (t : list event) : string :=
  match t with
  | [] => EmptyString
  | EvInput p (Some line) :: t' | EvGetpass p (Some line) :: t' =>
      if String.eqb p prompt then line else typed_at prompt t'
  | _ :: t' => typed_at prompt t'
  end.

(** The credentials a run works with: typed at the prompts, or written
    into the blanks. *)
Definition app_of (sc : script) (b : blanks) (t : list event) : string :=
  if prompting sc then typed_at "Application id: " t else blank_app b.

Definition guild_of (sc : script) (b : blanks) (t : list event) : string :=
  if prompting sc then typed_at "Guild id: " t else blank_guild_id b.

Definition token_of (sc : script) (b : blanks) (t : list event) : string :=
  if prompting sc then typed_at "Bot token: " t else blank_token b.

Definition authorized (token : string) (rq : request) : Prop :=
  headers rq = [("Authorization", "Bot " ++ token)].

(** ** Invariants of a log *)

(** Running [m] after any log that satisfies [J] gives a log that satisfies
    [J], however the run ends. *)
Definition preserves {P : Platform} {A} (J : list event -> Prop) (m : M A)
  : Prop :=
  forall s h, J h -> J (h ++ emitted (m s))%list.

(** The invariant of the steps that follow a call: the calls so far are
    [good] and the event [ev] (the call with its reply) is in the log. *)
Definition noted (good : list event -> request -> Prop) (ev : event)
    (h : list event) : Prop :=
  each_request good h /\ In ev h.

(** The result of a run that continues a log [pre]. *)
Definition after {P : Platform} {A} (pre : list event) (r : result A)
  : result A :=
  mkResult (out r) (final r) (pre ++ emitted r).

(** The machine once the service has taken the call [rq]. *)
Definition served {P : Platform} (rq : request) (s : machine) : machine :=
  mkMachine (keyboard s) (snd (serve rq (remote s))).

(** The line a delete block prints after its list call. *)
Definition count_line (sw : sweep) (n : nat) : string :=
  "Number of " ++ sweep_label sw ++ " commands: " ++ decimal n.

(** One round of a delete loop on a command it can process: the call is
    made, answered, and the loop goes on. *)
Definition deletes_one {P : Platform} (announce : bool) (u : string)
    (h : list (string * string)) (body : json -> M unit) : Prop :=
  forall c s, deletable announce c = true ->
    exists r,
      body c s
      = mkResult (Done tt) (served (delete_request u h c) s)
          ((if announce then [EvPrint (announcement c)] else [])
             ++ [EvHttp (delete_request u h c) (Answered r)]).

(** A step that leaves no trace. *)
Definition silent {P : Platform} {A} (m : M A) : Prop :=
  forall s, emitted (m s) = [].

(** The option the spinup scenario asks for: named [game-type], of the
    string option type, required. *)
Definition is_game_type_option (o : json) : Prop :=
  py_getitem o "name" = Done (JStr "game-type") /\
  py_getitem o "type" = Done (JInt 3) /\
  py_getitem o "required" = Done (JBool true).

(** What the update script's loop must see in a command to pass over it. *)
Definition passed_over (cmd_name : string) (c : json) : bool :=
  match command_name c with
  | Some v => negb (py_eq v cmd_name)
  | None => false
  end.

(** The claim that a run fails. *)
Definition fails {P : Platform} {A} (r : result A) : Prop :=
  exists e, out r = Raised e.

(** The claim that a log shows the credentials being asked for: the
    application id at a prompt, the token at a prompt without echo. *)
Definition asks_credentials (t : list event) : Prop :=
  (exists p a, In (EvInput p a) t) /\ (exists p k, In (EvGetpass p k) t).

(** ** Replies as text *)

(** The body of a reply: compact JSON text. *)
Fixpoint json_escape (s : string) : string :=
  match s with
  | EmptyString => EmptyString
  | String c s' =>
      let n := nat_of_ascii c in
      (if Ascii.eqb c double_quote || Ascii.eqb c backslash then escaped c
       else if (n <? 32)%nat
       then String backslash
              (String "u" (String "0" (String "0"
                 (String (hex_digit (n / 16))
                    (String (hex_digit (n mod 16)) EmptyString)))))
       else String c EmptyString) ++ json_escape s'
  end.

Definition quoted (s : string) : string :=
  String double_quote (json_escape s) ++ String double_quote EmptyString.

Fixpoint dumps (v : json) : string :=
  match v with
  | JNull => "null"
  | JBool true => "true"
  | JBool false => "false"
  | JInt n => NilZero.string_of_int (Z.to_int n)
  | JStr s => quoted s
  | JList items =>
      "[" ++ (fix go (l : list json) : string :=
                match l with
                | [] => EmptyString
                | [x] => dumps x
                | x :: l' => dumps x ++ "," ++ go l'
                end) items ++ "]"
  | JDict fields =>
      "{" ++ (fix go (l : list (string * json)) : string :=
                match l with
                | [] => EmptyString
                | [(k, x)] => quoted k ++ ":" ++ dumps x
                | (k, x) :: l' => quoted k ++ ":" ++ dumps x ++ "," ++ go l'
                end) fields ++ "}"
  end.

Definition body (status : nat) (v : json) : response :=
  mkResponse status (dumps v) (Some v).

(** [repr] of a decoded value whose strings are plain printable text. *)
Fixpoint repr (v : json) : string :=
  match v with
  | JNull => "None"
  | JBool true => "True"
  | JBool false => "False"
  | JInt n => NilZero.string_of_int (Z.to_int n)
  | JStr s => "'" ++ s ++ "'"
  | JList items =>
      "[" ++ (fix go (l : list json) : string :=
                match l with
                | [] => EmptyString
                | [x] => repr x
                | x :: l' => repr x ++ ", " ++ go l'
                end) items ++ "]"
  | JDict fields =>
      "{" ++ (fix go (l : list (string * json)) : string :=
                match l with
                | [] => EmptyString
                | [(k, x)] => "'" ++ k ++ "': " ++ repr x
                | (k, x) :: l' => "'" ++ k ++ "': " ++ repr x ++ ", " ++ go l'
                end) fields ++ "}"
  end.

(** ** A remote side that answers from a script

    The simplest outside world: the replies are given in advance and handed
    out in order, whatever is asked; once they are used up every call is
    answered 204 with an empty body. *)
Module Scripted.

Definition handle (rq : request) (replies : list response)
  : reply * list response :=
  match replies with
  | r :: rest => (Answered r, rest)
  | [] => (Answered (mkResponse 204 EmptyString None), [])
  end.

Definition platform : Platform :=
  {| world := list response; serve := handle; py_repr := repr |}.

Definition ok : response := mkResponse 204 EmptyString None.

Definition not_found : response :=
  body 404 (JDict [("message", JStr "Unknown application command");
                   ("code", JInt 10063)]).

End Scripted.

(** ** The remote service *)

(** Modelled from the spec: the remote service is a third party and has no
    code in the repository.  The model follows the specification's section
    on the client's operations and errors: list, create (the service assigns
    the id and keeps names unique within a scope), update and delete by id
    ([NotFoundError] for an unknown id, state unchanged), [AuthError] for a
    bad token, [NotFoundError] for an unknown application or guild,
    [ValidationError] for a payload without a name.  Other clients may
    delete commands between two calls of the script. *)
Module Discord.

Definition scope_eqb (a b : scope) : bool :=
  match a, b with
  | Global, Global => true
  | Guild g, Guild h => String.eqb g h
  | _, _ => false
  end.

(** Modelled from the spec: what the service holds.  The commands of every
    scope, the token and the ids it accepts, the next id it will assign, and
    what other clients are about to do ([rivals]: before the call numbered
    [n] is taken, the command with that id is removed from that scope). *)
Record service : Type := mkService {
  bot_token : string;
  application : string;
  guilds : list string;
  registry : list (scope * json);
  next_id : nat;
  clock : nat;
  rivals : list (nat * (scope * string))
}.

Definition has_id (id : string) (c : json) : bool :=
  match command_id c with
  | Some i => String.eqb i id
  | None => false
  end.

Definition has_name (name : string) (c : json) : bool :=
  match command_name c with
  | Some v => py_eq v name
  | None => false
  end.

Definition listing (sc : scope) (reg : list (scope * json)) : list json :=
  map snd (filter (fun e => scope_eqb (fst e) sc) reg).

Definition known (sc : scope) (id : string) (reg : list (scope * json)) : bool :=
  existsb (fun e => scope_eqb (fst e) sc && has_id id (snd e)) reg.

Definition lookup (sc : scope) (id : string) (reg : list (scope * json))
  : option json :=
  option_map snd
    (find (fun e => scope_eqb (fst e) sc && has_id id (snd e)) reg).

Definition without_id (sc : scope) (id : string) (reg : list (scope * json))
  : list (scope * json) :=
  filter (fun e => negb (scope_eqb (fst e) sc && has_id id (snd e))) reg.

Definition without_name (sc : scope) (name : string)
    (reg : list (scope * json)) : list (scope * json) :=
  filter (fun e => negb (scope_eqb (fst e) sc && has_name name (snd e))) reg.

(** A patch overrides the fields it names and keeps the others. *)
Fixpoint patched (old new : list (string * json)) : list (string * json) :=
  match old with
  | [] => []
  | (k, v) :: rest =>
      (k, if String.eqb k "id" then v
          else match dict_get k new with Some v' => v' | None => v end)
      :: patched rest new
  end.

Definition patch_command (sc : scope) (id : string)
    (new : list (string * json)) (e : scope * json) : scope * json :=
  if scope_eqb (fst e) sc && has_id id (snd e)
  then match snd e with
       | JDict old => (fst e, JDict (patched old new))
       | _ => e
       end
  else e.

Fixpoint strip_prefix (p s : string) : option string :=
  match p, s with
  | EmptyString, _ => Some s
  | String c p', String d s' =>
      if Ascii.eqb c d then strip_prefix p' s' else None
  | String _ _, EmptyString => None
  end.

Fixpoint split_path (s : string) : list string :=
  match s with
  | EmptyString => [EmptyString]
  | String c s' =>
      if Ascii.eqb c "/" then EmptyString :: split_path s'
      else match split_path s' with
           | h :: t => String c h :: t
           | [] => [String c EmptyString]
           end
  end.

(** The scope a URL names and, when it has one, the command id. *)
Definition route (sv : service) (u : string) : option (scope * option string) :=
  match strip_prefix (api ++ "/applications/" ++ application sv ++ "/") u with
  | None => None
  | Some rest =>
      match split_path rest with
      | [a] => if String.eqb a "commands" then Some (Global, None) else None
      | [a; id] =>
          if String.eqb a "commands" then Some (Global, Some id) else None
      | [a; g; c] =>
          if String.eqb a "guilds" && String.eqb c "commands"
             && existsb (String.eqb g) (guilds sv)
          then Some (Guild g, None) else None
      | [a; g; c; id] =>
          if String.eqb a "guilds" && String.eqb c "commands"
             && existsb (String.eqb g) (guilds sv)
          then Some (Guild g, Some id) else None
      | _ => None
      end
  end.

Definition failure (status : nat) (message : string) (code : Z) : response :=
  body status (JDict [("message", JStr message); ("code", JInt code)]).

Definition success (status : nat) (v : json) : response :=
  body status v.

Definition authenticated (sv : service) (rq : request) : bool :=
  existsb (fun h => String.eqb (fst h) "Authorization"
                    && String.eqb (snd h) ("Bot " ++ bot_token sv))
          (headers rq).

(** What the other clients do before the service takes its next call. *)
Definition interfered (sv : service) : list (scope * json) :=
  fold_left
    (fun reg r =>
       if Nat.eqb (fst r) (clock sv)
       then without_id (fst (snd r)) (snd (snd r)) reg
       else reg)
    (rivals sv) (registry sv).

Definition with_registry (sv : service) (reg : list (scope * json)) : service :=
  mkService (bot_token sv) (application sv) (guilds sv) reg (next_id sv)
            (S (clock sv)) (rivals sv).

(** Modelled from the spec: [createCommand].  The service assigns the id;
    a command of the same name in the scope is replaced, which keeps names
    unique within a scope; a payload without a name is a validation error. *)
Definition create (sv : service) (reg : list (scope * json)) (sc : scope)
    (payload : option json) : reply * service :=
  match payload with
  | Some (JDict fields) =>
      match dict_get "name" fields with
      | Some (JStr name) =>
          let c := JDict (("id", JStr (decimal (next_id sv))) :: fields) in
          (Answered (success 201 c),
           mkService (bot_token sv) (application sv) (guilds sv)
                     (without_name sc name reg ++ [(sc, c)])
                     (S (next_id sv)) (S (clock sv)) (rivals sv))
      | _ => (Answered (failure 400 "Invalid Form Body" 50035),
              with_registry sv reg)
      end
  | _ => (Answered (failure 400 "Invalid Form Body" 50035),
          with_registry sv reg)
  end.

(** Modelled from the spec: one call, by verb and path.  A bad token is an
    [AuthError] (401), an unknown application, guild or command id a
    [NotFoundError] (404) that leaves the state unchanged. *)
Definition handle (rq : request) (sv : service) : reply * service :=
  let reg := interfered sv in
  if negb (authenticated sv rq)
  then (Answered (failure 401 "401: Unauthorized" 0), with_registry sv reg)
  else
    match route sv (url rq), verb rq with
    | Some (sc, None), GET =>
        (Answered (success 200 (JList (listing sc reg))), with_registry sv reg)
    | Some (sc, None), POST => create sv reg sc (json_arg rq)
    | Some (sc, Some id), DELETE =>
        if known sc id reg
        then (Answered (mkResponse 204 EmptyString None),
              with_registry sv (without_id sc id reg))
        else (Answered (failure 404 "Unknown application command" 10063),
              with_registry sv reg)
    | Some (sc, Some id), PATCH =>
        match lookup sc id reg, json_arg rq with
        | Some (JDict old), Some (JDict new) =>
            (Answered (success 200 (JDict (patched old new))),
             with_registry sv (map (patch_command sc id new) reg))
        | Some _, _ => (Answered (failure 400 "Invalid Form Body" 50035),
                        with_registry sv reg)
        | None, _ =>
            (Answered (failure 404 "Unknown application command" 10063),
             with_registry sv reg)
        end
    | Some _, _ =>
        (Answered (failure 405 "405: Method Not Allowed" 0),
         with_registry sv reg)
    | None, _ =>
        (Answered (failure 404 "404: Not Found" 0), with_registry sv reg)
    end.

Definition platform : Platform :=
  {| world := service; serve := handle; py_repr := repr |}.

(** The service once a client with the right token has posted [payload]
    to the global scope, no other client interfering. *)
Definition posted (sv : service) (payload : json) : service :=
  snd (create sv (registry sv) Global (Some payload)).

(** [listCommands(scope)] as a client with the right token calls it. *)
Definition list_commands (sv : service) (sc : scope) : reply :=
  fst (handle (mkRequest GET (api ++ base_path (application sv) sc)
                 (authorization (bot_token sv)) None) sv).

End Discord.

(** ** The specification's delete scenario

    Guild 123 holds three commands; while the script deletes them, another
    client removes the second one just before the script's own delete of it
    arrives. *)
Module Scenario.

Definition command (id name : string) : json :=
  JDict [("id", JStr id); ("name", JStr name)].

Definition guild_url : string := api ++ base_path "42" (Guild "123").

Definition first : json := command "1001" "spinup".
Definition second : json := command "1002" "destroy".
Definition third : json := command "1003" "register-game".

Definition guild_123 (rivals : list (nat * (scope * string))) : Discord.service :=
  Discord.mkService "s3cret" "42" ["123"]
    [(Guild "123", first); (Guild "123", second); (Guild "123", third)]
    2000 0 rivals.

(** The script's calls are numbered from 0: the two lists, then the three
    deletes.  The rival acts before call 3, the delete of [second]. *)
Definition contended : Discord.service :=
  guild_123 [(3, (Guild "123", "1002"))].

Definition quiet : Discord.service := guild_123 [].

Definition operator (sv : Discord.service)
  : @machine Discord.platform :=
  @mkMachine Discord.platform ["42"; "123"; "s3cret"] sv.

Definition cleanup_run (sv : Discord.service) : @result Discord.platform unit :=
  @cleanup.main Discord.platform (operator sv).

Definition delete_all_run (sv : Discord.service)
  : @result Discord.platform unit :=
  @delete_all_commands.main Discord.platform (operator sv).

(** The machine when the guild block of a delete script starts: the three
    lines are read and the list of the global scope is answered. *)
Definition at_guild_block (sv : Discord.service)
  : @machine Discord.platform :=
  @served Discord.platform
    (mkRequest GET (api ++ base_path "42" Global) (authorization "s3cret")
       None)
    (@mkMachine Discord.platform [] sv).

(** The same guild seen from the script's side only, as scripted replies:
    the list, then the answers to the three deletes. *)
Definition listed : response := body 200 (JList [first; second; third]).

Definition second_fails : list response :=
  [listed; Scripted.ok; Scripted.not_found; Scripted.ok].

Definition all_succeed : list response :=
  [listed; Scripted.ok; Scripted.ok; Scripted.ok].

(** The guild block of delete_all_commands.py on its own. *)
Definition guild_block (replies : list response)
  : @result Scripted.platform unit :=
  @run_sweep Scripted.platform DeleteAllGuild "42" "123"
    (authorization "s3cret") (@mkMachine Scripted.platform [] replies).

(** update_cmd.py with its blanks filled in, against the listed guild. *)
Definition update_run (cmd_name : string) (replies : list response)
  : @result Scripted.platform unit :=
  @update_cmd.main Scripted.platform "42" "s3cret" "123" cmd_name
    (@mkMachine Scripted.platform [] replies).

(** The calls both delete scripts make in this guild. *)
Definition expected_calls : list request :=
  let h := authorization "s3cret" in
  [mkRequest GET (api ++ base_path "42" Global) h None;
   mkRequest GET guild_url h None;
   delete_request guild_url h first;
   delete_request guild_url h second;
   delete_request guild_url h third].

(** Someone who runs a script that asks for no guild. *)
Definition admin (sv : Discord.service) : @machine Discord.platform :=
  @mkMachine Discord.platform ["42"; "s3cret"] sv.

(** bootsrap.py typed in the same way, every post answered 204. *)
Definition bootsrap_run : @result Scripted.platform unit :=
  @bootsrap.main Scripted.platform
    (@mkMachine Scripted.platform ["42"; "s3cret"] []).

(** cleanup.py against scripted replies; the first one answers the list of
    the global scope. *)
Definition cleanup_on (replies : list response)
  : @result Scripted.platform unit :=
  @cleanup.main Scripted.platform
    (@mkMachine Scripted.platform ["42"; "123"; "s3cret"] replies).

Definition nothing_listed : response := body 200 (JList []).

Definition no_blanks : blanks := mkBlanks "42" "s3cret" "123" "status".

End Scenario.

(** ** The scripts off the expected path *)

(** The body of the loop of a delete block, as the five blocks write it:
    the blocks that announce print the name first. *)
Definition sweep_body {P : Platform} (announce : bool) (u : string)
    (h : list (string * string)) : json -> M unit :=
  if announce
  then (fun cmd =>
          name <- getitem cmd "name" ;;
          print ("Deleting command: " ++ py_format name) ;;
          id <- getitem cmd "id" ;;
          cmd_url <- add (u ++ "/") id ;;
          r <- requests_delete cmd_url h ;;
          ret tt)
  else (fun cmd =>
          id <- getitem cmd "id" ;;
          cmd_url <- add (u ++ "/") id ;;
          r <- requests_delete cmd_url h ;;
          ret tt).

(** The body of the loop of update_cmd.py, as the script writes it: [true]
    when it reaches [break]. *)
Definition update_body {P : Platform} (app guild_id cmd_name : string)
    (h : list (string * string)) : json -> M bool :=
  fun cmd =>
    name <- getitem cmd "name" ;;
    if py_eq name cmd_name then
      id <- getitem cmd "id" ;;
      let url := api ++ "/applications/" ++ app ++ "/guilds/" ++ guild_id
                     ++ "/commands/" ++ py_format id in
      r <- requests_patch url h cmd ;;
      print_result "UPDATE result: " r ;;
      ret true
    else ret false.

(** The PATCH update_cmd.py sends for a listed command. *)
Definition patch_request {P : Platform} (app guild_id token : string)
    (c id : json) : request :=
  mkRequest PATCH
    (api ++ base_path app (Guild guild_id) ++ "/" ++ py_format id)
    (authorization token) (Some c).

(** A listed command that bears the name update_cmd.py looks for. *)
Definition bears (cmd_name : string) (c : json) : bool :=
  match command_name c with
  | Some v => py_eq v cmd_name
  | None => false
  end.

(** What stops a delete block before it prints anything: the list call
    raises, its body is not JSON, or the decoded body has no [len]. *)
Definition list_failure (rp : reply) : option exn :=
  match rp with
  | Unreachable => Some RequestException
  | Answered r =>
      match decoded r with
      | None => Some JSONDecodeError
      | Some v =>
          match py_len v with
          | Raised e => Some e
          | Done _ => None
          end
      end
  end.

(** The payloads a create script posts, in the order of the file. *)
Definition payloads (sc : script) : list json :=
  match sc with
  | Bootsrap =>
      [bootsrap.json_bootstrap; bootsrap.json_registergame;
       bootsrap.json_spinupgame]
  | CreateGlobalCmd =>
      [create_global_cmd.json_welcomeguild;
       create_global_cmd.json_goodbyeguild;
       create_global_cmd.json_registergame;
       create_global_cmd.json_registerenginetier]
  | CreateGlobalCommands =>
      [create_global_commands.json_bootstrap;
       create_global_commands.json_registergame]
  | _ => []
  end.

(** How many lines a script reads from the console. *)
Definition prompts_needed (sc : script) : nat :=
  if prompting sc then (if asks_guild sc then 3 else 2) else 0.

(** The scripts made of delete blocks, and their first block. *)
Definition deletes_only (sc : script) : bool :=
  match sc with
  | Cleanup | DeleteAllCommands | DeleteGlobalCmd => true
  | _ => false
  end.

Definition first_sweep (sc : script) : sweep :=
  match sc with
  | Cleanup => CleanupApp
  | DeleteAllCommands => DeleteAllApp
  | _ => DeleteGlobal
  end.

Definition second_sweep (sc : script) : sweep :=
  match sc with
  | Cleanup => CleanupGuild
  | _ => DeleteAllGuild
  end.

(** The prompts of a delete script, answered. *)
Definition answered_prompts (sc : script) (app guild token : string)
  : list event :=
  (EvInput "Application id: " (Some app)
     :: (if asks_guild sc then [EvInput "Guild id: " (Some guild)] else [])
     ++ [EvGetpass "Bot token: " (Some token)])%list.

Definition typed_lines (sc : script) (app guild token : string)
    (more : list string) : list string :=
  (app :: (if asks_guild sc then [guild] else []) ++ token :: more)%list.

(** A log without its replies: what was printed and what was asked, in
    order. *)
Fixpoint outline (t : list event) : list (string + request) :=
  match t with
  | [] => []
  | EvPrint line :: t' => inl line :: outline t'
  | EvHttp rq _ :: t' => inr rq :: outline t'
  | _ :: t' => outline t'
  end.

(** What one round of a delete loop leaves in the outline. *)
Definition round_outline {P : Platform} (announce : bool) (u : string)
    (h : list (string * string)) (c : json) : list (string + request) :=
  ((if announce then [inl (announcement c)] else [])
     ++ [inr (delete_request u h c)])%list.

(** The operations of the specification's client. *)
Inductive operation : Type :=
| ListCommands
| CreateCommand
| UpdateCommand
| DeleteCommand.

(** The verb of an operation, in the specification's words. *)
Definition rule_verb (op : operation) : method :=
  match op with
  | ListCommands => GET
  | CreateCommand => POST
  | UpdateCommand => PATCH
  | DeleteCommand => DELETE
  end.

(** The URL of an operation, in the specification's words: the base path
    of the scope, suffixed with the command id for update and delete. *)
Definition rule_url (app : string) (scp : scope) (op : operation)
    (id : string) : string :=
  match op with
  | ListCommands | CreateCommand => api ++ base_path app scp
  | UpdateCommand | DeleteCommand => api ++ base_path app scp ++ "/" ++ id
  end.

(** The operations each script is there for. *)
Definition script_operations (sc : script) : list operation :=
  match sc with
  | Bootsrap | CreateGlobalCmd | CreateGlobalCommands => [CreateCommand]
  | Cleanup | DeleteAllCommands | DeleteGlobalCmd =>
      [ListCommands; DeleteCommand]
  | UpdateCmd => [ListCommands; UpdateCommand]
  end.

(** The scope a listing script lists first. *)
Definition first_scope (sc : script) (guild : string) : scope :=
  match sc with
  | UpdateCmd => Guild guild
  | _ => Global
  end.

(** The command [c], with id [id], is in a list that an answered GET of
    the scope's base path returned earlier in the log. *)
Definition listed_before {P : Platform} (app : string) (scp : scope)
    (pre : list event) (c id : json) : Prop :=
  exists rq0 r0 jbody items,
    url rq0 = api ++ base_path app scp /\
    verb rq0 = GET /\
    In (EvHttp rq0 (Answered r0)) pre /\
    decoded r0 = Some jbody /\
    py_iter jbody = Done items /\
    In c items /\
    py_getitem c "id" = Done id.

(** The request carries out one of the script's operations with the verb
    and the URL of the rule: a list with no body; a create with one of the
    script's payloads; an update or a delete of a command listed before,
    the update with that command as body, the delete with none. *)
Definition follows_rule {P : Platform} (sc : script) (app guild : string)
    (pre : list event) (rq : request) : Prop :=
  exists op scp,
    In op (script_operations sc) /\
    In scp [Global; Guild guild] /\
    verb rq = rule_verb op /\
    match op with
    | ListCommands =>
        url rq = rule_url app scp op EmptyString /\ json_arg rq = None
    | CreateCommand =>
        url rq = rule_url app scp op EmptyString /\
        exists p, In p (payloads sc) /\ json_arg rq = Some p
    | UpdateCommand =>
        exists c id,
          listed_before app scp pre c id /\
          url rq = rule_url app scp op (py_format id) /\
          json_arg rq = Some c
    | DeleteCommand =>
        exists c id,
          listed_before app scp pre c id /\
          url rq = rule_url app scp op (py_format id) /\
          json_arg rq = None
    end.

(** A remote side that may be out of reach: the replies are handed out in
    order, raising ones included; once they are used up every call raises. *)
Module Flaky.

Definition handle (rq : request) (replies : list reply)
  : reply * list reply :=
  match replies with
  | rp :: rest => (rp, rest)
  | [] => (Unreachable, [])
  end.

Definition platform : Platform :=
  {| world := list reply; serve := handle; py_repr := repr |}.

End Flaky.

(** Further runs against scripted replies. *)
Module Cases.

Definition refused : response :=
  body 401 (JDict [("message", JStr "401: Unauthorized"); ("code", JInt 0)]).

Definition nameless : json := JDict [("name", JStr "orphan")].

Definition global_block (replies : list response)
  : @result Scripted.platform unit :=
  @run_sweep Scripted.platform DeleteGlobal "42" "123"
    (authorization "s3cret") (@mkMachine Scripted.platform [] replies).

Definition global_url : string := api ++ base_path "42" Global.

Definition bad_gateway : response := mkResponse 502 "Bad Gateway" None.

(** The guild block of cleanup.py (it does not announce). *)
Definition quiet_guild_block (replies : list response)
  : @result Scripted.platform unit :=
  @run_sweep Scripted.platform CleanupGuild "42" "123"
    (authorization "s3cret") (@mkMachine Scripted.platform [] replies).

(** The guild block of delete_all_commands.py when the connection drops
    after the list call. *)
Definition dropped_guild_block : @result Flaky.platform unit :=
  @run_sweep Flaky.platform DeleteAllGuild "42" "123"
    (authorization "s3cret")
    (@mkMachine Flaky.platform [] [Answered Scenario.listed; Unreachable]).

(** cleanup.py with one global command and the three guild commands. *)
Definition both_scopes : list response :=
  [body 200 (JList [Scenario.third]); Scripted.ok;
   Scenario.listed; Scripted.ok; Scripted.ok; Scripted.ok].

End Cases.

(** * Properties *)

(** ** The embedding on small inputs *)

Example decimal_12 : decimal 12 = "12".
Proof. reflexivity. Qed.

Example bytes_repr_plain : bytes_repr "ok" = "b'ok'".
Proof. reflexivity. Qed.

Example bytes_repr_newline :
  bytes_repr (String (ascii_of_nat 10) "x")
  = "b'" ++ String backslash "nx'".
Proof. reflexivity. Qed.

Example bytes_repr_quote :
  bytes_repr "it's"
  = "b" ++ String double_quote ("it's" ++ String double_quote EmptyString).
Proof. reflexivity. Qed.

Example len_of_error_body :
  py_len (JDict [("message", JStr "401: Unauthorized"); ("code", JInt 0)])
  = Done 2.
Proof. reflexivity. Qed.

Example iter_of_error_body :
  py_iter (JDict [("message", JStr "401: Unauthorized"); ("code", JInt 0)])
  = Done [JStr "message"; JStr "code"].
Proof. reflexivity. Qed.

Example getitem_of_key : py_getitem (JStr "message") "id" = Raised TypeError.
Proof. reflexivity. Qed.

(** A delete block whose list call is refused: the error body is a dict of
    two keys, so the block prints a count of 2 and then raises on the first
    key. *)
Example delete_block_on_error_body :
  let res :=
    @run_sweep Scripted.platform DeleteGlobal "42" "123"
      (authorization "wrong")
      (@mkMachine Scripted.platform []
         [body 401 (JDict [("message", JStr "401: Unauthorized");
                           ("code", JInt 0)])]) in
  out res = Raised TypeError /\
  printed (emitted res) = ["Number of global commands: 2"] /\
  length (requests_of (emitted res)) = 1.
Proof. vm_compute. repeat split. Qed.

Example bootsrap_prints :
  printed (emitted Scenario.bootsrap_run)
  = ["BOOSTRAP result:  b''"; "ADD-GAME result:  b''"; "ADD-GAME result:  b''"].
Proof. vm_compute. reflexivity. Qed.

Example update_cmd_patches_the_named_command :
  map verb
    (requests_of
       (emitted (Scenario.update_run "destroy"
                   [Scenario.listed; body 200 Scenario.second])))
  = [GET; PATCH] /\
  map url
    (requests_of
       (emitted (Scenario.update_run "destroy"
                   [Scenario.listed; body 200 Scenario.second])))
  = [Scenario.guild_url; Scenario.guild_url ++ "/1002"].
Proof. vm_compute. split; reflexivity. Qed.

(** ** Logs *)

Lemma each_request_nil (good : list event -> request -> Prop) :
  each_request good [].
Proof.
  intros pre rq rp post H. destruct pre; discriminate H.
Qed.

Lemma each_request_snoc (good : list event -> request -> Prop)
    (h : list event) (e : event) :
  each_request good h ->
  (forall rq rp, e = EvHttp rq rp -> good h rq) ->
  each_request good (h ++ [e]).
Proof.
  intros Hh He pre rq rp post. revert He.
  induction post as [|x post _] using rev_ind; intros He Heq.
  - apply app_inj_tail in Heq. destruct Heq as [-> ->]. eapply He; reflexivity.
  - change (pre ++ EvHttp rq rp :: post ++ [x])%list
      with (pre ++ (EvHttp rq rp :: post) ++ [x])%list in Heq.
    rewrite app_assoc in Heq. apply app_inj_tail in Heq.
    destruct Heq as [Heq _]. eapply Hh; exact Heq.
Qed.

Lemma requests_of_app (t u : list event) :
  requests_of (t ++ u) = (requests_of t ++ requests_of u)%list.
Proof.
  induction t as [|e t IH]; simpl; [reflexivity|].
  destruct e; simpl; rewrite ?IH; reflexivity.
Qed.

Lemma each_request_quiet (good : list event -> request -> Prop)
    (t : list event) :
  requests_of t = [] -> each_request good t.
Proof.
  intros H pre rq rp post ->.
  rewrite requests_of_app in H. simpl in H.
  destruct (requests_of pre); discriminate H.
Qed.

Lemma printed_app (t u : list event) :
  printed (t ++ u) = (printed t ++ printed u)%list.
Proof.
  induction t as [|e t IH]; simpl; [reflexivity|].
  destruct e; simpl; rewrite ?IH; reflexivity.
Qed.

(** ** Invariants of a run *)

Section Invariants.
Context {P : Platform}.
Variable J : list event -> Prop.

Lemma silent_preserves {A} (m : M A) : silent m -> preserves J m.
Proof.
  intros Hm s h Hh. rewrite Hm, app_nil_r. exact Hh.
Qed.

Lemma silent_lift {A} (o : outcome A) : silent (lift o).
Proof. destruct o; intros s; reflexivity. Qed.

Lemma silent_response_json (r : response) : silent (response_json r).
Proof. unfold response_json. destruct (decoded r); intros s; reflexivity. Qed.

Lemma preserves_ret {A} (a : A) : preserves J (ret a).
Proof. apply silent_preserves. intros s; reflexivity. Qed.

Lemma preserves_bind {A B} (m : M A) (f : A -> M B) :
  preserves J m -> (forall a, preserves J (f a)) -> preserves J (bind m f).
Proof.
  intros Hm Hf s h Hh. unfold bind.
  specialize (Hm s h Hh). destruct (out (m s)) as [a|e]; simpl.
  - rewrite app_assoc. apply Hf. exact Hm.
  - exact Hm.
Qed.

Lemma preserves_print (line : string) :
  (forall h, J h -> J (h ++ [EvPrint line])) -> preserves J (print line).
Proof. intros H s h Hh. apply H. exact Hh. Qed.

Lemma preserves_call (rq : request) :
  (forall h rp, J h -> J (h ++ [EvHttp rq rp])) -> preserves J (call rq).
Proof.
  intros H s h Hh. unfold call.
  destruct (serve rq (remote s)) as [rp w]. simpl. apply H. exact Hh.
Qed.

Lemma preserves_each (items : list json) (body : json -> M unit) :
  (forall c, In c items -> preserves J (body c)) ->
  preserves J (each items body).
Proof.
  induction items as [|c items IH]; intros H; simpl.
  - apply preserves_ret.
  - apply preserves_bind.
    + apply H. left; reflexivity.
    + intros _. apply IH. intros c' Hc'. apply H. right; exact Hc'.
Qed.

Lemma preserves_each_until (items : list json) (body : json -> M bool) :
  (forall c, In c items -> preserves J (body c)) ->
  preserves J (each_until items body).
Proof.
  induction items as [|c items IH]; intros H; simpl.
  - apply preserves_ret.
  - apply preserves_bind.
    + apply H. left; reflexivity.
    + intros [|].
      * apply preserves_ret.
      * apply IH. intros c' Hc'. apply H. right; exact Hc'.
Qed.

(** Steps whose result the rest of the proof has to know. *)

Lemma preserves_lift_then {A B} (o : outcome A) (f : A -> M B) :
  (forall a, o = Done a -> preserves J (f a)) ->
  preserves J (bind (lift o) f).
Proof.
  intros H s h Hh. destruct o as [a|e]; unfold bind; simpl.
  - apply (H a); [reflexivity | exact Hh].
  - rewrite app_nil_r. exact Hh.
Qed.

Lemma preserves_json_then {B} (r : response) (f : json -> M B) :
  (forall v, decoded r = Some v -> preserves J (f v)) ->
  preserves J (bind (response_json r) f).
Proof.
  intros H s h Hh. unfold response_json, bind.
  destruct (decoded r) as [v|]; simpl.
  - apply (H v); [reflexivity | exact Hh].
  - rewrite app_nil_r. exact Hh.
Qed.

Lemma preserves_for_in (v : json) (body : json -> M unit) :
  (forall items c, py_iter v = Done items -> In c items ->
                   preserves J (body c)) ->
  preserves J (for_in v body).
Proof.
  intros H. unfold for_in. apply preserves_lift_then.
  intros items Hitems. apply preserves_each. intros c Hc.
  eapply H; eassumption.
Qed.

Lemma preserves_for_in_break (v : json) (body : json -> M bool) :
  (forall items c, py_iter v = Done items -> In c items ->
                   preserves J (body c)) ->
  preserves J (for_in_break v body).
Proof.
  intros H. unfold for_in_break. apply preserves_lift_then.
  intros items Hitems. apply preserves_each_until. intros c Hc.
  eapply H; eassumption.
Qed.

End Invariants.

(** After a call, the rest of the script runs with the reply in the log. *)
Lemma preserves_call_then {P : Platform} {B} (J : list event -> Prop)
    (rq : request) (f : response -> M B) :
  (forall h rp, J h -> J (h ++ [EvHttp rq rp])%list) ->
  (forall r,
      preserves (fun h => J h /\ In (EvHttp rq (Answered r)) h) (f r)) ->
  preserves J (bind (call rq) f).
Proof.
  intros Hcall Hf s h Hh. unfold bind, call.
  destruct (serve rq (remote s)) as [[r|] w]; cbn [out final emitted].
  - rewrite app_assoc. apply Hf. split.
    + apply Hcall. exact Hh.
    + apply in_or_app. right. left. reflexivity.
  - apply Hcall. exact Hh.
Qed.

Lemma each_request_print (good : list event -> request -> Prop)
    (h : list event) (line : string) :
  each_request good h -> each_request good (h ++ [EvPrint line]).
Proof.
  intros Hh. apply each_request_snoc; [exact Hh | discriminate].
Qed.

Lemma each_request_http (good : list event -> request -> Prop)
    (h : list event) (rq : request) (rp : reply) :
  each_request good h -> good h rq ->
  each_request good (h ++ [EvHttp rq rp]).
Proof.
  intros Hh Hrq. apply each_request_snoc; [exact Hh |].
  intros rq' rp' Heq. injection Heq as <- _. exact Hrq.
Qed.

Lemma each_request_Forall (good : request -> Prop) (t : list event) :
  each_request (fun _ => good) t -> Forall good (requests_of t).
Proof.
  induction t as [|e t IH]; intros H; simpl.
  - constructor.
  - assert (Ht : each_request (fun _ => good) t).
    { intros pre rq rp post ->. apply (H (e :: pre) rq rp post). reflexivity. }
    destruct e; auto. constructor; [| auto].
    apply (H [] rq rp t). reflexivity.
Qed.

(** ** What the prompts leave in the log *)

Section Prompts.
Context {P : Platform}.

Lemma emitted_input {B} (p : string) (f : string -> M B)
    (line : string) (kb : list string) (w : world) :
  emitted (bind (input p) f (mkMachine (line :: kb) w))
  = EvInput p (Some line) :: emitted (f line (mkMachine kb w)).
Proof. reflexivity. Qed.

Lemma emitted_getpass {B} (p : string) (f : string -> M B)
    (line : string) (kb : list string) (w : world) :
  emitted (bind (getpass p) f (mkMachine (line :: kb) w))
  = EvGetpass p (Some line) :: emitted (f line (mkMachine kb w)).
Proof. reflexivity. Qed.

Lemma emitted_input_eof {B} (p : string) (f : string -> M B) (w : world) :
  emitted (bind (input p) f (mkMachine [] w)) = [EvInput p None].
Proof. reflexivity. Qed.

Lemma emitted_getpass_eof {B} (p : string) (f : string -> M B) (w : world) :
  emitted (bind (getpass p) f (mkMachine [] w)) = [EvGetpass p None].
Proof. reflexivity. Qed.

End Prompts.

(** One prompt of a script: either the input has ended, and the log holds
    no call, or a line is read. *)
Ltac prompt kb line :=
  destruct kb as [|line kb];
  [ first [rewrite emitted_input_eof | rewrite emitted_getpass_eof];
    left; reflexivity
  | first [rewrite emitted_input | rewrite emitted_getpass]; cbv beta ].

(** ** Walking through a script *)

Lemma append_assoc (a b c : string) : (a ++ b) ++ c = a ++ (b ++ c).
Proof.
  induction a as [|x a IH]; simpl; [reflexivity | rewrite IH; reflexivity].
Qed.

Lemma guild_command_url (app guild x : string) :
  api ++ "/applications/" ++ app ++ "/guilds/" ++ guild ++ "/commands/" ++ x
  = api ++ base_path app (Guild guild) ++ "/" ++ x.
Proof.
  unfold base_path. rewrite !append_assoc. reflexivity.
Qed.

Lemma py_add_done (s : string) (v : json) (u : string) :
  py_add s v = Done u -> exists t, v = JStr t /\ u = s ++ t.
Proof.
  destruct v; simpl; try discriminate.
  intros H. injection H as <-. eexists; split; reflexivity.
Qed.

Section Noted.
Context {P : Platform}.
Variable good : list event -> request -> Prop.

Lemma noted_print (ev : event) (h : list event) (line : string) :
  noted good ev h -> noted good ev (h ++ [EvPrint line]).
Proof.
  intros [Hh Hin]. split.
  - apply each_request_print. exact Hh.
  - apply in_or_app. left. exact Hin.
Qed.

Lemma noted_http (ev : event) (h : list event) (rq : request) (rp : reply) :
  noted good ev h -> good h rq -> noted good ev (h ++ [EvHttp rq rp]).
Proof.
  intros [Hh Hin] Hrq. split.
  - apply each_request_http; assumption.
  - apply in_or_app. left. exact Hin.
Qed.

(** A list call: what follows runs with its reply noted in the log. *)
Lemma preserves_get_then {B} (rq : request) (f : response -> M B) :
  (forall h, good h rq) ->
  (forall r, preserves (noted good (EvHttp rq (Answered r))) (f r)) ->
  preserves (each_request good) (bind (call rq) f).
Proof.
  intros Hrq Hf. apply preserves_call_then.
  - intros h rp Hh. apply each_request_http; [exact Hh | apply Hrq].
  - intros r s h Hh. apply (Hf r s h Hh).
Qed.

(** The same when a reply is already noted: the older note is kept. *)
Lemma preserves_call_noted {B} (ev : event) (rq : request)
    (f : response -> M B) :
  (forall h, noted good ev h -> good h rq) ->
  (forall r, preserves (noted good ev) (f r)) ->
  preserves (noted good ev) (bind (call rq) f).
Proof.
  intros Hrq Hf. apply preserves_bind.
  - apply preserves_call. intros h rp Hh.
    apply noted_http; [exact Hh | apply Hrq; exact Hh].
  - exact Hf.
Qed.

Lemma preserves_call_plain {B} (rq : request) (f : response -> M B) :
  (forall h, good h rq) ->
  (forall r, preserves (each_request good) (f r)) ->
  preserves (each_request good) (bind (call rq) f).
Proof.
  intros Hrq Hf. apply preserves_bind.
  - apply preserves_call. intros h rp Hh.
    apply each_request_http; [exact Hh | apply Hrq].
  - exact Hf.
Qed.

Lemma preserves_print_plain {B} (line : string) (f : unit -> M B) :
  (forall u, preserves (each_request good) (f u)) ->
  preserves (each_request good) (bind (print line) f).
Proof.
  intros Hf. apply preserves_bind; [| exact Hf].
  apply preserves_print. intros h Hh. apply each_request_print. exact Hh.
Qed.

Lemma preserves_print_noted {B} (ev : event) (line : string)
    (f : unit -> M B) :
  (forall u, preserves (noted good ev) (f u)) ->
  preserves (noted good ev) (bind (print line) f).
Proof.
  intros Hf. apply preserves_bind; [| exact Hf].
  apply preserves_print. intros h Hh. apply noted_print. exact Hh.
Qed.

Lemma preserves_print_last (line : string) :
  preserves (each_request good) (print line).
Proof.
  apply preserves_print. intros h Hh. apply each_request_print. exact Hh.
Qed.

End Noted.

(** ** From a script to its work *)

Lemma run_script_log {P : Platform} (sc : script) (b : blanks) (s : machine) :
  let t := emitted (run_script sc b s) in
  requests_of t = [] \/
  exists h s',
    requests_of h = [] /\
    t = (h ++ emitted
           (script_work sc (app_of sc b t) (guild_of sc b t) (token_of sc b t)
              (blank_cmd_name b) s'))%list.
Proof.
  cbv zeta. destruct s as [kb w].
  destruct sc; cbn [run_script];
    unfold bootsrap.main, cleanup.main, create_global_commands.main,
      delete_all_commands.main, delete_global_cmd.main.
  - prompt kb a. prompt kb k. right.
    exists [EvInput "Application id: " (Some a);
            EvGetpass "Bot token: " (Some k)], (mkMachine kb w).
    split; reflexivity.
  - prompt kb a. prompt kb g. prompt kb k. right.
    exists [EvInput "Application id: " (Some a);
            EvInput "Guild id: " (Some g);
            EvGetpass "Bot token: " (Some k)], (mkMachine kb w).
    split; reflexivity.
  - right. exists [], (mkMachine kb w). split; reflexivity.
  - prompt kb a. prompt kb k. right.
    exists [EvInput "Application id: " (Some a);
            EvGetpass "Bot token: " (Some k)], (mkMachine kb w).
    split; reflexivity.
  - prompt kb a. prompt kb g. prompt kb k. right.
    exists [EvInput "Application id: " (Some a);
            EvInput "Guild id: " (Some g);
            EvGetpass "Bot token: " (Some k)], (mkMachine kb w).
    split; reflexivity.
  - prompt kb a. prompt kb k. right.
    exists [EvInput "Application id: " (Some a);
            EvGetpass "Bot token: " (Some k)], (mkMachine kb w).
    split; reflexivity.
  - right. exists [], (mkMachine kb w). split; reflexivity.
Qed.

(** ** What every call of a script satisfies *)

Section Work.
Context {P : Platform}.
Variable good : list event -> request -> Prop.
Variables app guild token : string.

Let auth : list (string * string) := authorization token.
Let list_of (sc : scope) : request :=
  mkRequest GET (api ++ base_path app sc) auth None.

Hypothesis good_get :
  forall h sc, In sc [Global; Guild guild] -> good h (list_of sc).

Hypothesis good_delete :
  forall h sc r jbody items c t,
    In sc [Global; Guild guild] ->
    In (EvHttp (list_of sc) (Answered r)) h ->
    decoded r = Some jbody ->
    py_iter jbody = Done items ->
    In c items ->
    py_getitem c "id" = Done (JStr t) ->
    good h (mkRequest DELETE (api ++ base_path app sc ++ "/" ++ t) auth None).

Hypothesis good_patch :
  forall h r jbody items c id,
    In (EvHttp (list_of (Guild guild)) (Answered r)) h ->
    decoded r = Some jbody ->
    py_iter jbody = Done items ->
    In c items ->
    py_getitem c "id" = Done id ->
    good h (mkRequest PATCH
              (api ++ base_path app (Guild guild) ++ "/" ++ py_format id)
              auth (Some c)).

Hypothesis good_post :
  forall h payload,
    good h (mkRequest POST (api ++ base_path app Global) auth (Some payload)).

Lemma delete_keeps (sc : scope) (r : response) (jbody : json)
    (items : list json) (c : json) :
  In sc [Global; Guild guild] ->
  decoded r = Some jbody ->
  py_iter jbody = Done items ->
  In c items ->
  preserves (noted good (EvHttp (list_of sc) (Answered r)))
    (id <- getitem c "id" ;;
     cmd_url <- add ((api ++ base_path app sc) ++ "/") id ;;
     r <- requests_delete cmd_url auth ;;
     ret tt).
Proof using good_delete.
  intros Hsc Hdec Hiter Hc.
  apply preserves_lift_then. intros id Hid.
  apply preserves_lift_then. intros cmd_url Hadd.
  apply py_add_done in Hadd. destruct Hadd as [t [-> ->]].
  rewrite !append_assoc.
  apply preserves_call_noted.
  - intros h [_ Hin]. eapply good_delete; eassumption.
  - intros _. apply preserves_ret.
Qed.

Lemma announce_keeps (ev : event) (c : json) (m : M unit) :
  preserves (noted good ev) m ->
  preserves (noted good ev)
    (name <- getitem c "name" ;;
     print ("Deleting command: " ++ py_format name) ;;
     m).
Proof using Type.
  intros Hm.
  apply preserves_lift_then. intros name _.
  apply preserves_print_noted. intros _. exact Hm.
Qed.

Lemma list_keeps (sc : scope) (line : nat -> string) (body : json -> M unit) :
  In sc [Global; Guild guild] ->
  (forall r jbody items c,
      decoded r = Some jbody -> py_iter jbody = Done items -> In c items ->
      preserves (noted good (EvHttp (list_of sc) (Answered r))) (body c)) ->
  preserves (each_request good)
    (r <- requests_get (api ++ base_path app sc) auth ;;
     jbody <- response_json r ;;
     n <- len jbody ;;
     print (line n) ;;
     for_in jbody body).
Proof using good_get.
  intros Hsc Hbody.
  apply preserves_get_then.
  - intros h. apply good_get. exact Hsc.
  - intros r. apply preserves_json_then. intros jbody Hdec.
    apply preserves_lift_then. intros n _.
    apply preserves_print_noted. intros _.
    apply preserves_for_in. intros items c Hiter Hc.
    eapply Hbody; eassumption.
Qed.

Lemma sweep_keeps (sw : sweep) :
  preserves (each_request good) (run_sweep sw app guild auth).
Proof using good_get good_delete.
  assert (Hg : In Global [Global; Guild guild]) by (left; reflexivity).
  assert (Hq : In (Guild guild) [Global; Guild guild])
    by (right; left; reflexivity).
  destruct sw; cbn [run_sweep];
    unfold cleanup.remove_app_commands, cleanup.remove_guild_commands,
      delete_all_commands.remove_app_commands,
      delete_all_commands.remove_guild_commands,
      delete_global_cmd.remove_app_commands; cbv zeta.
  - apply (list_keeps Global
             (fun n => "Number of global commands: " ++ decimal n)); [exact Hg|].
    intros. eapply delete_keeps; eassumption.
  - apply (list_keeps (Guild guild)
             (fun n => "Number of guilds commands: " ++ decimal n)); [exact Hq|].
    intros. eapply delete_keeps; eassumption.
  - apply (list_keeps Global
             (fun n => "Number of global commands: " ++ decimal n)); [exact Hg|].
    intros. apply announce_keeps. eapply delete_keeps; eassumption.
  - apply (list_keeps (Guild guild)
             (fun n => "Number of guilds commands: " ++ decimal n)); [exact Hq|].
    intros. apply announce_keeps. eapply delete_keeps; eassumption.
  - apply (list_keeps Global
             (fun n => "Number of global commands: " ++ decimal n)); [exact Hg|].
    intros. apply announce_keeps. eapply delete_keeps; eassumption.
Qed.

Lemma update_keeps (cmd_name : string) :
  preserves (each_request good) (update_cmd.main app token guild cmd_name).
Proof using good_get good_patch.
  unfold update_cmd.main. cbv zeta.
  apply (preserves_get_then good (list_of (Guild guild))).
  - intros h. apply good_get. right; left; reflexivity.
  - intros r. apply preserves_json_then. intros jbody Hdec.
    apply preserves_for_in_break. intros items c Hiter Hc.
    apply preserves_lift_then. intros name _.
    destruct (py_eq name cmd_name).
    + apply preserves_lift_then. intros id Hid.
      rewrite guild_command_url.
      apply preserves_call_noted.
      * intros h [_ Hin].
        apply (good_patch h r jbody items c id Hin Hdec Hiter Hc Hid).
      * intros r'. apply preserves_print_noted. intros _. apply preserves_ret.
    + apply preserves_ret.
Qed.

Lemma create_keeps (sc : script) (cmd_name : string) :
  lists_first sc = false ->
  preserves (each_request good) (script_work sc app guild token cmd_name).
Proof using good_post.
  assert (Hpost : forall B payload (f : response -> M B),
             (forall r, preserves (each_request good) (f r)) ->
             preserves (each_request good)
               (bind (requests_post (api ++ "/applications/" ++ app ++ "/commands")
                        auth payload) f)).
  { intros B payload f Hf. apply preserves_call_plain; [| exact Hf].
    intros h. apply good_post. }
  destruct sc; try discriminate; intros _; cbn [script_work];
    unfold bootsrap.work, create_global_cmd.main,
      create_global_commands.work; cbv zeta;
    repeat (apply Hpost; intros ?;
            first [apply preserves_print_last
                  | apply preserves_print_plain; intros _]).
Qed.

Lemma work_keeps (sc : script) (cmd_name : string) :
  preserves (each_request good) (script_work sc app guild token cmd_name).
Proof using good_get good_delete good_patch good_post.
  destruct sc;
    try (apply create_keeps; reflexivity);
    cbn [script_work];
    unfold cleanup.work, delete_all_commands.work, delete_global_cmd.work;
    cbv zeta.
  - apply preserves_bind; [apply (sweep_keeps CleanupApp) |].
    intros _. apply (sweep_keeps CleanupGuild).
  - apply preserves_bind; [apply (sweep_keeps DeleteAllApp) |].
    intros _. apply (sweep_keeps DeleteAllGuild).
  - apply (sweep_keeps DeleteGlobal).
  - apply update_keeps.
Qed.

Lemma change_keeps (sc : script) (cmd_name : string) :
  lists_first sc = true ->
  preserves (each_request good) (script_work sc app guild token cmd_name).
Proof using good_get good_delete good_patch.
  destruct sc; try discriminate; intros _;
    cbn [script_work];
    unfold cleanup.work, delete_all_commands.work, delete_global_cmd.work;
    cbv zeta.
  - apply preserves_bind; [apply (sweep_keeps CleanupApp) |].
    intros _. apply (sweep_keeps CleanupGuild).
  - apply preserves_bind; [apply (sweep_keeps DeleteAllApp) |].
    intros _. apply (sweep_keeps DeleteAllGuild).
  - apply (sweep_keeps DeleteGlobal).
  - apply update_keeps.
Qed.

End Work.

Lemma script_keeps {P : Platform} (good : list event -> request -> Prop)
    (sc : script) (b : blanks) (s : machine) :
  (forall app guild token,
      preserves (each_request good)
        (script_work sc app guild token (blank_cmd_name b))) ->
  each_request good (emitted (run_script sc b s)).
Proof.
  intros Hwork.
  destruct (run_script_log sc b s) as [Hq | (h & s' & Hh & Ht)].
  - apply each_request_quiet. exact Hq.
  - rewrite Ht. apply Hwork. apply each_request_quiet. exact Hh.
Qed.

(** ** The claims on every script *)

(** C8.  Every HTTP request that any of the seven scripts issues, in any run
    against any remote service, carries exactly the header
    [Authorization: Bot <token>], where the token is the one typed at the
    token prompt (or written into the blank of the two unfinished scripts). *)
Theorem requests_carry_bot_token :
  forall (P : Platform) (sc : script) (b : blanks) (s : machine),
    let t := emitted (run_script sc b s) in
    Forall (authorized (token_of sc b t)) (requests_of t).
Proof.
  intros P sc b s t. apply each_request_Forall.
  set (good := fun (_ : list event) => authorized (token_of sc b t)).
  destruct (run_script_log sc b s) as [Hq | (h & s' & Hh & Ht)].
  - apply each_request_quiet. exact Hq.
  - fold t in Ht. rewrite Ht.
    apply (work_keeps good (app_of sc b t) (guild_of sc b t) (token_of sc b t));
      try (intros; reflexivity).
    apply each_request_quiet. exact Hh.
Qed.

(** C5 (amended).  In the scripts that delete or update (cleanup,
    delete_all_commands, delete_global_cmd, update_cmd) every DELETE or
    PATCH is preceded in the log by an answered GET of the scope's base
    URL, and it acts on a command of that list.  The scripts that create
    (bootsrap, create_global_cmd, create_global_commands) issue POST
    requests only: they do not list. *)
Theorem changes_follow_a_list :
  forall (P : Platform) (sc : script) (b : blanks) (s : machine),
    let t := emitted (run_script sc b s) in
    if lists_first sc
    then each_request fetch_before_change t
    else Forall (fun rq => verb rq = POST) (requests_of t).
Proof.
  intros P sc b s t.
  destruct (lists_first sc) eqn:Hsc.
  - apply script_keeps. intros app guild token.
    apply change_keeps; [| | | exact Hsc].
    + intros h scp _ Hm. discriminate Hm.
    + intros h scp r jbody items c id Hscp Hin Hdec Hiter Hc Hid _.
      eexists _, r, jbody, items, c, (JStr id).
      repeat split; try eassumption; reflexivity.
    + intros h r jbody items c id Hin Hdec Hiter Hc Hid _.
      eexists _, r, jbody, items, c, id.
      repeat split; try eassumption; reflexivity.
  - apply each_request_Forall. apply script_keeps. intros app guild token.
    apply create_keeps; [| exact Hsc].
    intros h payload. reflexivity.
Qed.

(** C5, as stated, fails: bootsrap.py sends its first POST with nothing
    but the two prompts before it. *)
Lemma bootsrap_posts_without_listing :
  ~ each_request (@fetch_before_change Scripted.platform)
      (emitted Scenario.bootsrap_run).
Proof.
  intros H. vm_compute in H.
  specialize (H [_; _] _ _ _ eq_refl eq_refl).
  destruct H as (rq0 & r0 & jbody & items & c & id & Hin & _).
  destruct Hin as [Hin | [Hin | []]]; discriminate Hin.
Qed.

(** ** Running a script step by step *)

Section Steps.
Context {P : Platform}.

Lemma bind_call {B} (rq : request) (f : response -> M B) (s : machine)
    (r : response) :
  fst (serve rq (remote s)) = Answered r ->
  bind (call rq) f s = after [EvHttp rq (Answered r)] (f r (served rq s)).
Proof.
  intros H. unfold bind, call, served, after.
  destruct (serve rq (remote s)) as [rp w]. simpl in H. subst rp.
  reflexivity.
Qed.

Lemma bind_done {A B} (a : A) (f : A -> M B) (s : machine) :
  bind (lift (Done a)) f s = after [] (f a s).
Proof. reflexivity. Qed.

Lemma bind_json {B} (r : response) (v : json) (f : json -> M B) (s : machine) :
  decoded r = Some v ->
  bind (response_json r) f s = after [] (f v s).
Proof.
  intros H. unfold response_json. rewrite H. reflexivity.
Qed.

Lemma bind_print {B} (line : string) (f : unit -> M B) (s : machine) :
  bind (print line) f s = after [EvPrint line] (f tt s).
Proof. reflexivity. Qed.

Lemma tally_app (t u : list event) :
  tally (t ++ u)
  = (fst (tally t) + fst (tally u), snd (tally t) + snd (tally u)).
Proof.
  induction t as [|e t IH]; simpl.
  - destruct (tally u); reflexivity.
  - destruct e; try exact IH.
    rewrite IH. destruct (tally t) as [ok ko].
    destruct (verb rq); try reflexivity.
    destruct (is_success rp); reflexivity.
Qed.

Lemma quiet_round (u : string) (h : list (string * string)) :
  always_answers DELETE ->
  deletes_one false u h
    (fun cmd =>
       id <- getitem cmd "id" ;;
       cmd_url <- add (u ++ "/") id ;;
       r <- requests_delete cmd_url h ;;
       ret tt).
Proof.
  intros Hans c s Hc. unfold deletable in Hc.
  unfold delete_request, id_of.
  unfold command_id in *.
  destruct (py_getitem c "id") as [[| | |t| |]|] eqn:Hid; try discriminate Hc.
  destruct (Hans (mkRequest DELETE (u ++ "/" ++ t) h None) (remote s) eq_refl)
    as [r Hr].
  exists r. unfold getitem, add. rewrite Hid, bind_done. cbn [py_add].
  rewrite bind_done. rewrite append_assoc. unfold requests_delete.
  rewrite (bind_call _ _ _ r Hr). reflexivity.
Qed.

Lemma loud_round (u : string) (h : list (string * string)) :
  always_answers DELETE ->
  deletes_one true u h
    (fun cmd =>
       name <- getitem cmd "name" ;;
       print ("Deleting command: " ++ py_format name) ;;
       id <- getitem cmd "id" ;;
       cmd_url <- add (u ++ "/") id ;;
       r <- requests_delete cmd_url h ;;
       ret tt).
Proof.
  intros Hans c s Hc.
  destruct (quiet_round u h Hans c s) as [r Hr].
  { unfold deletable in *. destruct (command_id c); [reflexivity | exact Hc]. }
  exists r. unfold deletable in Hc. unfold announcement.
  destruct (command_id c); [| discriminate Hc].
  unfold command_name in *.
  destruct (py_getitem c "name") as [name|] eqn:Hname; [| discriminate Hc].
  unfold getitem at 1. rewrite Hname, bind_done, bind_print.
  rewrite Hr. reflexivity.
Qed.

(** The whole loop, on commands it can process, when every delete call is
    answered (with whatever status). *)
Lemma each_deletes (announce : bool) (u : string)
    (h : list (string * string)) (body : json -> M unit)
    (cmds : list json) :
  deletes_one announce u h body ->
  forallb (deletable announce) cmds = true ->
  forall s,
    let res := each cmds body s in
    out res = Done tt /\
    requests_of (emitted res) = map (delete_request u h) cmds /\
    printed (emitted res)
    = (if announce then map announcement cmds else []) /\
    fst (tally (emitted res)) + snd (tally (emitted res)) = length cmds.
Proof.
  intros Hbody. induction cmds as [|c cmds IH]; intros Hcmds s; cbv zeta.
  - repeat split. destruct announce; reflexivity.
  - simpl in Hcmds. apply andb_true_iff in Hcmds. destruct Hcmds as [Hc Hcmds].
    destruct (Hbody c s Hc) as [r Hr].
    specialize (IH Hcmds (served (delete_request u h c) s)). cbv zeta in IH.
    destruct IH as (Hout & Hreq & Hpr & Htally).
    cbn [each]. unfold bind. rewrite Hr. cbn [out final emitted].
    rewrite requests_of_app, printed_app, tally_app, Hreq, Hpr.
    cbn [fst snd]. repeat split.
    + exact Hout.
    + destruct announce; reflexivity.
    + destruct announce; reflexivity.
    + destruct announce; cbn [app tally verb delete_request fst snd length];
        destruct (is_success (Answered r)); cbn [fst snd]; lia.
Qed.

End Steps.

(** ** The delete blocks *)

Section Sweeps.
Context {P : Platform}.

(** A delete block whose list call is answered with something it can count
    and run through: the call, the count line, then the loop. *)
Lemma sweep_run (sw : sweep) (app guild : string) (h : list (string * string))
    (s : machine) (r : response) (jbody : json) (n : nat)
    (items : list json) :
  let u := api ++ base_path app (sweep_scope sw guild) in
  let get := mkRequest GET u h None in
  fst (serve get (remote s)) = Answered r ->
  decoded r = Some jbody ->
  py_len jbody = Done n ->
  py_iter jbody = Done items ->
  exists body,
    (always_answers DELETE -> deletes_one (sweep_announces sw) u h body) /\
    run_sweep sw app guild h s
    = after [EvHttp get (Answered r); EvPrint (count_line sw n)]
        (each items body (served get s)).
Proof.
  intros u get Hget Hdec Hlen Hiter.
  destruct sw; cbn [run_sweep sweep_announces];
    unfold cleanup.remove_app_commands, cleanup.remove_guild_commands,
      delete_all_commands.remove_app_commands,
      delete_all_commands.remove_guild_commands,
      delete_global_cmd.remove_app_commands; cbv zeta;
    eexists; (split;
      [ intros Hans; first [apply (quiet_round u h Hans)
                           | apply (loud_round u h Hans)]
      | unfold requests_get; rewrite (bind_call _ _ _ r Hget);
        rewrite (bind_json _ _ _ _ Hdec);
        unfold len, for_in; rewrite Hlen, bind_done, bind_print;
        rewrite Hiter, bind_done; reflexivity ]).
Qed.

End Sweeps.

(** C10.  In each of the five delete blocks, when the list call returns a
    list of commands (each with a string id, and a name where the block
    prints it) and every DELETE call gets a response, the block issues the
    list call and then exactly one DELETE per listed command, in list order,
    at the list URL followed by [/] and the command's id.  What it prints is
    the count line with the length of the list, then (in the blocks that
    announce) one line per command: nothing of it depends on what the DELETE
    calls are answered, so any other run on the same list prints the same. *)
Theorem one_delete_per_listed_command :
  forall (P : Platform) (sw : sweep) (app guild : string)
         (h : list (string * string)) (s : machine) (r : response)
         (cmds : list json),
    let u := api ++ base_path app (sweep_scope sw guild) in
    let get := mkRequest GET u h None in
    always_answers DELETE ->
    fst (serve get (remote s)) = Answered r ->
    decoded r = Some (JList cmds) ->
    forallb (deletable (sweep_announces sw)) cmds = true ->
    let res := run_sweep sw app guild h s in
    requests_of (emitted res) = get :: map (delete_request u h) cmds /\
    printed (emitted res)
    = count_line sw (length cmds)
        :: (if sweep_announces sw then map announcement cmds else []) /\
    forall (s2 : machine) (r2 : response),
      fst (serve get (remote s2)) = Answered r2 ->
      decoded r2 = Some (JList cmds) ->
      printed (emitted (run_sweep sw app guild h s2)) = printed (emitted res).
Proof.
  intros P sw app guild h s r cmds u get Hans Hget Hdec Hcmds res.
  assert (Hrun : forall s1 r1,
             fst (serve get (remote s1)) = Answered r1 ->
             decoded r1 = Some (JList cmds) ->
             requests_of (emitted (run_sweep sw app guild h s1))
             = get :: map (delete_request u h) cmds /\
             printed (emitted (run_sweep sw app guild h s1))
             = count_line sw (length cmds)
                 :: (if sweep_announces sw then map announcement cmds
                     else [])).
  { intros s1 r1 Hget1 Hdec1.
    destruct (sweep_run sw app guild h s1 r1 (JList cmds) (length cmds) cmds
                Hget1 Hdec1 eq_refl eq_refl) as (body & Hbody & ->).
    destruct (each_deletes _ u h body cmds (Hbody Hans) Hcmds (served get s1))
      as (_ & Hreq & Hpr & _).
    cbn [after emitted List.app requests_of printed].
    fold u. fold get. rewrite Hreq, Hpr. split; reflexivity. }
  destruct (Hrun s r Hget Hdec) as [Hreq Hpr].
  repeat split; try assumption.
  intros s2 r2 Hget2 Hdec2.
  destruct (Hrun s2 r2 Hget2 Hdec2) as [_ Hpr2].
  subst res. rewrite Hpr, Hpr2. reflexivity.
Qed.

(** C3.  In each of the five delete blocks, when the list call returns an
    empty list the block prints a count of 0, issues no DELETE (the list call
    is its only request) and ends without raising. *)
Theorem delete_all_on_empty_scope :
  forall (P : Platform) (sw : sweep) (app guild : string)
         (h : list (string * string)) (s : machine) (r : response),
    let get :=
      mkRequest GET (api ++ base_path app (sweep_scope sw guild)) h None in
    fst (serve get (remote s)) = Answered r ->
    decoded r = Some (JList []) ->
    let res := run_sweep sw app guild h s in
    emitted res = [EvHttp get (Answered r); EvPrint (count_line sw 0)] /\
    out res = Done tt.
Proof.
  intros P sw app guild h s r get Hget Hdec res.
  destruct (sweep_run sw app guild h s r (JList []) 0 []
              Hget Hdec eq_refl eq_refl) as (body & _ & Hrun).
  subst res. rewrite Hrun. split; reflexivity.
Qed.

(** C1 (amended).  For every scope, the delete block first issues the list
    call, then one DELETE per listed command, whatever status the earlier
    DELETE calls were answered with: every listed command gets its call, so
    the deletes that succeeded and those that failed add up to the length of
    the list, and the block ends without raising.  What it shows is only the
    number of listed commands (and their names, where it announces them). *)
Theorem delete_all_lists_then_deletes_each :
  forall (P : Platform) (sw : sweep) (app guild : string)
         (h : list (string * string)) (s : machine) (r : response)
         (cmds : list json),
    let u := api ++ base_path app (sweep_scope sw guild) in
    let get := mkRequest GET u h None in
    always_answers DELETE ->
    fst (serve get (remote s)) = Answered r ->
    decoded r = Some (JList cmds) ->
    forallb (deletable (sweep_announces sw)) cmds = true ->
    let res := run_sweep sw app guild h s in
    (exists rest,
        emitted res = EvHttp get (Answered r) :: rest /\
        requests_of rest = map (delete_request u h) cmds) /\
    fst (tally (emitted res)) + snd (tally (emitted res)) = length cmds /\
    shown res
    = (Done tt,
       count_line sw (length cmds)
         :: (if sweep_announces sw then map announcement cmds else [])).
Proof.
  intros P sw app guild h s r cmds u get Hans Hget Hdec Hcmds res.
  destruct (sweep_run sw app guild h s r (JList cmds) (length cmds) cmds
              Hget Hdec eq_refl eq_refl) as (body & Hbody & Hrun).
  destruct (each_deletes _ u h body cmds (Hbody Hans) Hcmds (served get s))
    as (Hout & Hreq & Hpr & Htally).
  subst res. rewrite Hrun. unfold shown.
  cbn [after emitted out List.app requests_of printed tally verb fst snd].
  fold u. fold get. repeat split.
  - eexists. split; [reflexivity |]. cbn [requests_of]. exact Hreq.
  - destruct (tally (emitted (each cmds body (served get s)))) as [ok ko].
    exact Htally.
  - rewrite Hout, Hpr. reflexivity.
Qed.

(** ** The update script *)

Lemma each_until_passes {P : Platform} (cmd_name : string)
    (hit : json -> M bool) (cmds : list json) (s : machine) :
  forallb (passed_over cmd_name) cmds = true ->
  each_until cmds
    (fun cmd =>
       name <- getitem cmd "name" ;;
       if py_eq name cmd_name then hit cmd else ret false) s
  = mkResult (Done tt) s [].
Proof.
  induction cmds as [|c cmds IH]; intros H.
  - reflexivity.
  - simpl in H. apply andb_true_iff in H. destruct H as [Hc Hcmds].
    unfold passed_over, command_name in Hc.
    destruct (py_getitem c "name") as [v|] eqn:Hname; [| discriminate Hc].
    apply negb_true_iff in Hc.
    cbn [each_until]. unfold getitem at 1. rewrite Hname.
    unfold bind at 1. rewrite bind_done, Hc.
    cbn [after out final emitted ret List.app].
    rewrite (IH Hcmds). reflexivity.
Qed.

(** C4 (amended).  When the list call of update_cmd.py returns commands none
    of which has the selected name, the script issues no PATCH: the list call
    is its only request and the only event of its log, so nothing is changed
    on the remote side and nothing is printed; the script ends normally,
    without raising or reporting any error. *)
Theorem update_unknown_name_changes_nothing :
  forall (P : Platform) (app token guild_id cmd_name : string) (s : machine)
         (r : response) (cmds : list json),
    let get :=
      mkRequest GET (api ++ base_path app (Guild guild_id))
        (authorization token) None in
    fst (serve get (remote s)) = Answered r ->
    decoded r = Some (JList cmds) ->
    forallb (passed_over cmd_name) cmds = true ->
    let res := update_cmd.main app token guild_id cmd_name s in
    emitted res = [EvHttp get (Answered r)] /\
    out res = Done tt /\
    final res = served get s.
Proof.
  intros P app token guild_id cmd_name s r cmds get Hget Hdec Hcmds res.
  subst res. unfold update_cmd.main. cbv zeta.
  unfold requests_get. fold (base_path app (Guild guild_id)). fold get.
  rewrite (bind_call _ _ _ r Hget), (bind_json _ _ _ _ Hdec).
  unfold for_in_break. cbn [py_iter]. rewrite bind_done.
  rewrite (each_until_passes cmd_name _ cmds _ Hcmds).
  repeat split.
Qed.

(** C4, as stated, fails: against a guild whose three commands are named
    otherwise, update_cmd.py ends normally. *)
Lemma update_unknown_name_does_not_fail :
  ~ fails (Scenario.update_run "status" [Scenario.listed]).
Proof.
  intros [e He]. vm_compute in He. discriminate He.
Qed.

(** ** The prompts *)

Ltac hush :=
  repeat
    first
      [ apply preserves_ret
      | apply preserves_print; intros; apply Forall_app; split;
        [assumption | repeat constructor]
      | apply preserves_call; intros; apply Forall_app; split;
        [assumption | repeat constructor]
      | apply silent_preserves; apply silent_lift
      | apply silent_preserves; apply silent_response_json
      | apply preserves_for_in; intros
      | apply preserves_for_in_break; intros
      | match goal with
        | |- preserves _ (if ?b then _ else _) => destruct b
        end
      | apply preserves_bind; [| intro] ].

Lemma work_reads_nothing {P : Platform} (sc : script)
    (app guild token cmd_name : string) (s : machine) :
  Forall (fun e => is_console e = false)
    (emitted (script_work sc app guild token cmd_name s)).
Proof.
  assert (H : preserves (Forall (fun e => is_console e = false))
                (script_work sc app guild token cmd_name)).
  { destruct sc; cbn [script_work];
      unfold bootsrap.work, cleanup.work, create_global_cmd.main,
        create_global_commands.work, delete_all_commands.work,
        delete_global_cmd.work, update_cmd.main,
        cleanup.remove_app_commands, cleanup.remove_guild_commands,
        delete_all_commands.remove_app_commands,
        delete_all_commands.remove_guild_commands,
        delete_global_cmd.remove_app_commands; cbv zeta; hush. }
  apply (H s []). constructor.
Qed.

Lemma work_is_addressed {P : Platform} (sc : script)
    (app guild token cmd_name : string) (s : machine) :
  let t := emitted (script_work sc app guild token cmd_name s) in
  Forall (authorized token) (requests_of t) /\
  each_request (routed app guild) t.
Proof.
  split.
  - apply each_request_Forall.
    refine (work_keeps (fun _ => authorized token) app guild token
              _ _ _ _ sc cmd_name s [] _); try (intros; reflexivity).
    apply each_request_nil.
  - refine (work_keeps (routed app guild) app guild token
              _ _ _ _ sc cmd_name s [] _).
    + intros h0 scp Hscp. exists scp. split; [exact Hscp | reflexivity].
    + intros h0 scp r jbody items c id Hscp Hin Hdec Hiter Hc Hid.
      exists scp. split; [exact Hscp |]. cbn [verb url].
      eexists _, r, jbody, items, c, (JStr id).
      repeat split; try eassumption; reflexivity.
    + intros h0 r jbody items c id Hin Hdec Hiter Hc Hid.
      exists (Guild guild). split; [right; left; reflexivity |].
      cbn [verb url].
      eexists _, r, jbody, items, c, id.
      repeat split; try eassumption; reflexivity.
    + intros h0 payload. exists Global.
      split; [left; reflexivity | reflexivity].
    + apply each_request_nil.
Qed.

(** C6 (amended).  Each of the five scripts bootsrap, cleanup,
    create_global_commands, delete_all_commands and delete_global_cmd starts
    by prompting for the application id, then (cleanup and
    delete_all_commands) for the guild id, then for the bot token without
    echo, before it sends anything; it reads nothing else from the console,
    and every request it sends carries the typed token and goes to the typed
    application (and guild). *)
Theorem prompting_scripts_ask_first :
  forall (P : Platform) (sc : script) (b : blanks) (w : world)
         (app guild token : string) (more : list string),
    prompting sc = true ->
    let typed :=
      (app :: (if asks_guild sc then [guild] else []) ++ token :: more)%list in
    let t := emitted (run_script sc b (mkMachine typed w)) in
    exists t',
      t = (EvInput "Application id: " (Some app)
             :: (if asks_guild sc
                 then [EvInput "Guild id: " (Some guild)] else [])
             ++ EvGetpass "Bot token: " (Some token) :: t')%list /\
      Forall (fun e => is_console e = false) t' /\
      Forall (authorized token) (requests_of t') /\
      each_request (routed app guild) t'.
Proof.
  intros P sc b w app guild token more Hsc typed t.
  exists (emitted (script_work sc app guild token (blank_cmd_name b)
                     (mkMachine more w))).
  split; [| split; [apply work_reads_nothing | apply work_is_addressed]].
  subst t typed.
  destruct sc; try discriminate Hsc; reflexivity.
Qed.

(** C6, as stated, fails: update_cmd.py has no prompt at all, its log holds
    the list call and the PATCH only. *)
Lemma update_cmd_never_prompts :
  ~ asks_credentials
      (emitted (Scenario.update_run "destroy"
                  [Scenario.listed; body 200 Scenario.second])).
Proof.
  intros [[p [a H]] _]. vm_compute in H.
  destruct H as [H | [H | [H | []]]]; discriminate H.
Qed.

(** ** Against the remote service *)

Section Remote.
Import Discord.

Lemma discord_answers (m : method) : @always_answers platform m.
Proof.
  intros rq sv _. cbn [serve platform]. unfold handle, create.
  repeat
    match goal with
    | |- context [if ?b then _ else _] => destruct b
    | |- context [match ?x with _ => _ end] => destruct x
    end;
    eexists; reflexivity.
Qed.

Lemma strip_prefix_same (a b c : string) :
  strip_prefix (a ++ b) (a ++ c) = strip_prefix b c.
Proof.
  induction a as [|x a IH]; simpl; [reflexivity |].
  rewrite Ascii.eqb_refl. exact IH.
Qed.

Lemma route_base (sv : service) :
  route sv (api ++ base_path (application sv) Global) = Some (Global, None).
Proof.
  unfold route, base_path. rewrite !strip_prefix_same. reflexivity.
Qed.

Lemma authenticated_own (sv : service) (v : method) (u : string)
    (j : option json) :
  authenticated sv (mkRequest v u (authorization (bot_token sv)) j) = true.
Proof.
  unfold authenticated, authorization. cbn [headers existsb fst snd].
  rewrite !String.eqb_refl. reflexivity.
Qed.

Lemma interfered_alone (sv : service) :
  rivals sv = [] -> interfered sv = registry sv.
Proof. intros H. unfold interfered. rewrite H. reflexivity. Qed.

Lemma handle_post (sv : service) (payload : json) :
  rivals sv = [] ->
  handle (mkRequest POST (api ++ base_path (application sv) Global)
            (authorization (bot_token sv)) (Some payload)) sv
  = create sv (registry sv) Global (Some payload).
Proof.
  intros H. unfold handle.
  rewrite authenticated_own, (interfered_alone sv H). cbn [negb url verb].
  rewrite route_base. reflexivity.
Qed.

Lemma handle_list (sv : service) :
  rivals sv = [] ->
  list_commands sv Global
  = Answered (success 200 (JList (listing Global (registry sv)))).
Proof.
  intros H. unfold list_commands, handle.
  rewrite authenticated_own, (interfered_alone sv H). cbn [negb url verb].
  rewrite route_base. reflexivity.
Qed.

Lemma listing_app (sc : scope) (a b : list (scope * json)) :
  listing sc (a ++ b) = (listing sc a ++ listing sc b)%list.
Proof.
  unfold listing. rewrite filter_app, map_app. reflexivity.
Qed.

Lemma none_named_after_without (sc : scope) (name : string)
    (reg : list (scope * json)) :
  filter (has_name name) (listing sc (without_name sc name reg)) = [].
Proof.
  unfold listing, without_name.
  induction reg as [|[sc' c] reg IH]; [reflexivity |].
  cbn [filter fst snd].
  destruct (scope_eqb sc' sc) eqn:Hsc; cbn [andb negb].
  - destruct (has_name name c) eqn:Hc; cbn [negb].
    + exact IH.
    + cbn [filter fst snd]. rewrite Hsc. cbn [map filter snd].
      rewrite Hc. exact IH.
  - cbn [filter fst snd]. rewrite Hsc. exact IH.
Qed.

End Remote.

Section Registration.
Import Discord.

Lemma posted_same (sv : service) (payload : json) :
  application (posted sv payload) = application sv /\
  bot_token (posted sv payload) = bot_token sv /\
  rivals (posted sv payload) = rivals sv.
Proof.
  unfold posted, create.
  destruct payload as [| | | | |fields]; try (repeat split; reflexivity).
  destruct (dict_get "name" fields) as [[| | |name| |]|];
    repeat split; reflexivity.
Qed.

Lemma bind_input_line {P : Platform} {B} (p : string) (f : string -> M B)
    (line : string) (kb : list string) (w : world) :
  bind (input p) f (mkMachine (line :: kb) w)
  = after [EvInput p (Some line)] (f line (mkMachine kb w)).
Proof. reflexivity. Qed.

Lemma bind_getpass_line {P : Platform} {B} (p : string) (f : string -> M B)
    (line : string) (kb : list string) (w : world) :
  bind (getpass p) f (mkMachine (line :: kb) w)
  = after [EvGetpass p (Some line)] (f line (mkMachine kb w)).
Proof. reflexivity. Qed.

Lemma post_step (sv : service) (app token : string) (kb : list string)
    (payload : json) :
  application sv = app -> bot_token sv = token -> rivals sv = [] ->
  let rq := mkRequest POST (api ++ "/applications/" ++ app ++ "/commands")
              (authorization token) (Some payload) in
  exists r,
    forall B (f : response -> @M platform B),
      bind (call rq) f (@mkMachine platform kb sv)
      = after [EvHttp rq (Answered r)]
          (f r (@mkMachine platform kb (posted sv payload))).
Proof.
  intros <- <- Hriv rq.
  destruct (discord_answers POST rq sv eq_refl) as [r Hr].
  exists r. intros B f.
  rewrite (@bind_call platform B rq f (@mkMachine platform kb sv) r Hr).
  unfold served. cbn [keyboard remote serve platform].
  unfold rq. fold (base_path (application sv) Global).
  rewrite (handle_post sv payload Hriv). reflexivity.
Qed.

End Registration.

(** bootsrap.py with the application's id and token, no other client
    interfering: three answered posts, and the service has taken all three
    payloads. *)
Lemma bootsrap_run (sv : Discord.service) (more : list string) :
  Discord.rivals sv = [] ->
  let url := api ++ base_path (Discord.application sv) Global in
  let auth := authorization (Discord.bot_token sv) in
  let sv3 :=
    Discord.posted
      (Discord.posted (Discord.posted sv bootsrap.json_bootstrap)
         bootsrap.json_registergame)
      bootsrap.json_spinupgame in
  let run :=
    @bootsrap.main Discord.platform
      (@mkMachine Discord.platform
         (Discord.application sv :: Discord.bot_token sv :: more) sv) in
  Discord.rivals sv3 = [] /\
  final run = @mkMachine Discord.platform more sv3 /\
  requests_of (emitted run)
  = [mkRequest POST url auth (Some bootsrap.json_bootstrap);
     mkRequest POST url auth (Some bootsrap.json_registergame);
     mkRequest POST url auth (Some bootsrap.json_spinupgame)].
Proof.
  intros Hriv url auth sv3 run.
  subst run. unfold bootsrap.main.
  rewrite bind_input_line, bind_getpass_line.
  unfold bootsrap.work. cbv zeta. unfold requests_post, print_result.
  destruct (post_step sv _ _ more bootsrap.json_bootstrap
              eq_refl eq_refl Hriv) as [r1 H1].
  cbv zeta in H1. rewrite H1. clear H1.
  rewrite bind_print.
  destruct (posted_same sv bootsrap.json_bootstrap)
    as (Ha1 & Ht1 & Hr1).
  rewrite Hriv in Hr1.
  destruct (post_step _ _ _ more bootsrap.json_registergame Ha1 Ht1 Hr1)
    as [r2 H2].
  cbv zeta in H2. rewrite H2. clear H2.
  rewrite bind_print.
  destruct (posted_same (Discord.posted sv bootsrap.json_bootstrap)
              bootsrap.json_registergame) as (Ha2 & Ht2 & Hr2).
  rewrite Ha1 in Ha2. rewrite Ht1 in Ht2. rewrite Hr1 in Hr2.
  destruct (post_step _ _ _ more bootsrap.json_spinupgame Ha2 Ht2 Hr2)
    as [r3 H3].
  cbv zeta in H3. rewrite H3. clear H3.
  destruct (posted_same
              (Discord.posted (Discord.posted sv bootsrap.json_bootstrap)
                 bootsrap.json_registergame)
              bootsrap.json_spinupgame) as (_ & _ & Hr3).
  rewrite Hr2 in Hr3.
  split; [exact Hr3 | split; reflexivity].
Qed.

(** C9.  The payload bootsrap.py builds for [spinup] has exactly one option,
    named [game-type], of option type 3 (string), with [required] true, and
    the script posts it to the global scope.  Against the remote service (as
    the specification describes it), run with the application's id and
    token and no other client interfering, a list of the global scope
    afterwards holds exactly one command named [spinup], and that command
    has this one option, required. *)
Theorem spinup_registration :
  forall (sv : Discord.service) (more : list string),
    Discord.rivals sv = [] ->
    let run :=
      @bootsrap.main Discord.platform
        (@mkMachine Discord.platform
           (Discord.application sv :: Discord.bot_token sv :: more) sv) in
    (py_getitem bootsrap.json_spinupgame "name" = Done (JStr "spinup") /\
     exists o,
       py_getitem bootsrap.json_spinupgame "options" = Done (JList [o]) /\
       is_game_type_option o) /\
    In (mkRequest POST (api ++ base_path (Discord.application sv) Global)
          (authorization (Discord.bot_token sv))
          (Some bootsrap.json_spinupgame))
       (requests_of (emitted run)) /\
    exists l c o,
      Discord.list_commands (remote (final run)) Global
      = Answered (Discord.success 200 (JList l)) /\
      filter (Discord.has_name "spinup") l = [c] /\
      py_getitem c "options" = Done (JList [o]) /\
      is_game_type_option o.
Proof.
  intros sv more Hriv run.
  destruct (bootsrap_run sv more Hriv) as (Hr3 & Hfinal & Hreq).
  fold run in Hfinal, Hreq.
  split; [| split].
  - split; [reflexivity |]. eexists. split; [reflexivity |].
    repeat split.
  - rewrite Hreq. right. right. left. reflexivity.
  - rewrite Hfinal. cbn [remote].
    set (sv2 := Discord.posted (Discord.posted sv bootsrap.json_bootstrap)
                  bootsrap.json_registergame) in *.
    rewrite (handle_list _ Hr3).
    eexists _, _, _. split; [reflexivity |].
    change (Discord.registry (Discord.posted sv2 bootsrap.json_spinupgame))
      with (Discord.without_name Global "spinup" (Discord.registry sv2)
              ++ [(Global,
                   JDict (("id", JStr (decimal (Discord.next_id sv2)))
                            :: match bootsrap.json_spinupgame with
                               | JDict fields => fields
                               | _ => []
                               end))])%list.
    rewrite listing_app, filter_app, none_named_after_without.
    split; [reflexivity |]. split; [reflexivity |]. repeat split.
Qed.

(** ** The delete scenario *)

Example cleanup_shows_when_second_fails :
  shown (Scenario.cleanup_on (Scenario.nothing_listed :: Scenario.second_fails))
  = (Done tt, ["Number of global commands: 0"; "Number of guilds commands: 3"])
  /\ tally (emitted (Scenario.cleanup_on
                       (Scenario.nothing_listed :: Scenario.second_fails)))
     = (2, 1).
Proof. vm_compute. split; reflexivity. Qed.

Example cleanup_shows_when_all_succeed :
  shown (Scenario.cleanup_on (Scenario.nothing_listed :: Scenario.all_succeed))
  = (Done tt, ["Number of global commands: 0"; "Number of guilds commands: 3"])
  /\ tally (emitted (Scenario.cleanup_on
                       (Scenario.nothing_listed :: Scenario.all_succeed)))
     = (3, 0).
Proof. vm_compute. split; reflexivity. Qed.

(** The scenario on the service of the model, run from the prompts on.
    Guild 123 holds three commands and the second is removed by another
    client just before its delete arrives.  Both delete scripts list the
    guild, then send all three deletes in list order: the second is
    answered 404, the other two 204, and the script goes on to the third
    and ends without raising.  They print the number of listed commands, 3
    (delete_all_commands.py also the three names).  A list of the guild
    afterwards is empty. *)
Example contended_scenario_runs :
  let gone := Answered (Discord.success 200 (JList [])) in
  let cleanup_run := Scenario.cleanup_run Scenario.contended in
  let delete_all_run := Scenario.delete_all_run Scenario.contended in
  (out cleanup_run = Done tt /\
   requests_of (emitted cleanup_run) = Scenario.expected_calls /\
   statuses (emitted cleanup_run) = [200; 200; 204; 404; 204] /\
   tally (emitted cleanup_run) = (2, 1) /\
   printed (emitted cleanup_run)
   = ["Number of global commands: 0"; "Number of guilds commands: 3"] /\
   Discord.list_commands (remote (final cleanup_run)) (Guild "123") = gone) /\
  (out delete_all_run = Done tt /\
   requests_of (emitted delete_all_run) = Scenario.expected_calls /\
   statuses (emitted delete_all_run) = [200; 200; 204; 404; 204] /\
   tally (emitted delete_all_run) = (2, 1) /\
   printed (emitted delete_all_run)
   = ["Number of global commands: 0"; "Number of guilds commands: 3";
      "Deleting command: spinup"; "Deleting command: destroy";
      "Deleting command: register-game"] /\
   Discord.list_commands (remote (final delete_all_run)) (Guild "123") = gone).
Proof.
  vm_compute. repeat split.
Qed.

(** C2, as stated, fails: cleanup.py shows the same thing whether the second
    delete fails (two succeeded, one failed) or all three succeed, so what it
    shows does not report the tally. *)
Lemma scenario_tally_not_reported :
  ~ reports_tally
      [Scenario.cleanup_on (Scenario.nothing_listed :: Scenario.second_fails);
       Scenario.cleanup_on (Scenario.nothing_listed :: Scenario.all_succeed)].
Proof.
  intros [read H].
  inversion H as [| r1 l1 H1 H2]; subst.
  inversion H2 as [| r2 l2 H3 _]; subst.
  destruct cleanup_shows_when_second_fails as [Hs1 Ht1].
  destruct cleanup_shows_when_all_succeed as [Hs2 Ht2].
  rewrite Hs1, Ht1 in H1. rewrite Hs2, Ht2 in H3.
  rewrite H1 in H3. discriminate H3.
Qed.

(** C1, as stated, fails: the guild block of delete_all_commands.py shows
    the same thing whether one of its deletes fails or none does, so it
    reports no count of successful and failed deletions. *)
Lemma delete_all_reports_no_tally :
  ~ reports_tally
      [Scenario.guild_block Scenario.second_fails;
       Scenario.guild_block Scenario.all_succeed].
Proof.
  intros [read H].
  inversion H as [| r1 l1 H1 H2]; subst.
  inversion H2 as [| r2 l2 H3 _]; subst.
  assert (Hsame : shown (Scenario.guild_block Scenario.second_fails)
                  = shown (Scenario.guild_block Scenario.all_succeed))
    by (vm_compute; reflexivity).
  rewrite Hsame, H3 in H1. vm_compute in H1. discriminate H1.
Qed.

(** ** The theorems at work on the scenario *)

Lemma scripted_answers (m : method) : @always_answers Scripted.platform m.
Proof.
  intros rq replies _. destruct replies as [|r rest]; eexists; reflexivity.
Qed.

(** C10 on the guild block whose second delete fails. *)
Lemma one_delete_per_listed_command_witness :
  requests_of (emitted (Scenario.guild_block Scenario.second_fails))
  = mkRequest GET Scenario.guild_url (authorization "s3cret") None
      :: map (delete_request Scenario.guild_url (authorization "s3cret"))
           [Scenario.first; Scenario.second; Scenario.third].
Proof.
  apply (one_delete_per_listed_command Scripted.platform DeleteAllGuild
           "42" "123" (authorization "s3cret")
           (@mkMachine Scripted.platform [] Scenario.second_fails)
           Scenario.listed
           [Scenario.first; Scenario.second; Scenario.third]);
    [apply scripted_answers | reflexivity | reflexivity | reflexivity].
Defined.

(** C3 on the global block of cleanup.py. *)
Lemma delete_all_on_empty_scope_witness :
  out (@run_sweep Scripted.platform CleanupApp "42" "123"
         (authorization "s3cret")
         (@mkMachine Scripted.platform [] [body 200 (JList [])]))
  = Done tt.
Proof.
  apply (delete_all_on_empty_scope Scripted.platform CleanupApp "42" "123"
           (authorization "s3cret")
           (@mkMachine Scripted.platform [] [body 200 (JList [])])
           (body 200 (JList [])));
    reflexivity.
Defined.

(** C1 (amended) on the guild block whose second delete fails. *)
Lemma delete_all_lists_then_deletes_each_witness :
  shown (Scenario.guild_block Scenario.second_fails)
  = (Done tt,
     count_line DeleteAllGuild 3
       :: map (@announcement Scripted.platform)
            [Scenario.first; Scenario.second; Scenario.third]).
Proof.
  apply (delete_all_lists_then_deletes_each Scripted.platform DeleteAllGuild
           "42" "123" (authorization "s3cret")
           (@mkMachine Scripted.platform [] Scenario.second_fails)
           Scenario.listed
           [Scenario.first; Scenario.second; Scenario.third]);
    [apply scripted_answers | reflexivity | reflexivity | reflexivity].
Defined.

(** C4 (amended) on a name the guild does not hold. *)
Lemma update_unknown_name_changes_nothing_witness :
  out (Scenario.update_run "status" [Scenario.listed]) = Done tt.
Proof.
  apply (update_unknown_name_changes_nothing Scripted.platform
           "42" "s3cret" "123" "status"
           (@mkMachine Scripted.platform [] [Scenario.listed])
           Scenario.listed
           [Scenario.first; Scenario.second; Scenario.third]);
    reflexivity.
Defined.

(** C6 (amended) on cleanup.py. *)
Lemma prompting_scripts_ask_first_witness :
  exists t',
    emitted (Scenario.cleanup_on
               [Scenario.nothing_listed; Scenario.nothing_listed])
    = (EvInput "Application id: " (Some "42")
         :: [EvInput "Guild id: " (Some "123")]
         ++ EvGetpass "Bot token: " (Some "s3cret") :: t')%list /\
    Forall (fun e => is_console e = false) t' /\
    Forall (authorized "s3cret") (requests_of t') /\
    each_request (@routed Scripted.platform "42" "123") t'.
Proof.
  exact (prompting_scripts_ask_first Scripted.platform Cleanup
           Scenario.no_blanks
           [Scenario.nothing_listed; Scenario.nothing_listed]
           "42" "123" "s3cret" [] eq_refl).
Defined.

(** C9 on the service of the scenario. *)
Lemma spinup_registration_witness :
  exists l c o,
    Discord.list_commands
      (remote (final (@bootsrap.main Discord.platform
                        (Scenario.admin Scenario.quiet)))) Global
    = Answered (Discord.success 200 (JList l)) /\
    filter (Discord.has_name "spinup") l = [c] /\
    py_getitem c "options" = Done (JList [o]) /\
    is_game_type_option o.
Proof.
  apply (spinup_registration Scenario.quiet [] eq_refl).
Defined.

(** * Further properties of the scripts *)

(** ** Steps that raise *)

Section Raising.
Context {P : Platform}.

Lemma bind_call_fail {B} (rq : request) (f : response -> M B) (s : machine) :
  fst (serve rq (remote s)) = Unreachable ->
  bind (call rq) f s
  = mkResult (Raised RequestException) (served rq s) [EvHttp rq Unreachable].
Proof.
  intros H. unfold bind, call, served.
  destruct (serve rq (remote s)) as [rp w]. simpl in H. subst rp.
  reflexivity.
Qed.

Lemma bind_json_fail {B} (r : response) (f : json -> M B) (s : machine) :
  decoded r = None ->
  bind (response_json r) f s = mkResult (Raised JSONDecodeError) s [].
Proof.
  intros H. unfold response_json. rewrite H. reflexivity.
Qed.

Lemma bind_raised {A B} (e : exn) (f : A -> M B) (s : machine) :
  bind (lift (Raised e)) f s = mkResult (Raised e) s [].
Proof. reflexivity. Qed.

Lemma py_getitem_raises (c : json) (key : string) (e : exn) :
  py_getitem c key = Raised e -> e = KeyError \/ e = TypeError.
Proof.
  destruct c; simpl; try (intros H; injection H as <-; right; reflexivity).
  destruct (dict_get key fields); [discriminate |].
  intros H. injection H as <-. left. reflexivity.
Qed.

Lemma outline_app (t u : list event) :
  outline (t ++ u) = (outline t ++ outline u)%list.
Proof.
  induction t as [|e t IH]; simpl; [reflexivity |].
  destruct e; simpl; rewrite ?IH; reflexivity.
Qed.

Lemma requests_of_outline (t : list event) :
  requests_of t
  = flat_map (fun x => match x with inl _ => [] | inr rq => [rq] end)
      (outline t).
Proof.
  induction t as [|e t IH]; simpl; [reflexivity |].
  destruct e; simpl; rewrite ?IH; reflexivity.
Qed.

(** The five blocks are one piece of code, up to the URL, the word in the
    count line and the announcement. *)
Lemma run_sweep_eq (sw : sweep) (app guild : string)
    (h : list (string * string)) :
  let u := api ++ base_path app (sweep_scope sw guild) in
  run_sweep sw app guild h
  = (r <- requests_get u h ;;
     jbody <- response_json r ;;
     n <- len jbody ;;
     print (count_line sw n) ;;
     for_in jbody (sweep_body (sweep_announces sw) u h)).
Proof. destruct sw; reflexivity. Qed.

Lemma sweep_listed (sw : sweep) (app guild : string)
    (h : list (string * string)) (s : machine) (r : response) (jbody : json)
    (n : nat) (items : list json) :
  let u := api ++ base_path app (sweep_scope sw guild) in
  let get := mkRequest GET u h None in
  fst (serve get (remote s)) = Answered r ->
  decoded r = Some jbody ->
  py_len jbody = Done n ->
  py_iter jbody = Done items ->
  run_sweep sw app guild h s
  = after [EvHttp get (Answered r); EvPrint (count_line sw n)]
      (each items (sweep_body (sweep_announces sw) u h) (served get s)).
Proof.
  intros u get Hget Hdec Hlen Hiter.
  rewrite run_sweep_eq. cbv zeta. fold u. unfold requests_get. fold get.
  rewrite (bind_call _ _ _ r Hget), (bind_json _ _ _ _ Hdec).
  unfold len, for_in. rewrite Hlen, bind_done, bind_print.
  rewrite Hiter, bind_done. reflexivity.
Qed.

Lemma body_on_key (announce : bool) (u : string) (h : list (string * string))
    (k : string) (s : machine) :
  sweep_body announce u h (JStr k) s = mkResult (Raised TypeError) s [].
Proof. destruct announce; reflexivity. Qed.

Lemma body_deletes (announce : bool) (u : string)
    (h : list (string * string)) :
  always_answers DELETE -> deletes_one announce u h (sweep_body announce u h).
Proof.
  intros Hans. destruct announce.
  - apply (loud_round u h Hans).
  - apply (quiet_round u h Hans).
Qed.

Lemma quiet_refuses (u : string) (h : list (string * string)) (c : json)
    (s : machine) :
  command_id c = None ->
  exists e,
    sweep_body false u h c s = mkResult (Raised e) s [] /\
    (e = KeyError \/ e = TypeError).
Proof.
  intros Hc. unfold command_id in Hc. cbn [sweep_body]. unfold getitem, add.
  destruct (py_getitem c "id") as [v|e] eqn:Hid.
  - exists TypeError. split; [| right; reflexivity].
    rewrite bind_done.
    destruct v; try discriminate Hc; reflexivity.
  - exists e. split; [reflexivity |].
    apply (py_getitem_raises c "id"). exact Hid.
Qed.

Lemma body_refuses (announce : bool) (u : string)
    (h : list (string * string)) (c : json) (s : machine) :
  deletable announce c = false ->
  exists e t,
    sweep_body announce u h c s = mkResult (Raised e) s t /\
    (e = KeyError \/ e = TypeError) /\
    requests_of t = [].
Proof.
  intros Hc. unfold deletable in Hc. destruct announce.
  - cbn [sweep_body]. unfold command_name in Hc.
    unfold getitem at 1.
    destruct (py_getitem c "name") as [name|e] eqn:Hname.
    + rewrite bind_done, bind_print.
      destruct (command_id c) eqn:Hid; [discriminate Hc |].
      destruct (quiet_refuses u h c s Hid) as (e & He & Hkind).
      cbn [sweep_body] in He. rewrite He.
      exists e, [EvPrint ("Deleting command: " ++ py_format name)].
      repeat split. exact Hkind.
    + exists e, []. repeat split.
      apply (py_getitem_raises c "name"). exact Hname.
  - destruct (command_id c) eqn:Hid; [discriminate Hc |].
    destruct (quiet_refuses u h c s Hid) as (e & He & Hkind).
    exists e, []. repeat split; assumption.
Qed.

Lemma body_unreachable (announce : bool) (u : string)
    (h : list (string * string)) (c : json) (s : machine) :
  deletable announce c = true ->
  fst (serve (delete_request u h c) (remote s)) = Unreachable ->
  exists t,
    sweep_body announce u h c s
    = mkResult (Raised RequestException) (served (delete_request u h c) s) t /\
    requests_of t = [delete_request u h c].
Proof.
  intros Hc Hdown. unfold deletable in Hc. unfold delete_request, id_of in *.
  unfold command_id in *.
  destruct (py_getitem c "id") as [[| | |t| |]|] eqn:Hid; try discriminate Hc.
  assert (Hq : sweep_body false u h c s
               = mkResult (Raised RequestException)
                   (served (mkRequest DELETE (u ++ "/" ++ t) h None) s)
                   [EvHttp (mkRequest DELETE (u ++ "/" ++ t) h None)
                      Unreachable]).
  { cbn [sweep_body]. unfold getitem, add. rewrite Hid, bind_done.
    cbn [py_add]. rewrite bind_done, append_assoc. unfold requests_delete.
    rewrite (bind_call_fail _ _ _ Hdown). reflexivity. }
  destruct announce.
  - unfold command_name in Hc.
    destruct (py_getitem c "name") as [name|] eqn:Hname; [| discriminate Hc].
    cbn [sweep_body]. unfold getitem at 1.
    rewrite Hname, bind_done, bind_print.
    cbn [sweep_body] in Hq. rewrite Hq.
    eexists. split; reflexivity.
  - rewrite Hq. eexists. split; reflexivity.
Qed.

(** The loop on a first stretch of commands it can process. *)
Lemma each_prefix (announce : bool) (u : string) (h : list (string * string))
    (body : json -> M unit) (good rest : list json) :
  deletes_one announce u h body ->
  forallb (deletable announce) good = true ->
  forall s, exists s',
    out (each (good ++ rest) body s) = out (each rest body s') /\
    outline (emitted (each (good ++ rest) body s))
    = (flat_map (round_outline announce u h) good
         ++ outline (emitted (each rest body s')))%list.
Proof.
  intros Hbody. induction good as [|c good IH]; intros Hgood s.
  - exists s. split; reflexivity.
  - simpl in Hgood. apply andb_true_iff in Hgood. destruct Hgood as [Hc Hgood].
    destruct (Hbody c s Hc) as [r Hr].
    destruct (IH Hgood (served (delete_request u h c) s)) as (s' & Hout & Hol).
    exists s'. cbn [List.app each]. unfold bind. rewrite Hr.
    cbn [out final emitted]. split; [exact Hout |].
    rewrite !outline_app, Hol. cbn [flat_map]. unfold round_outline at 2.
    rewrite <- !app_assoc. f_equal.
    destruct announce; reflexivity.
Qed.

End Raising.

Lemma requests_of_rounds {P : Platform} (announce : bool) (u : string)
    (h : list (string * string)) (cmds : list json) :
  flat_map (fun x : string + request =>
              match x with inl _ => [] | inr rq => [rq] end)
    (flat_map (round_outline announce u h) cmds)
  = map (delete_request u h) cmds.
Proof.
  induction cmds as [|c cmds IH]; [reflexivity |].
  cbn [flat_map map]. rewrite flat_map_app, IH.
  destruct announce; reflexivity.
Qed.

(** ** The delete blocks when something is wrong *)

(** X1.  When the list call of a delete block is answered with a JSON object
    that is not empty (what the service sends when it refuses the call), the
    block takes it for the list: it prints the number of keys as the number
    of commands, then raises [TypeError] on the first key, having sent no
    DELETE. *)
Theorem sweep_on_error_body :
  forall (P : Platform) (sw : sweep) (app guild : string)
         (h : list (string * string)) (s : machine) (r : response)
         (fields : list (string * json)),
    let get :=
      mkRequest GET (api ++ base_path app (sweep_scope sw guild)) h None in
    fst (serve get (remote s)) = Answered r ->
    decoded r = Some (JDict fields) ->
    fields <> [] ->
    let res := run_sweep sw app guild h s in
    out res = Raised TypeError /\
    emitted res
    = [EvHttp get (Answered r); EvPrint (count_line sw (length fields))].
Proof.
  intros P sw app guild h s r fields get Hget Hdec Hne res.
  subst res.
  rewrite (sweep_listed sw app guild h s r (JDict fields) (length fields)
             (map (fun kv => JStr (fst kv)) fields) Hget Hdec eq_refl eq_refl).
  destruct fields as [|[k v] fields]; [contradiction Hne; reflexivity |].
  cbn [map fst each]. unfold bind. rewrite body_on_key.
  split; reflexivity.
Qed.

(** X2.  When the list call of a delete block raises, or its body is not
    JSON, or the decoded body has no length (null, a boolean, a number), the
    block ends with that exception ([RequestException], [JSONDecodeError],
    [TypeError]); the list call is the only event of its log: nothing is
    printed and no DELETE is sent. *)
Theorem sweep_stops_when_list_fails :
  forall (P : Platform) (sw : sweep) (app guild : string)
         (h : list (string * string)) (s : machine) (e : exn),
    let get :=
      mkRequest GET (api ++ base_path app (sweep_scope sw guild)) h None in
    list_failure (fst (serve get (remote s))) = Some e ->
    let res := run_sweep sw app guild h s in
    out res = Raised e /\
    emitted res = [EvHttp get (fst (serve get (remote s)))].
Proof.
  intros P sw app guild h s e get Hfail res. subst res.
  rewrite run_sweep_eq. cbv zeta. unfold requests_get. fold get.
  destruct (fst (serve get (remote s))) as [r|] eqn:Hget; cbn [list_failure] in Hfail.
  - rewrite (bind_call _ _ _ r Hget).
    destruct (decoded r) as [v|] eqn:Hdec.
    + rewrite (bind_json _ _ _ _ Hdec). unfold len.
      destruct (py_len v) as [n|e'] eqn:Hlen; [discriminate Hfail |].
      injection Hfail as <-. rewrite bind_raised. split; reflexivity.
    + injection Hfail as <-. rewrite (bind_json_fail _ _ _ Hdec).
      split; reflexivity.
  - injection Hfail as <-. rewrite (bind_call_fail _ _ _ Hget).
    split; reflexivity.
Qed.

(** X3.  A delete block stops at the first listed command it cannot process
    (no ["id"], an id that is not a string, no ["name"] where the block
    prints it, or an entry that is not an object): it raises [KeyError] or
    [TypeError]; the commands before it have had their DELETE, the ones after
    it get none. *)
Theorem sweep_stops_at_bad_command :
  forall (P : Platform) (sw : sweep) (app guild : string)
         (h : list (string * string)) (s : machine) (r : response)
         (good : list json) (bad : json) (rest : list json),
    let u := api ++ base_path app (sweep_scope sw guild) in
    let get := mkRequest GET u h None in
    always_answers DELETE ->
    fst (serve get (remote s)) = Answered r ->
    decoded r = Some (JList (good ++ bad :: rest)) ->
    forallb (deletable (sweep_announces sw)) good = true ->
    deletable (sweep_announces sw) bad = false ->
    let res := run_sweep sw app guild h s in
    (exists e, out res = Raised e /\ (e = KeyError \/ e = TypeError)) /\
    requests_of (emitted res) = get :: map (delete_request u h) good.
Proof.
  intros P sw app guild h s r good bad rest u get Hans Hget Hdec Hgood Hbad res.
  subst res.
  rewrite (sweep_listed sw app guild h s r (JList (good ++ bad :: rest))
             (length (good ++ bad :: rest)) (good ++ bad :: rest)
             Hget Hdec eq_refl eq_refl).
  fold u. fold get.
  destruct (each_prefix _ u h _ good (bad :: rest)
              (body_deletes _ u h Hans) Hgood (served get s))
    as (s' & Hout & Hol).
  destruct (body_refuses _ u h bad s' Hbad) as (e & t & Hrun & Hkind & Ht).
  assert (Hstop : each (bad :: rest) (sweep_body (sweep_announces sw) u h) s'
                  = mkResult (Raised e) s' t).
  { cbn [each]. unfold bind. rewrite Hrun. reflexivity. }
  rewrite Hstop in Hout, Hol. cbn [out emitted] in Hout, Hol.
  cbn [after out emitted List.app requests_of]. split.
  - exists e. split; assumption.
  - f_equal. rewrite requests_of_outline, Hol, flat_map_app.
    rewrite requests_of_rounds, <- requests_of_outline, Ht.
    apply app_nil_r.
Qed.

(** X4.  A DELETE call that raises (no connection) ends the block with
    [RequestException], unlike one answered with an error status: when the
    call for the first listed command raises, it is the block's last
    request. *)
Theorem sweep_stops_when_delete_raises :
  forall (P : Platform) (sw : sweep) (app guild : string)
         (h : list (string * string)) (s : machine) (r : response)
         (c : json) (rest : list json),
    let u := api ++ base_path app (sweep_scope sw guild) in
    let get := mkRequest GET u h None in
    fst (serve get (remote s)) = Answered r ->
    decoded r = Some (JList (c :: rest)) ->
    deletable (sweep_announces sw) c = true ->
    fst (serve (delete_request u h c) (remote (served get s))) = Unreachable ->
    let res := run_sweep sw app guild h s in
    out res = Raised RequestException /\
    requests_of (emitted res) = [get; delete_request u h c].
Proof.
  intros P sw app guild h s r c rest u get Hget Hdec Hc Hdown res.
  subst res.
  rewrite (sweep_listed sw app guild h s r (JList (c :: rest))
             (length (c :: rest)) (c :: rest) Hget Hdec eq_refl eq_refl).
  fold u. fold get.
  destruct (body_unreachable _ u h c (served get s) Hc Hdown)
    as (t & Hrun & Ht).
  cbn [each]. unfold bind. rewrite Hrun.
  cbn [after out emitted List.app requests_of]. rewrite Ht.
  split; reflexivity.
Qed.

(** X12.  In a delete block that runs through, the log is, in this order:
    the list call, the count line, then for each listed command its
    announcement (in the blocks that announce) immediately followed by its
    DELETE.  The name of a command is therefore printed before its delete
    is sent. *)
Theorem sweep_outline :
  forall (P : Platform) (sw : sweep) (app guild : string)
         (h : list (string * string)) (s : machine) (r : response)
         (cmds : list json),
    let u := api ++ base_path app (sweep_scope sw guild) in
    let get := mkRequest GET u h None in
    always_answers DELETE ->
    fst (serve get (remote s)) = Answered r ->
    decoded r = Some (JList cmds) ->
    forallb (deletable (sweep_announces sw)) cmds = true ->
    outline (emitted (run_sweep sw app guild h s))
    = inr get :: inl (count_line sw (length cmds))
        :: flat_map (round_outline (sweep_announces sw) u h) cmds.
Proof.
  intros P sw app guild h s r cmds u get Hans Hget Hdec Hcmds.
  rewrite (sweep_listed sw app guild h s r (JList cmds) (length cmds) cmds
             Hget Hdec eq_refl eq_refl).
  fold u. fold get.
  destruct (each_prefix _ u h _ cmds []
              (body_deletes _ u h Hans) Hcmds (served get s))
    as (s' & _ & Hol).
  rewrite app_nil_r in Hol.
  cbn [after emitted List.app outline]. rewrite Hol.
  cbn [each ret emitted outline]. rewrite app_nil_r. reflexivity.
Qed.

(** ** The update script, further *)

Section Update.
Context {P : Platform}.
Variables app token guild_id cmd_name : string.

Let h : list (string * string) := authorization token.
Let body : json -> M bool := update_body app guild_id cmd_name h.
Let get : request :=
  mkRequest GET (api ++ base_path app (Guild guild_id)) h None.

Lemma update_main_eq :
  update_cmd.main app token guild_id cmd_name
  = (r <- call get ;;
     jbody <- response_json r ;;
     for_in_break jbody body).
Proof. reflexivity. Qed.

Lemma update_body_passes (c : json) (s : machine) :
  passed_over cmd_name c = true ->
  body c s = mkResult (Done false) s [].
Proof.
  unfold passed_over, command_name. intros Hc.
  destruct (py_getitem c "name") as [v|] eqn:Hname; [| discriminate Hc].
  apply negb_true_iff in Hc.
  unfold body, update_body, getitem. rewrite Hname, bind_done, Hc.
  reflexivity.
Qed.

Lemma update_body_hits (c id : json) (s : machine) (r : response) :
  bears cmd_name c = true ->
  py_getitem c "id" = Done id ->
  fst (serve (patch_request app guild_id token c id) (remote s)) = Answered r ->
  body c s
  = mkResult (Done true) (served (patch_request app guild_id token c id) s)
      [EvHttp (patch_request app guild_id token c id) (Answered r);
       EvPrint ("UPDATE result: " ++ " " ++ bytes_repr (content r))].
Proof.
  unfold bears, command_name. intros Hc Hid Hr.
  destruct (py_getitem c "name") as [v|] eqn:Hname; [| discriminate Hc].
  unfold body, update_body, getitem. rewrite Hname, bind_done, Hc.
  rewrite Hid, bind_done. cbv zeta. rewrite guild_command_url.
  unfold requests_patch. fold h.
  change (mkRequest PATCH
            (api ++ base_path app (Guild guild_id) ++ "/" ++ py_format id)
            h (Some c))
    with (patch_request app guild_id token c id).
  rewrite (bind_call _ _ _ r Hr). unfold print_result. rewrite bind_print.
  reflexivity.
Qed.

(** What one round of the loop can leave in the log: nothing, or the PATCH
    of a command that bears the name; after a PATCH the loop does not go
    on. *)
Lemma update_body_requests (c : json) (s : machine) :
  (requests_of (emitted (body c s)) = []) \/
  (exists id,
      bears cmd_name c = true /\
      py_getitem c "id" = Done id /\
      requests_of (emitted (body c s))
      = [patch_request app guild_id token c id] /\
      out (body c s) <> Done false).
Proof.
  unfold body, update_body, getitem, bears, command_name.
  destruct (py_getitem c "name") as [v|] eqn:Hname; [| left; reflexivity].
  rewrite bind_done.
  destruct (py_eq v cmd_name) eqn:Hv; [| left; reflexivity].
  destruct (py_getitem c "id") as [id|] eqn:Hid; [| left; reflexivity].
  right. exists id. rewrite bind_done. cbv zeta. rewrite guild_command_url.
  unfold requests_patch. fold h.
  change (mkRequest PATCH
            (api ++ base_path app (Guild guild_id) ++ "/" ++ py_format id)
            h (Some c))
    with (patch_request app guild_id token c id).
  repeat split.
  - destruct (fst (serve (patch_request app guild_id token c id) (remote s)))
      as [r|] eqn:Hr.
    + rewrite (bind_call _ _ _ r Hr). reflexivity.
    + rewrite (bind_call_fail _ _ _ Hr). reflexivity.
  - destruct (fst (serve (patch_request app guild_id token c id) (remote s)))
      as [r|] eqn:Hr.
    + rewrite (bind_call _ _ _ r Hr). discriminate.
    + rewrite (bind_call_fail _ _ _ Hr). discriminate.
Qed.

Lemma each_until_requests (items : list json) (s : machine) :
  (requests_of (emitted (each_until items body s)) = []) \/
  (exists c id,
      In c items /\
      bears cmd_name c = true /\
      py_getitem c "id" = Done id /\
      requests_of (emitted (each_until items body s))
      = [patch_request app guild_id token c id]).
Proof.
  revert s. induction items as [|x items IH]; intros s.
  - left. reflexivity.
  - cbn [each_until]. unfold bind.
    destruct (update_body_requests x s) as [Hq | (id & Hb & Hid & Hrq & Hout)].
    + destruct (out (body x s)) as [[|]|e]; cbn [out final emitted].
      * left. rewrite requests_of_app, Hq. reflexivity.
      * destruct (IH (final (body x s))) as [Hn | (c & id & Hin & Hb & Hid & Hrq)].
        -- left. rewrite requests_of_app, Hq, Hn. reflexivity.
        -- right. exists c, id. repeat split; try assumption.
           ++ right. exact Hin.
           ++ rewrite requests_of_app, Hq, Hrq. reflexivity.
      * left. exact Hq.
    + right. exists x, id. repeat split; try assumption.
      * left. reflexivity.
      * destruct (out (body x s)) as [[|]|e]; cbn [out final emitted].
        -- rewrite requests_of_app, Hrq. reflexivity.
        -- contradiction Hout. reflexivity.
        -- exact Hrq.
Qed.

Lemma each_until_skips (pre rest : list json) (s : machine) :
  forallb (passed_over cmd_name) pre = true ->
  each_until (pre ++ rest) body s = after [] (each_until rest body s).
Proof.
  induction pre as [|x pre IH]; intros Hpre.
  - cbn [List.app]. destruct (each_until rest body s). reflexivity.
  - simpl in Hpre. apply andb_true_iff in Hpre. destruct Hpre as [Hx Hpre].
    cbn [List.app each_until]. unfold bind at 1.
    rewrite (update_body_passes x s Hx). cbn [out final emitted].
    rewrite (IH Hpre). reflexivity.
Qed.

Lemma each_until_stops (c : json) (rest : list json) (s s' : machine)
    (t : list event) :
  body c s = mkResult (Done true) s' t ->
  each_until (c :: rest) body s = mkResult (Done tt) s' (t ++ []).
Proof.
  intros H. cbn [each_until]. unfold bind. rewrite H. reflexivity.
Qed.

End Update.

(** X5.  update_cmd.py acts on the first listed command that bears the
    selected name: it skips the commands before it, sends one PATCH to the
    list URL followed by [/] and that command's id, with the command exactly
    as it was listed as the JSON body, prints the reply and stops; commands
    after it, even of the same name, are not looked at. *)
Theorem update_patches_first_match :
  forall (P : Platform) (app token guild_id cmd_name : string) (s : machine)
         (r r' : response) (pre : list json) (c id : json)
         (post : list json),
    let get :=
      mkRequest GET (api ++ base_path app (Guild guild_id))
        (authorization token) None in
    let patch := patch_request app guild_id token c id in
    fst (serve get (remote s)) = Answered r ->
    decoded r = Some (JList (pre ++ c :: post)) ->
    forallb (passed_over cmd_name) pre = true ->
    bears cmd_name c = true ->
    py_getitem c "id" = Done id ->
    fst (serve patch (remote (served get s))) = Answered r' ->
    let res := update_cmd.main app token guild_id cmd_name s in
    out res = Done tt /\
    emitted res
    = [EvHttp get (Answered r); EvHttp patch (Answered r');
       EvPrint ("UPDATE result: " ++ " " ++ bytes_repr (content r'))].
Proof.
  intros P app token guild_id cmd_name s r r' pre c id post get patch
    Hget Hdec Hpre Hc Hid Hpatch res.
  subst res. rewrite update_main_eq. fold get.
  rewrite (bind_call _ _ _ r Hget), (bind_json _ _ _ _ Hdec).
  unfold for_in_break. cbn [py_iter]. rewrite bind_done.
  rewrite (each_until_skips app token guild_id cmd_name pre (c :: post) _ Hpre).
  rewrite (each_until_stops app token guild_id cmd_name c post _ _ _
             (update_body_hits app token guild_id cmd_name c id _ r'
                Hc Hid Hpatch)).
  split; reflexivity.
Qed.

(** X6.  Whatever the remote side answers, a run of update_cmd.py sends the
    list call and at most one more request: a PATCH, for a command of the
    list that the list call returned and that bears the selected name, at
    that command's URL and with that command as its body.  It never sends a
    POST or a DELETE, and never a second PATCH. *)
Theorem update_sends_at_most_one_patch :
  forall (P : Platform) (app token guild_id cmd_name : string) (s : machine),
    let get :=
      mkRequest GET (api ++ base_path app (Guild guild_id))
        (authorization token) None in
    let rs :=
      requests_of (emitted (update_cmd.main app token guild_id cmd_name s)) in
    rs = [get] \/
    exists r jbody items c id,
      fst (serve get (remote s)) = Answered r /\
      decoded r = Some jbody /\
      py_iter jbody = Done items /\
      In c items /\
      bears cmd_name c = true /\
      py_getitem c "id" = Done id /\
      rs = [get; patch_request app guild_id token c id].
Proof.
  intros P app token guild_id cmd_name s get rs. subst rs.
  rewrite update_main_eq. fold get.
  destruct (fst (serve get (remote s))) as [r|] eqn:Hget.
  - rewrite (bind_call _ _ _ r Hget).
    destruct (decoded r) as [jbody|] eqn:Hdec.
    + rewrite (bind_json _ _ _ _ Hdec). unfold for_in_break.
      destruct (py_iter jbody) as [items|e] eqn:Hiter.
      * rewrite bind_done. cbn [after emitted List.app requests_of].
        destruct (each_until_requests app token guild_id cmd_name items
                    (served get s))
          as [Hn | (c & id & Hin & Hb & Hid & Hrq)].
        -- left. rewrite Hn. reflexivity.
        -- right. exists r, jbody, items, c, id.
           repeat split; try assumption.
           rewrite Hrq. reflexivity.
      * left. rewrite bind_raised. reflexivity.
    + left. rewrite (bind_json_fail _ _ _ Hdec). reflexivity.
  - left. rewrite (bind_call_fail _ _ _ Hget). reflexivity.
Qed.

(** ** The create scripts, further *)

(** X7.  A create script posts every one of its payloads, in the order of
    the file, to the global collection URL, whatever status the earlier
    posts were answered with (it never looks at a status), prints one line
    per post and ends normally. *)
Theorem create_scripts_post_everything :
  forall (P : Platform) (sc : script) (app guild token cmd_name : string)
         (s : machine),
    lists_first sc = false ->
    always_answers POST ->
    let res := script_work sc app guild token cmd_name s in
    out res = Done tt /\
    requests_of (emitted res)
    = map (fun p => mkRequest POST (api ++ base_path app Global)
                      (authorization token) (Some p))
        (payloads sc) /\
    length (printed (emitted res)) = length (payloads sc).
Proof.
  intros P sc app guild token cmd_name s Hsc Hans res. subst res.
  destruct sc; try discriminate Hsc; cbn [script_work payloads map];
    unfold bootsrap.work, create_global_cmd.main, create_global_commands.work;
    cbv zeta; unfold requests_post, print_result;
    repeat
      match goal with
      | |- context [bind (call ?rq) ?f ?s0] =>
          let r := fresh "r" in
          let Hr := fresh "Hr" in
          destruct (Hans rq (remote s0) eq_refl) as [r Hr];
          rewrite (bind_call rq f s0 r Hr); clear Hr;
          rewrite ?bind_print
      end;
    repeat split.
Qed.

(** ** The scripts as a whole, further *)

Section Whole.
Context {P : Platform}.

Lemma run_typed (sc : script) (b : blanks) (w : world)
    (app guild token : string) (more : list string) :
  prompting sc = true ->
  run_script sc b (mkMachine (typed_lines sc app guild token more) w)
  = after (answered_prompts sc app guild token)
      (script_work sc app guild token (blank_cmd_name b) (mkMachine more w)).
Proof.
  intros Hsc. destruct sc; try discriminate Hsc; reflexivity.
Qed.

Lemma sweep_refused_run (sw : sweep) (app guild : string)
    (h : list (string * string)) (s : machine) (r : response)
    (fields : list (string * json)) :
  let get :=
    mkRequest GET (api ++ base_path app (sweep_scope sw guild)) h None in
  fst (serve get (remote s)) = Answered r ->
  decoded r = Some (JDict fields) ->
  fields <> [] ->
  run_sweep sw app guild h s
  = mkResult (Raised TypeError) (served get s)
      [EvHttp get (Answered r); EvPrint (count_line sw (length fields))].
Proof.
  intros get Hget Hdec Hne.
  rewrite (sweep_listed sw app guild h s r (JDict fields) (length fields)
             (map (fun kv => JStr (fst kv)) fields) Hget Hdec eq_refl eq_refl).
  destruct fields as [|[k v] fields]; [contradiction Hne; reflexivity |].
  cbn [map fst each]. unfold bind. rewrite body_on_key. reflexivity.
Qed.

Lemma sweep_clean_run (sw : sweep) (app guild : string)
    (h : list (string * string)) (s : machine) (r : response)
    (cmds : list json) :
  let u := api ++ base_path app (sweep_scope sw guild) in
  let get := mkRequest GET u h None in
  always_answers DELETE ->
  fst (serve get (remote s)) = Answered r ->
  decoded r = Some (JList cmds) ->
  forallb (deletable (sweep_announces sw)) cmds = true ->
  out (run_sweep sw app guild h s) = Done tt /\
  requests_of (emitted (run_sweep sw app guild h s))
  = get :: map (delete_request u h) cmds.
Proof.
  intros u get Hans Hget Hdec Hcmds.
  rewrite (sweep_listed sw app guild h s r (JList cmds) (length cmds) cmds
             Hget Hdec eq_refl eq_refl).
  fold u. fold get.
  destruct (each_deletes _ u h _ cmds (body_deletes _ u h Hans) Hcmds
              (served get s)) as (Hout & Hreq & _).
  cbn [after out emitted List.app requests_of]. rewrite Hout, Hreq.
  split; reflexivity.
Qed.

Lemma delete_work_eq (sc : script) (app guild token cmd_name : string) :
  deletes_only sc = true ->
  script_work sc app guild token cmd_name
  = if asks_guild sc
    then (run_sweep (first_sweep sc) app guild (authorization token) ;;
          run_sweep (second_sweep sc) app guild (authorization token))
    else run_sweep (first_sweep sc) app guild (authorization token).
Proof.
  intros Hsc. destruct sc; try discriminate Hsc; reflexivity.
Qed.

End Whole.

(** X8.  When the console input ends before a prompting script has read all
    its lines (two, or three for the scripts that ask for a guild), the
    script raises [EOFError]; it has sent no request and printed nothing. *)
Theorem scripts_stop_at_end_of_input :
  forall (P : Platform) (sc : script) (b : blanks) (s : machine),
    length (keyboard s) < prompts_needed sc ->
    let res := run_script sc b s in
    out res = Raised EOFError /\
    requests_of (emitted res) = [] /\
    printed (emitted res) = [].
Proof.
  intros P sc b s H res. subst res.
  destruct s as [kb w]. cbn [keyboard] in H.
  destruct sc; cbn [prompts_needed prompting asks_guild] in H;
    destruct kb as [|l1 [|l2 [|l3 kb]]]; cbn [length] in H;
    try (exfalso; lia); repeat split.
Qed.

(** X9.  When the list call of the global scope is answered with a JSON
    object that is not empty (a refusal), every delete script stops there:
    it has printed the number of keys as the number of global commands,
    raises [TypeError], and the list call is its only request; cleanup.py and
    delete_all_commands.py never get to the guild. *)
Theorem delete_scripts_stop_on_refusal :
  forall (P : Platform) (sc : script) (b : blanks) (w : world)
         (app guild token : string) (more : list string) (r : response)
         (fields : list (string * json)),
    let get :=
      mkRequest GET (api ++ base_path app Global) (authorization token)
        None in
    deletes_only sc = true ->
    fst (serve get w) = Answered r ->
    decoded r = Some (JDict fields) ->
    fields <> [] ->
    let res :=
      run_script sc b (mkMachine (typed_lines sc app guild token more) w) in
    out res = Raised TypeError /\
    requests_of (emitted res) = [get] /\
    printed (emitted res)
    = ["Number of global commands: " ++ decimal (length fields)].
Proof.
  intros P sc b w app guild token more r fields get Hsc Hget Hdec Hne res.
  subst res.
  assert (Hp : prompting sc = true) by (destruct sc; try discriminate Hsc; reflexivity).
  rewrite (run_typed sc b w app guild token more Hp).
  rewrite (delete_work_eq sc app guild token _ Hsc).
  assert (Hrun : run_sweep (first_sweep sc) app guild (authorization token)
                   (mkMachine more w)
                 = mkResult (Raised TypeError) (served get (mkMachine more w))
                     [EvHttp get (Answered r);
                      EvPrint ("Number of global commands: "
                                 ++ decimal (length fields))]).
  { destruct sc; try discriminate Hsc; cbn [first_sweep];
      match goal with
      | |- run_sweep ?sw _ _ _ _ = _ =>
          apply (sweep_refused_run sw app guild (authorization token)
                   (mkMachine more w) r fields Hget Hdec Hne)
      end. }
  destruct (asks_guild sc) eqn:Hg.
  - unfold bind. rewrite Hrun.
    destruct sc; try discriminate Hsc; try discriminate Hg; repeat split.
  - rewrite Hrun.
    destruct sc; try discriminate Hsc; try discriminate Hg; repeat split.
Qed.

(** X10.  cleanup.py and delete_all_commands.py work scope after scope: when
    both list calls return commands the blocks can process and the DELETE
    calls are answered, the script lists the global scope and deletes its
    commands, and only then lists the guild and deletes its commands; it
    ends normally. *)
Theorem two_blocks_in_turn :
  forall (P : Platform) (sc : script) (b : blanks) (w : world)
         (app guild token : string) (more : list string)
         (r1 r2 : response) (cmds1 cmds2 : list json),
    let auth := authorization token in
    let u1 := api ++ base_path app Global in
    let u2 := api ++ base_path app (Guild guild) in
    let get1 := mkRequest GET u1 auth None in
    let get2 := mkRequest GET u2 auth None in
    let s0 := mkMachine more w in
    asks_guild sc = true ->
    always_answers DELETE ->
    fst (serve get1 w) = Answered r1 ->
    decoded r1 = Some (JList cmds1) ->
    forallb (deletable (sweep_announces (first_sweep sc))) cmds1 = true ->
    fst (serve get2
           (remote (final (run_sweep (first_sweep sc) app guild auth s0))))
    = Answered r2 ->
    decoded r2 = Some (JList cmds2) ->
    forallb (deletable (sweep_announces (second_sweep sc))) cmds2 = true ->
    let res :=
      run_script sc b (mkMachine (typed_lines sc app guild token more) w) in
    out res = Done tt /\
    requests_of (emitted res)
    = ((get1 :: map (delete_request u1 auth) cmds1)
         ++ get2 :: map (delete_request u2 auth) cmds2)%list.
Proof.
  intros P sc b w app guild token more r1 r2 cmds1 cmds2
    auth u1 u2 get1 get2 s0 Hsc Hans Hget1 Hdec1 Hcmds1 Hget2 Hdec2 Hcmds2 res.
  subst res.
  assert (Hd : deletes_only sc = true)
    by (destruct sc; try discriminate Hsc; reflexivity).
  assert (Hp : prompting sc = true)
    by (destruct sc; try discriminate Hsc; reflexivity).
  rewrite (run_typed sc b w app guild token more Hp).
  rewrite (delete_work_eq sc app guild token _ Hd), Hsc.
  fold auth. fold s0.
  assert (H1 : out (run_sweep (first_sweep sc) app guild auth s0) = Done tt /\
               requests_of (emitted (run_sweep (first_sweep sc) app guild auth s0))
               = get1 :: map (delete_request u1 auth) cmds1).
  { destruct sc; try discriminate Hsc; cbn [first_sweep] in *;
      match goal with
      | |- out (run_sweep ?sw _ _ _ _) = _ /\ _ =>
          apply (sweep_clean_run sw app guild auth s0 r1 cmds1 Hans Hget1
                   Hdec1 Hcmds1)
      end. }
  assert (H2 : out (run_sweep (second_sweep sc) app guild auth
                      (final (run_sweep (first_sweep sc) app guild auth s0)))
               = Done tt /\
               requests_of
                 (emitted (run_sweep (second_sweep sc) app guild auth
                             (final (run_sweep (first_sweep sc) app guild
                                       auth s0))))
               = get2 :: map (delete_request u2 auth) cmds2).
  { destruct sc; try discriminate Hsc; cbn [first_sweep second_sweep] in *;
      match goal with
      | |- out (run_sweep ?sw _ _ _ ?s1) = _ /\ _ =>
          apply (sweep_clean_run sw app guild auth s1 r2 cmds2 Hans Hget2
                   Hdec2 Hcmds2)
      end. }
  destruct H1 as [Hout1 Hreq1]. destruct H2 as [Hout2 Hreq2].
  unfold bind. rewrite Hout1. cbn [after out emitted].
  rewrite !requests_of_app, Hreq1, Hreq2, Hout2.
  destruct sc; try discriminate Hsc; split; reflexivity.
Qed.

(** X11.  The delete scripts (cleanup.py, delete_all_commands.py,
    delete_global_cmd.py) never create or update a command and never send a
    body: in every run, whatever the remote side answers, each of their
    requests is a GET or a DELETE without JSON. *)
Theorem delete_scripts_only_list_and_delete :
  forall (P : Platform) (sc : script) (b : blanks) (s : machine),
    deletes_only sc = true ->
    Forall (fun rq => (verb rq = GET \/ verb rq = DELETE) /\ json_arg rq = None)
      (requests_of (emitted (run_script sc b s))).
Proof.
  intros P sc b s Hsc. apply each_request_Forall. apply script_keeps.
  intros app guild token.
  set (good := fun (_ : list event) (rq : request) =>
                 (verb rq = GET \/ verb rq = DELETE) /\ json_arg rq = None).
  assert (Hsw : forall sw,
             preserves (each_request good)
               (run_sweep sw app guild (authorization token))).
  { intros sw. apply (sweep_keeps good app guild token).
    - intros h scp _. split; [left |]; reflexivity.
    - intros h scp r jbody items c t _ _ _ _ _ _.
      split; [right |]; reflexivity. }
  rewrite (delete_work_eq sc app guild token _ Hsc).
  destruct (asks_guild sc).
  - apply preserves_bind; [apply Hsw | intros _; apply Hsw].
  - apply Hsw.
Qed.

(** ** The further properties at work *)

(** X1 on a refused list call. *)
Lemma sweep_on_error_body_witness :
  out (Cases.global_block [Cases.refused]) = Raised TypeError /\
  printed (emitted (Cases.global_block [Cases.refused]))
  = ["Number of global commands: 2"].
Proof.
  destruct (sweep_on_error_body Scripted.platform DeleteGlobal "42" "123"
              (authorization "s3cret")
              (@mkMachine Scripted.platform [] [Cases.refused])
              Cases.refused
              [("message", JStr "401: Unauthorized"); ("code", JInt 0)]
              eq_refl eq_refl ltac:(discriminate)) as [Hout Hlog].
  split; [exact Hout |].
  unfold Cases.global_block. rewrite Hlog. reflexivity.
Defined.

(** X2 on a body that is not JSON. *)
Lemma sweep_stops_when_list_fails_witness :
  out (Cases.global_block [Cases.bad_gateway]) = Raised JSONDecodeError.
Proof.
  apply (sweep_stops_when_list_fails Scripted.platform DeleteGlobal "42" "123"
           (authorization "s3cret")
           (@mkMachine Scripted.platform [] [Cases.bad_gateway])
           JSONDecodeError eq_refl).
Defined.

(** X3 on a list whose second entry has no id. *)
Lemma sweep_stops_at_bad_command_witness :
  requests_of
    (emitted (Cases.quiet_guild_block
                [body 200 (JList [Scenario.first; Cases.nameless;
                                  Scenario.third])]))
  = [mkRequest GET Scenario.guild_url (authorization "s3cret") None;
     delete_request Scenario.guild_url (authorization "s3cret")
       Scenario.first].
Proof.
  apply (sweep_stops_at_bad_command Scripted.platform CleanupGuild "42" "123"
           (authorization "s3cret")
           (@mkMachine Scripted.platform []
              [body 200 (JList [Scenario.first; Cases.nameless;
                                Scenario.third])])
           (body 200 (JList [Scenario.first; Cases.nameless; Scenario.third]))
           [Scenario.first] Cases.nameless [Scenario.third]
           (scripted_answers DELETE) eq_refl eq_refl eq_refl eq_refl).
Defined.

(** X4 on a connection that drops after the list call. *)
Lemma sweep_stops_when_delete_raises_witness :
  out Cases.dropped_guild_block = Raised RequestException /\
  requests_of (emitted Cases.dropped_guild_block)
  = [mkRequest GET Scenario.guild_url (authorization "s3cret") None;
     delete_request Scenario.guild_url (authorization "s3cret")
       Scenario.first].
Proof.
  exact (sweep_stops_when_delete_raises Flaky.platform DeleteAllGuild
           "42" "123" (authorization "s3cret")
           (@mkMachine Flaky.platform [] [Answered Scenario.listed; Unreachable])
           Scenario.listed Scenario.first [Scenario.second; Scenario.third]
           eq_refl eq_refl eq_refl eq_refl).
Defined.

(** X12 on the guild block whose second delete fails. *)
Lemma sweep_outline_witness :
  outline (emitted (Scenario.guild_block Scenario.second_fails))
  = [inr (mkRequest GET Scenario.guild_url (authorization "s3cret") None);
     inl "Number of guilds commands: 3";
     inl "Deleting command: spinup";
     inr (delete_request Scenario.guild_url (authorization "s3cret")
            Scenario.first);
     inl "Deleting command: destroy";
     inr (delete_request Scenario.guild_url (authorization "s3cret")
            Scenario.second);
     inl "Deleting command: register-game";
     inr (delete_request Scenario.guild_url (authorization "s3cret")
            Scenario.third)].
Proof.
  exact (sweep_outline Scripted.platform DeleteAllGuild "42" "123"
           (authorization "s3cret")
           (@mkMachine Scripted.platform [] Scenario.second_fails)
           Scenario.listed
           [Scenario.first; Scenario.second; Scenario.third]
           (scripted_answers DELETE) eq_refl eq_refl eq_refl).
Defined.

(** X5 on the second command of the guild. *)
Lemma update_patches_first_match_witness :
  out (Scenario.update_run "destroy"
         [Scenario.listed; body 200 Scenario.second])
  = Done tt.
Proof.
  apply (update_patches_first_match Scripted.platform
           "42" "s3cret" "123" "destroy"
           (@mkMachine Scripted.platform []
              [Scenario.listed; body 200 Scenario.second])
           Scenario.listed (body 200 Scenario.second)
           [Scenario.first] Scenario.second (JStr "1002") [Scenario.third]
           eq_refl eq_refl eq_refl eq_refl eq_refl eq_refl).
Defined.

(** X7 on bootsrap.py, every post answered 204. *)
Lemma create_scripts_post_everything_witness :
  length
    (printed
       (emitted (@script_work Scripted.platform Bootsrap "42" "123" "s3cret"
                   EmptyString (@mkMachine Scripted.platform [] []))))
  = 3.
Proof.
  apply (create_scripts_post_everything Scripted.platform Bootsrap
           "42" "123" "s3cret" EmptyString
           (@mkMachine Scripted.platform [] [])
           eq_refl (scripted_answers POST)).
Defined.

(** X8 on bootsrap.py when only the application id is typed. *)
Lemma scripts_stop_at_end_of_input_witness :
  out (@run_script Scripted.platform Bootsrap Scenario.no_blanks
         (@mkMachine Scripted.platform ["42"] []))
  = Raised EOFError.
Proof.
  apply (scripts_stop_at_end_of_input Scripted.platform Bootsrap
           Scenario.no_blanks (@mkMachine Scripted.platform ["42"] [])).
  cbn. lia.
Defined.

(** X9 on cleanup.py with a token the service refuses. *)
Lemma delete_scripts_stop_on_refusal_witness :
  requests_of
    (emitted (@run_script Scripted.platform Cleanup Scenario.no_blanks
                (@mkMachine Scripted.platform ["42"; "123"; "wrong"]
                   [Cases.refused])))
  = [mkRequest GET Cases.global_url (authorization "wrong") None].
Proof.
  apply (delete_scripts_stop_on_refusal Scripted.platform Cleanup
           Scenario.no_blanks [Cases.refused] "42" "123" "wrong" []
           Cases.refused
           [("message", JStr "401: Unauthorized"); ("code", JInt 0)]
           eq_refl eq_refl eq_refl ltac:(discriminate)).
Defined.

(** X10 on cleanup.py with one global command and three guild commands. *)
Lemma two_blocks_in_turn_witness :
  map verb (requests_of (emitted (Scenario.cleanup_on Cases.both_scopes)))
  = [GET; DELETE; GET; DELETE; DELETE; DELETE].
Proof.
  destruct (two_blocks_in_turn Scripted.platform Cleanup Scenario.no_blanks
              Cases.both_scopes "42" "123" "s3cret" []
              (body 200 (JList [Scenario.third])) Scenario.listed
              [Scenario.third]
              [Scenario.first; Scenario.second; Scenario.third]
              eq_refl (scripted_answers DELETE)
              eq_refl eq_refl eq_refl eq_refl eq_refl eq_refl) as [_ Hreq].
  unfold Scenario.cleanup_on.
  change (@cleanup.main Scripted.platform)
    with (@run_script Scripted.platform Cleanup Scenario.no_blanks).
  change ["42"; "123"; "s3cret"]
    with (typed_lines Cleanup "42" "123" "s3cret" []).
  rewrite Hreq. reflexivity.
Defined.

(** X11 on the same run of cleanup.py. *)
Lemma delete_scripts_only_list_and_delete_witness :
  Forall (fun rq => (verb rq = GET \/ verb rq = DELETE) /\ json_arg rq = None)
    (requests_of
       (emitted (@run_script Scripted.platform Cleanup Scenario.no_blanks
                   (@mkMachine Scripted.platform ["42"; "123"; "s3cret"]
                      Cases.both_scopes)))).
Proof.
  exact (delete_scripts_only_list_and_delete Scripted.platform Cleanup
           Scenario.no_blanks
           (@mkMachine Scripted.platform ["42"; "123"; "s3cret"]
              Cases.both_scopes)
           eq_refl).
Defined.

(** ** What the create scripts post *)

(** X13.  Every payload a create script posts is a JSON object with a string
    name, a string description and an integer [default_member_permissions],
    and within one script no two payloads have the same name: a run of a
    create script never posts a name twice. *)
Theorem payloads_are_named_apart :
  forall sc : script,
    Forall (fun p =>
              (exists name, py_getitem p "name" = Done (JStr name)) /\
              (exists text, py_getitem p "description" = Done (JStr text)) /\
              (exists perm,
                  py_getitem p "default_member_permissions"
                  = Done (JInt perm)))
      (payloads sc) /\
    NoDup (map (fun p => py_getitem p "name") (payloads sc)).
Proof.
  intros sc. split.
  - destruct sc; cbn [payloads];
      repeat (constructor;
              [split; [| split]; eexists; reflexivity |]);
      constructor.
  - destruct sc; cbn [payloads map];
      repeat (constructor; [cbn; intuition discriminate |]);
      constructor.
Qed.

(** ** The update script and a command without a name *)

(** X14.  update_cmd.py reads the name of every listed command it passes:
    when a command before any match has no ["name"] (or is not an object),
    the script raises [KeyError] or [TypeError] there, and has sent nothing
    but the list call: a later command of the selected name is not
    updated. *)
Theorem update_stops_at_nameless_command :
  forall (P : Platform) (app token guild_id cmd_name : string) (s : machine)
         (r : response) (pre : list json) (bad : json) (post : list json),
    let get :=
      mkRequest GET (api ++ base_path app (Guild guild_id))
        (authorization token) None in
    fst (serve get (remote s)) = Answered r ->
    decoded r = Some (JList (pre ++ bad :: post)) ->
    forallb (passed_over cmd_name) pre = true ->
    command_name bad = None ->
    let res := update_cmd.main app token guild_id cmd_name s in
    (exists e, out res = Raised e /\ (e = KeyError \/ e = TypeError)) /\
    emitted res = [EvHttp get (Answered r)].
Proof.
  intros P app token guild_id cmd_name s r pre bad post get
    Hget Hdec Hpre Hbad res.
  subst res. rewrite update_main_eq. fold get.
  rewrite (bind_call _ _ _ r Hget), (bind_json _ _ _ _ Hdec).
  unfold for_in_break. cbn [py_iter]. rewrite bind_done.
  rewrite (each_until_skips app token guild_id cmd_name pre (bad :: post) _ Hpre).
  unfold command_name in Hbad.
  destruct (py_getitem bad "name") as [v|e] eqn:Hname; [discriminate Hbad |].
  assert (Hstop : each_until (bad :: post)
                    (update_body app guild_id cmd_name (authorization token))
                    (served get s)
                  = mkResult (Raised e) (served get s) []).
  { cbn [each_until]. unfold bind, update_body, getitem.
    rewrite Hname. reflexivity. }
  rewrite Hstop. split; [| reflexivity].
  exists e. split; [reflexivity |].
  apply (py_getitem_raises bad "name"). exact Hname.
Qed.

(** X14 on a guild whose first command has no name. *)
Lemma update_stops_at_nameless_command_witness :
  emitted (Scenario.update_run "destroy"
             [body 200 (JList [JDict [("id", JStr "1000")]; Scenario.second])])
  = [EvHttp (mkRequest GET Scenario.guild_url (authorization "s3cret") None)
       (Answered
          (body 200 (JList [JDict [("id", JStr "1000")]; Scenario.second])))].
Proof.
  apply (update_stops_at_nameless_command Scripted.platform
           "42" "s3cret" "123" "destroy"
           (@mkMachine Scripted.platform []
              [body 200 (JList [JDict [("id", JStr "1000")];
                                Scenario.second])])
           (body 200 (JList [JDict [("id", JStr "1000")]; Scenario.second]))
           [] (JDict [("id", JStr "1000")]) [Scenario.second]
           eq_refl eq_refl eq_refl eq_refl).
Defined.

(** ** Verbs and URLs of the operations *)

Section Rule.
Context {P : Platform}.

Lemma first_call_logged {B} (rq : request) (f : response -> M B)
    (s : machine) :
  exists rest,
    emitted (bind (call rq) f s)
    = EvHttp rq (fst (serve rq (remote s))) :: rest.
Proof.
  unfold bind, call. destruct (serve rq (remote s)) as [[r|] w];
    cbn [out final emitted fst]; eexists; reflexivity.
Qed.

Lemma emitted_bind_prefix {A B} (m : M A) (f : A -> M B) (s : machine) :
  exists rest, emitted (bind m f s) = (emitted (m s) ++ rest)%list.
Proof.
  unfold bind. destruct (out (m s)); cbn [emitted].
  - eexists. reflexivity.
  - exists []. rewrite app_nil_r. reflexivity.
Qed.

Lemma body_answered (announce : bool) (u : string)
    (h : list (string * string)) (c : json) (s : machine) (r : response) :
  deletable announce c = true ->
  fst (serve (delete_request u h c) (remote s)) = Answered r ->
  sweep_body announce u h c s
  = mkResult (Done tt) (served (delete_request u h c) s)
      ((if announce then [EvPrint (announcement c)] else [])
         ++ [EvHttp (delete_request u h c) (Answered r)]).
Proof.
  intros Hc Hr. unfold deletable in Hc. unfold announcement.
  unfold delete_request, id_of in *. unfold command_id in *.
  destruct (py_getitem c "id") as [[| | |t| |]|] eqn:Hid; try discriminate Hc.
  assert (Hq : sweep_body false u h c s
               = mkResult (Done tt)
                   (served (mkRequest DELETE (u ++ "/" ++ t) h None) s)
                   [EvHttp (mkRequest DELETE (u ++ "/" ++ t) h None)
                      (Answered r)]).
  { cbn [sweep_body]. unfold getitem, add. rewrite Hid, bind_done.
    cbn [py_add]. rewrite bind_done, append_assoc. unfold requests_delete.
    rewrite (bind_call _ _ _ r Hr). reflexivity. }
  destruct announce.
  - unfold command_name in *.
    destruct (py_getitem c "name") as [name|] eqn:Hname; [| discriminate Hc].
    cbn [sweep_body]. unfold getitem at 1.
    rewrite Hname, bind_done, bind_print.
    cbn [sweep_body] in Hq. rewrite Hq. reflexivity.
  - rewrite Hq. reflexivity.
Qed.

(** The round of a command the loop can process sends its DELETE, whether
    the call is answered or not. *)
Lemma body_sends_delete (announce : bool) (u : string)
    (h : list (string * string)) (c : json) (s : machine) :
  deletable announce c = true ->
  requests_of (emitted (sweep_body announce u h c s))
  = [delete_request u h c].
Proof.
  intros Hc.
  destruct (fst (serve (delete_request u h c) (remote s))) as [r|] eqn:Hr.
  - rewrite (body_answered announce u h c s r Hc Hr).
    cbn [emitted]. rewrite requests_of_app.
    destruct announce; reflexivity.
  - destruct (body_unreachable announce u h c s Hc Hr) as (t & Hrun & Ht).
    rewrite Hrun. exact Ht.
Qed.

End Rule.

Section RuleOfWork.
Context {P : Platform}.
Variables app guild token : string.

Lemma create_keeps_payloads (good : list event -> request -> Prop)
    (sc : script) (cmd_name : string) :
  lists_first sc = false ->
  (forall h p, In p (payloads sc) ->
               good h (mkRequest POST (api ++ base_path app Global)
                         (authorization token) (Some p))) ->
  preserves (each_request good) (script_work sc app guild token cmd_name).
Proof.
  intros Hsc Hgood.
  assert (Hpost : forall B p (f : response -> M B),
             In p (payloads sc) ->
             (forall r, preserves (each_request good) (f r)) ->
             preserves (each_request good)
               (bind (requests_post (api ++ "/applications/" ++ app
                                         ++ "/commands")
                        (authorization token) p) f)).
  { intros B p f Hp Hf. apply preserves_call_plain; [| exact Hf].
    intros h. apply (Hgood h p Hp). }
  destruct sc; try discriminate Hsc; cbn [script_work];
    unfold bootsrap.work, create_global_cmd.main,
      create_global_commands.work; cbv zeta;
    repeat (apply Hpost; [cbn; tauto | intros ?];
            first [apply preserves_print_last
                  | apply preserves_print_plain; intros _]).
Qed.

Lemma work_follows_rule (sc : script) (cmd_name : string) :
  preserves (each_request (follows_rule sc app guild))
    (script_work sc app guild token cmd_name).
Proof.
  assert (Hlist : forall sc0, In ListCommands (script_operations sc0) ->
             forall (h : list event) (scp : scope),
               In scp [Global; Guild guild] ->
               follows_rule sc0 app guild h
                 (mkRequest GET (api ++ base_path app scp)
                    (authorization token) None)).
  { intros sc0 Hop h scp Hscp. exists ListCommands, scp.
    repeat split; assumption. }
  assert (Hdelete : forall sc0, In DeleteCommand (script_operations sc0) ->
             forall (h : list event) (scp : scope) (r : response)
                    (jbody : json) (items : list json) (c : json)
                    (t : string),
               In scp [Global; Guild guild] ->
               In (EvHttp (mkRequest GET (api ++ base_path app scp)
                             (authorization token) None) (Answered r)) h ->
               decoded r = Some jbody ->
               py_iter jbody = Done items ->
               In c items ->
               py_getitem c "id" = Done (JStr t) ->
               follows_rule sc0 app guild h
                 (mkRequest DELETE (api ++ base_path app scp ++ "/" ++ t)
                    (authorization token) None)).
  { intros sc0 Hop h scp r jbody items c t Hscp Hin Hdec Hiter Hc Hid.
    exists DeleteCommand, scp. repeat split; try assumption.
    exists c, (JStr t). repeat split.
    eexists _, r, jbody, items. repeat split; try eassumption; reflexivity. }
  destruct sc.
  - apply create_keeps_payloads; [reflexivity |].
    intros h p Hp. exists CreateCommand, Global.
    repeat split; [left; reflexivity | left; reflexivity |].
    exists p. split; [exact Hp | reflexivity].
  - rewrite delete_work_eq by reflexivity. cbn [asks_guild first_sweep second_sweep].
    apply preserves_bind; [| intros _];
      apply (sweep_keeps _ app guild token);
      first [apply Hlist | apply Hdelete]; cbn; tauto.
  - apply create_keeps_payloads; [reflexivity |].
    intros h p Hp. exists CreateCommand, Global.
    repeat split; [left; reflexivity | left; reflexivity |].
    exists p. split; [exact Hp | reflexivity].
  - apply create_keeps_payloads; [reflexivity |].
    intros h p Hp. exists CreateCommand, Global.
    repeat split; [left; reflexivity | left; reflexivity |].
    exists p. split; [exact Hp | reflexivity].
  - rewrite delete_work_eq by reflexivity. cbn [asks_guild first_sweep second_sweep].
    apply preserves_bind; [| intros _];
      apply (sweep_keeps _ app guild token);
      first [apply Hlist | apply Hdelete]; cbn; tauto.
  - rewrite delete_work_eq by reflexivity. cbn [asks_guild first_sweep].
    apply (sweep_keeps _ app guild token);
      first [apply Hlist | apply Hdelete]; cbn; tauto.
  - cbn [script_work]. apply (update_keeps _ app guild token).
    + apply Hlist. cbn; tauto.
    + intros h r jbody items c id Hin Hdec Hiter Hc Hid.
      exists UpdateCommand, (Guild guild).
      repeat split; [right; left; reflexivity | right; left; reflexivity |].
      exists c, id. repeat split.
      eexists _, r, jbody, items. repeat split; try eassumption; reflexivity.
Qed.

Lemma listing_work_starts_with_get (sc : script) (cmd_name : string)
    (s : machine) :
  lists_first sc = true ->
  exists rest,
    requests_of (emitted (script_work sc app guild token cmd_name s))
    = mkRequest GET (rule_url app (first_scope sc guild) ListCommands
                       EmptyString)
        (authorization token) None :: rest.
Proof.
  intros Hsc.
  assert (Hsweep : forall sw s0, sweep_scope sw guild = Global ->
             exists rest,
               emitted (run_sweep sw app guild (authorization token) s0)
               = EvHttp (mkRequest GET (api ++ base_path app Global)
                           (authorization token) None)
                   (fst (serve (mkRequest GET (api ++ base_path app Global)
                                  (authorization token) None) (remote s0)))
                   :: rest).
  { intros sw s0 Hsw. rewrite run_sweep_eq. cbv zeta. rewrite Hsw.
    unfold requests_get. apply first_call_logged. }
  destruct sc; try discriminate Hsc; cbn [first_scope rule_url].
  - rewrite delete_work_eq by reflexivity. cbn [asks_guild first_sweep second_sweep].
    destruct (emitted_bind_prefix
                (run_sweep CleanupApp app guild (authorization token))
                (fun _ => run_sweep CleanupGuild app guild
                            (authorization token)) s) as [rest Hb].
    destruct (Hsweep CleanupApp s eq_refl) as [rest' Hs].
    rewrite Hb, Hs. eexists. reflexivity.
  - rewrite delete_work_eq by reflexivity. cbn [asks_guild first_sweep second_sweep].
    destruct (emitted_bind_prefix
                (run_sweep DeleteAllApp app guild (authorization token))
                (fun _ => run_sweep DeleteAllGuild app guild
                            (authorization token)) s) as [rest Hb].
    destruct (Hsweep DeleteAllApp s eq_refl) as [rest' Hs].
    rewrite Hb, Hs. eexists. reflexivity.
  - rewrite delete_work_eq by reflexivity. cbn [asks_guild first_sweep].
    destruct (Hsweep DeleteGlobal s eq_refl) as [rest' Hs].
    rewrite Hs. eexists. reflexivity.
  - cbn [script_work]. rewrite update_main_eq.
    destruct (first_call_logged
                (mkRequest GET (api ++ base_path app (Guild guild))
                   (authorization token) None)
                (fun r => jbody <- response_json r ;;
                          for_in_break jbody
                            (update_body app guild cmd_name
                               (authorization token))) s) as [rest Hr].
    rewrite Hr. eexists. reflexivity.
Qed.

Lemma creating_work_starts_with_post (sc : script) (cmd_name : string)
    (s : machine) :
  lists_first sc = false ->
  exists p ps rest,
    payloads sc = p :: ps /\
    requests_of (emitted (script_work sc app guild token cmd_name s))
    = mkRequest POST (rule_url app Global CreateCommand EmptyString)
        (authorization token) (Some p) :: rest.
Proof.
  intros Hsc.
  destruct sc; try discriminate Hsc; cbn [script_work payloads rule_url];
    unfold bootsrap.work, create_global_cmd.main,
      create_global_commands.work; cbv zeta; unfold requests_post;
    match goal with
    | |- context [bind (call ?rq) ?f s] =>
        destruct (first_call_logged rq f s) as [rest Hr]; rewrite Hr
    end;
    eexists _, _, _; split; reflexivity.
Qed.

End RuleOfWork.

Section RuleOfRun.
Context {P : Platform}.

(** With enough lines typed, a run gets to the work of its script. *)
Lemma run_script_supplied (sc : script) (b : blanks) (s : machine) :
  prompts_needed sc <= length (keyboard s) ->
  let t := emitted (run_script sc b s) in
  exists h s',
    requests_of h = [] /\
    t = (h ++ emitted
           (script_work sc (app_of sc b t) (guild_of sc b t) (token_of sc b t)
              (blank_cmd_name b) s'))%list.
Proof.
  cbv zeta. destruct s as [kb w]. cbn [keyboard].
  destruct sc; cbn [prompts_needed prompting asks_guild]; intros Hkb;
    cbn [run_script];
    unfold bootsrap.main, cleanup.main, create_global_commands.main,
      delete_all_commands.main, delete_global_cmd.main.
  - destruct kb as [|a [|k kb]]; try (simpl in Hkb; lia).
    rewrite emitted_input; cbv beta. rewrite emitted_getpass; cbv beta.
    exists [EvInput "Application id: " (Some a);
            EvGetpass "Bot token: " (Some k)], (mkMachine kb w).
    split; reflexivity.
  - destruct kb as [|a [|g [|k kb]]]; try (simpl in Hkb; lia).
    rewrite emitted_input; cbv beta. rewrite emitted_input; cbv beta.
    rewrite emitted_getpass; cbv beta.
    exists [EvInput "Application id: " (Some a);
            EvInput "Guild id: " (Some g);
            EvGetpass "Bot token: " (Some k)], (mkMachine kb w).
    split; reflexivity.
  - exists [], (mkMachine kb w). split; reflexivity.
  - destruct kb as [|a [|k kb]]; try (simpl in Hkb; lia).
    rewrite emitted_input; cbv beta. rewrite emitted_getpass; cbv beta.
    exists [EvInput "Application id: " (Some a);
            EvGetpass "Bot token: " (Some k)], (mkMachine kb w).
    split; reflexivity.
  - destruct kb as [|a [|g [|k kb]]]; try (simpl in Hkb; lia).
    rewrite emitted_input; cbv beta. rewrite emitted_input; cbv beta.
    rewrite emitted_getpass; cbv beta.
    exists [EvInput "Application id: " (Some a);
            EvInput "Guild id: " (Some g);
            EvGetpass "Bot token: " (Some k)], (mkMachine kb w).
    split; reflexivity.
  - destruct kb as [|a [|k kb]]; try (simpl in Hkb; lia).
    rewrite emitted_input; cbv beta. rewrite emitted_getpass; cbv beta.
    exists [EvInput "Application id: " (Some a);
            EvGetpass "Bot token: " (Some k)], (mkMachine kb w).
    split; reflexivity.
  - exists [], (mkMachine kb w). split; reflexivity.
Qed.

(** The round of update_cmd.py's loop on a command that bears the name
    sends the PATCH, whether the call is answered or not, and the loop
    ends there. *)
Lemma each_until_sends_patch (app token guild_id cmd_name : string)
    (c id : json) (rest : list json) (s : machine) :
  bears cmd_name c = true ->
  py_getitem c "id" = Done id ->
  requests_of
    (emitted (each_until (c :: rest)
                (update_body app guild_id cmd_name (authorization token)) s))
  = [patch_request app guild_id token c id].
Proof.
  intros Hc Hid.
  destruct (fst (serve (patch_request app guild_id token c id) (remote s)))
    as [r|] eqn:Hr.
  - rewrite (each_until_stops app token guild_id cmd_name c rest _ _ _
               (update_body_hits app token guild_id cmd_name c id s r
                  Hc Hid Hr)).
    reflexivity.
  - unfold bears, command_name in Hc.
    destruct (py_getitem c "name") as [v|] eqn:Hname; [| discriminate Hc].
    cbn [each_until]. unfold bind at 1.
    unfold update_body, getitem. rewrite Hname, bind_done, Hc.
    rewrite Hid, bind_done. cbv zeta. rewrite guild_command_url.
    unfold requests_patch.
    change (mkRequest PATCH
              (api ++ base_path app (Guild guild_id) ++ "/" ++ py_format id)
              (authorization token) (Some c))
      with (patch_request app guild_id token c id).
    rewrite (bind_call_fail _ _ _ Hr). reflexivity.
Qed.

End RuleOfRun.

(** C7.  Every request of every run of every script carries out one of the
    script's operations by the URL rule: the base path is
    [/applications/{app_id}/commands] for the global scope and
    [/applications/{app_id}/guilds/{guild_id}/commands] for the guild scope;
    a list is a GET of the base path, a create a POST of one of the
    script's payloads to the base path, an update a PATCH and a delete a
    DELETE of the base path suffixed with [/] and the id of a command
    listed before (the update with that command as body).  And the
    operations are carried out: a script that lists opens with the GET of
    its first scope, a script that creates with the POST of its first
    payload; a delete block whose list holds commands it can process sends
    a DELETE for each of them, in order; update_cmd.py sends the PATCH for
    the first listed command that bears the selected name. *)
Theorem operations_follow_url_rule :
  forall (P : Platform),
    (forall (sc : script) (b : blanks) (s : machine),
        let t := emitted (run_script sc b s) in
        each_request (follows_rule sc (app_of sc b t) (guild_of sc b t)) t) /\
    (forall (sc : script) (b : blanks) (s : machine),
        let t := emitted (run_script sc b s) in
        prompts_needed sc <= length (keyboard s) ->
        lists_first sc = true ->
        exists rest,
          requests_of t
          = mkRequest (rule_verb ListCommands)
              (rule_url (app_of sc b t) (first_scope sc (guild_of sc b t))
                 ListCommands EmptyString)
              (authorization (token_of sc b t)) None :: rest) /\
    (forall (sc : script) (b : blanks) (s : machine),
        let t := emitted (run_script sc b s) in
        prompts_needed sc <= length (keyboard s) ->
        lists_first sc = false ->
        exists p ps rest,
          payloads sc = p :: ps /\
          requests_of t
          = mkRequest (rule_verb CreateCommand)
              (rule_url (app_of sc b t) Global CreateCommand EmptyString)
              (authorization (token_of sc b t)) (Some p) :: rest) /\
    (forall (sw : sweep) (app guild token : string) (s : machine)
            (r : response) (cmds : list json),
        let scp := sweep_scope sw guild in
        let get :=
          mkRequest (rule_verb ListCommands)
            (rule_url app scp ListCommands EmptyString)
            (authorization token) None in
        always_answers DELETE ->
        fst (serve get (remote s)) = Answered r ->
        decoded r = Some (JList cmds) ->
        forallb (deletable (sweep_announces sw)) cmds = true ->
        requests_of
          (emitted (run_sweep sw app guild (authorization token) s))
        = get :: map (fun c =>
                        mkRequest (rule_verb DeleteCommand)
                          (rule_url app scp DeleteCommand (id_of c))
                          (authorization token) None) cmds) /\
    (forall (app token guild_id cmd_name : string) (s : machine)
            (r : response) (pre : list json) (c id : json)
            (post : list json),
        let get :=
          mkRequest (rule_verb ListCommands)
            (rule_url app (Guild guild_id) ListCommands EmptyString)
            (authorization token) None in
        fst (serve get (remote s)) = Answered r ->
        decoded r = Some (JList (pre ++ c :: post)) ->
        forallb (passed_over cmd_name) pre = true ->
        bears cmd_name c = true ->
        py_getitem c "id" = Done id ->
        requests_of (emitted (update_cmd.main app token guild_id cmd_name s))
        = [get;
           mkRequest (rule_verb UpdateCommand)
             (rule_url app (Guild guild_id) UpdateCommand (py_format id))
             (authorization token) (Some c)]).
Proof.
  intros P. repeat apply conj.
  - intros sc b s t.
    destruct (run_script_log sc b s) as [Hnone | (h & s' & Hh & Ht)];
      fold t in Hnone || fold t in Ht.
    + apply each_request_quiet. exact Hnone.
    + remember (app_of sc b t) as a eqn:Ha.
      remember (guild_of sc b t) as g eqn:Hg.
      remember (token_of sc b t) as k eqn:Hk.
      rewrite Ht.
      apply (work_follows_rule a g k sc (blank_cmd_name b) s' h).
      apply each_request_quiet. exact Hh.
  - intros sc b s t Hkb Hsc.
    destruct (run_script_supplied sc b s Hkb) as (h & s' & Hh & Ht).
    fold t in Ht.
    remember (app_of sc b t) as a eqn:Ha.
    remember (guild_of sc b t) as g eqn:Hg.
    remember (token_of sc b t) as k eqn:Hk.
    destruct (listing_work_starts_with_get a g k sc (blank_cmd_name b) s' Hsc)
      as [rest Hrest].
    exists rest. rewrite Ht, requests_of_app, Hh, Hrest. reflexivity.
  - intros sc b s t Hkb Hsc.
    destruct (run_script_supplied sc b s Hkb) as (h & s' & Hh & Ht).
    fold t in Ht.
    remember (app_of sc b t) as a eqn:Ha.
    remember (guild_of sc b t) as g eqn:Hg.
    remember (token_of sc b t) as k eqn:Hk.
    destruct (creating_work_starts_with_post a g k sc (blank_cmd_name b) s'
                Hsc) as (p & ps & rest & Hp & Hrest).
    exists p, ps, rest. split; [exact Hp |].
    rewrite Ht, requests_of_app, Hh, Hrest. reflexivity.
  - intros sw app guild token s r cmds scp get Hans Hget Hdec Hcmds.
    destruct (sweep_clean_run sw app guild (authorization token) s r cmds
                Hans Hget Hdec Hcmds) as [_ Hrq].
    rewrite Hrq. reflexivity.
  - intros app token guild_id cmd_name s r pre c id post get
      Hget Hdec Hpre Hc Hid.
    rewrite update_main_eq.
    change (mkRequest GET (api ++ base_path app (Guild guild_id))
              (authorization token) None) with get.
    rewrite (bind_call _ _ _ r Hget), (bind_json _ _ _ _ Hdec).
    unfold for_in_break. cbn [py_iter]. rewrite bind_done.
    rewrite (each_until_skips app token guild_id cmd_name pre (c :: post) _
               Hpre).
    cbn [after emitted List.app requests_of].
    rewrite (each_until_sends_patch app token guild_id cmd_name c id post _
               Hc Hid).
    reflexivity.
Qed.

(** C7 on the guild of the scenario: cleanup.py opens with the GET of the
    global scope, bootsrap.py with the POST of its first payload, the guild
    block of delete_all_commands.py deletes the three listed commands at
    their URLs, and update_cmd.py sends the PATCH of the command named
    destroy. *)
Lemma operations_follow_url_rule_witness :
  (exists rest,
      requests_of
        (emitted (Scenario.cleanup_on
                    [Scenario.nothing_listed; Scenario.nothing_listed]))
      = mkRequest GET "https://discord.com/api/v10/applications/42/commands"
          (authorization "s3cret") None :: rest) /\
  (exists rest,
      requests_of (emitted Scenario.bootsrap_run)
      = mkRequest POST "https://discord.com/api/v10/applications/42/commands"
          (authorization "s3cret") (Some bootsrap.json_bootstrap) :: rest) /\
  requests_of (emitted (Scenario.guild_block Scenario.all_succeed))
  = [mkRequest GET
       "https://discord.com/api/v10/applications/42/guilds/123/commands"
       (authorization "s3cret") None;
     mkRequest DELETE
       "https://discord.com/api/v10/applications/42/guilds/123/commands/1001"
       (authorization "s3cret") None;
     mkRequest DELETE
       "https://discord.com/api/v10/applications/42/guilds/123/commands/1002"
       (authorization "s3cret") None;
     mkRequest DELETE
       "https://discord.com/api/v10/applications/42/guilds/123/commands/1003"
       (authorization "s3cret") None] /\
  requests_of
    (emitted (Scenario.update_run "destroy"
                [Scenario.listed; body 200 Scenario.second]))
  = [mkRequest GET
       "https://discord.com/api/v10/applications/42/guilds/123/commands"
       (authorization "s3cret") None;
     mkRequest PATCH
       "https://discord.com/api/v10/applications/42/guilds/123/commands/1002"
       (authorization "s3cret") (Some Scenario.second)].
Proof.
  destruct (operations_follow_url_rule Scripted.platform)
    as (_ & Hlist & Hcreate & Hdelete & Hupdate).
  repeat apply conj.
  - refine (Hlist Cleanup Scenario.no_blanks
              (@mkMachine Scripted.platform ["42"; "123"; "s3cret"]
                 [Scenario.nothing_listed; Scenario.nothing_listed]) _ _).
    + vm_compute. lia.
    + reflexivity.
  - destruct (Hcreate Bootsrap Scenario.no_blanks
                (@mkMachine Scripted.platform ["42"; "s3cret"] []))
      as (p & ps & rest & Hp & Hrq).
    + vm_compute. lia.
    + reflexivity.
    + exists rest. injection Hp as Hp _. subst p. exact Hrq.
  - refine (Hdelete DeleteAllGuild "42" "123" "s3cret"
              (@mkMachine Scripted.platform [] Scenario.all_succeed)
              Scenario.listed
              [Scenario.first; Scenario.second; Scenario.third] _ _ _ _).
    + apply scripted_answers.
    + reflexivity.
    + reflexivity.
    + reflexivity.
  - refine (Hupdate "42" "s3cret" "123" "destroy"
              (@mkMachine Scripted.platform []
                 [Scenario.listed; body 200 Scenario.second])
              Scenario.listed [Scenario.first] Scenario.second
              (JStr "1002") [Scenario.third] _ _ _ _ _); reflexivity.
Defined.

(** ** Three listed commands, the second already gone *)

Section ThreeRounds.
Context {P : Platform}.

(** A delete block on a list of three commands whose deletes are all
    answered: the run, in full. *)
Lemma three_rounds (sw : sweep) (app guild : string)
    (h : list (string * string)) (s : machine) (r r1 r2 r3 : response)
    (c1 c2 c3 : json) :
  let u := api ++ base_path app (sweep_scope sw guild) in
  let get := mkRequest GET u h None in
  let s0 := served get s in
  let s1 := served (delete_request u h c1) s0 in
  let s2 := served (delete_request u h c2) s1 in
  let round := fun (c : json) (rp : response) =>
    ((if sweep_announces sw then [EvPrint (announcement c)] else [])
       ++ [EvHttp (delete_request u h c) (Answered rp)])%list in
  fst (serve get (remote s)) = Answered r ->
  decoded r = Some (JList [c1; c2; c3]) ->
  forallb (deletable (sweep_announces sw)) [c1; c2; c3] = true ->
  fst (serve (delete_request u h c1) (remote s0)) = Answered r1 ->
  fst (serve (delete_request u h c2) (remote s1)) = Answered r2 ->
  fst (serve (delete_request u h c3) (remote s2)) = Answered r3 ->
  out (run_sweep sw app guild h s) = Done tt /\
  final (run_sweep sw app guild h s) = served (delete_request u h c3) s2 /\
  emitted (run_sweep sw app guild h s)
  = ([EvHttp get (Answered r); EvPrint (count_line sw 3)]
       ++ round c1 r1 ++ round c2 r2 ++ round c3 r3)%list.
Proof.
  intros u get s0 s1 s2 round Hget Hdec Hcmds H1 H2 H3.
  cbn [forallb] in Hcmds.
  apply andb_true_iff in Hcmds. destruct Hcmds as [Hc1 Hcmds].
  apply andb_true_iff in Hcmds. destruct Hcmds as [Hc2 Hcmds].
  apply andb_true_iff in Hcmds. destruct Hcmds as [Hc3 _].
  rewrite (sweep_listed sw app guild h s r (JList [c1; c2; c3]) 3
             [c1; c2; c3] Hget Hdec eq_refl eq_refl).
  fold u. fold get. fold s0.
  cbn [each]. unfold bind.
  rewrite (body_answered _ u h c1 s0 r1 Hc1 H1). cbn [out final emitted].
  fold s1.
  rewrite (body_answered _ u h c2 s1 r2 Hc2 H2). cbn [out final emitted].
  fold s2.
  rewrite (body_answered _ u h c3 s2 r3 Hc3 H3). cbn [out final emitted].
  cbn [after out final emitted ret].
  repeat split. subst round. cbv beta. rewrite !app_nil_r. reflexivity.
Qed.

End ThreeRounds.

Section Gone.
Import Discord.

Lemma split_path_nonempty (s : string) : split_path s <> [].
Proof.
  induction s as [|c s IH]; simpl; [discriminate |].
  destruct (Ascii.eqb c "/"); [discriminate |].
  destruct (split_path s); discriminate.
Qed.

Lemma split_path_app (a x : string) :
  split_path (a ++ "/" ++ x) = (split_path a ++ split_path x)%list.
Proof.
  induction a as [|c a IH]; [reflexivity |].
  cbn [append split_path]. fold (append "/" x).
  change (a ++ String "/" x) with (a ++ "/" ++ x). rewrite IH.
  destruct (Ascii.eqb c "/"); [reflexivity |].
  destruct (split_path a) as [|p ps] eqn:Ha; [| reflexivity].
  contradiction (split_path_nonempty a).
Qed.

Lemma split_path_single (x y : string) : split_path x = [y] -> y = x.
Proof.
  revert y. induction x as [|c x IH]; intros y; cbn [split_path].
  - intros H. injection H as <-. reflexivity.
  - destruct (Ascii.eqb c "/").
    + intros H. injection H as _ H. contradiction (split_path_nonempty x).
    + destruct (split_path x) as [|p ps] eqn:Hx.
      * contradiction (split_path_nonempty x).
      * intros H. injection H as <- ->. rewrite (IH p eq_refl). reflexivity.
Qed.

Lemma strip_prefix_app (p u v rest : string) :
  strip_prefix p u = Some rest ->
  strip_prefix p (u ++ v) = Some (rest ++ v).
Proof.
  revert u. induction p as [|c p IH]; intros u; cbn [strip_prefix].
  - intros H. injection H as <-. reflexivity.
  - destruct u as [|d u]; [discriminate |]. cbn [append strip_prefix].
    destruct (Ascii.eqb c d); [apply IH | discriminate].
Qed.

(** The URL of a command of a scope routes to that scope and that id. *)
Lemma route_command (sv : service) (u x : string) (scp sc : scope)
    (id : string) :
  route sv u = Some (scp, None) ->
  route sv (u ++ "/" ++ x) = Some (sc, Some id) ->
  sc = scp /\ id = x.
Proof.
  unfold route.
  destruct (strip_prefix (api ++ "/applications/" ++ application sv ++ "/") u)
    as [rest|] eqn:Hs; [| discriminate].
  rewrite (strip_prefix_app _ _ ("/" ++ x) _ Hs), split_path_app.
  destruct (split_path x) as [|y [|z l]] eqn:Hx.
  - contradiction (split_path_nonempty x).
  - apply split_path_single in Hx. subst y.
    destruct (split_path rest) as [|a [|g [|c [|i l]]]];
      cbn [List.app]; intros H1 H2.
    + discriminate H1.
    + destruct (String.eqb a "commands"); [| discriminate H1].
      injection H1 as <-. injection H2 as <- <-. split; reflexivity.
    + destruct (String.eqb a "commands"); discriminate H1.
    + destruct (String.eqb a "guilds" && String.eqb c "commands"
                && existsb (String.eqb g) (guilds sv)); [| discriminate H1].
      injection H1 as <-. injection H2 as <- <-. split; reflexivity.
    + destruct l; [| discriminate H1].
      destruct (String.eqb a "guilds" && String.eqb c "commands"
                && existsb (String.eqb g) (guilds sv)); discriminate H1.
  - destruct (split_path rest) as [|a [|g [|c [|i l']]]];
      cbn [List.app]; intros H1 H2.
    + discriminate H1.
    + destruct (String.eqb a "commands") eqn:Ha; [| discriminate H1].
      apply String.eqb_eq in Ha. subst a.
      destruct l as [|w [|w' l]]; discriminate H2.
    + destruct (String.eqb a "commands"); discriminate H1.
    + discriminate H2.
    + destruct l'; [| discriminate H1].
      destruct (String.eqb a "guilds" && String.eqb c "commands"
                && existsb (String.eqb g) (guilds sv)); discriminate H1.
Qed.

Lemma interfered_incl (sv : service) : incl (interfered sv) (registry sv).
Proof.
  unfold interfered. generalize (registry sv) as reg.
  induction (rivals sv) as [|rv l IH]; intros reg; cbn [fold_left].
  - apply incl_refl.
  - eapply incl_tran; [apply IH |].
    destruct (Nat.eqb (fst rv) (clock sv)); [| apply incl_refl].
    apply incl_filter.
Qed.

Lemma unknown_incl (sc : scope) (id : string) (reg reg' : list (scope * json)) :
  incl reg' reg -> known sc id reg = false -> known sc id reg' = false.
Proof.
  intros Hincl Hreg. destruct (known sc id reg') eqn:H; [| reflexivity].
  apply existsb_exists in H. destruct H as (e & Hin & He).
  assert (Hk : known sc id reg = true).
  { apply existsb_exists. exists e. split; [apply Hincl; exact Hin | exact He]. }
  rewrite Hk in Hreg. discriminate Hreg.
Qed.

Lemma known_without (sc : scope) (id : string) (reg : list (scope * json)) :
  known sc id (without_id sc id reg) = false.
Proof.
  destruct (known sc id (without_id sc id reg)) eqn:H; [| reflexivity].
  apply existsb_exists in H. destruct H as (e & Hin & He).
  apply filter_In in Hin. destruct Hin as [_ Hn].
  rewrite He in Hn. discriminate Hn.
Qed.

Lemma listing_unknown (scp : scope) (id : string) (reg : list (scope * json)) :
  known scp id reg = false ->
  Forall (fun c => has_id id c = false) (listing scp reg).
Proof.
  intros Hreg. apply Forall_forall. intros c Hin.
  unfold listing in Hin. apply in_map_iff in Hin.
  destruct Hin as (e & <- & Hin). apply filter_In in Hin.
  destruct Hin as [Hin Hsc].
  destruct (has_id id (snd e)) eqn:Hid; [| reflexivity].
  assert (Hk : known scp id reg = true).
  { apply existsb_exists. exists e. split; [exact Hin |].
    rewrite Hsc, Hid. reflexivity. }
  rewrite Hk in Hreg. discriminate Hreg.
Qed.

(** A call changes neither the application, nor the guilds, nor the token
    of the service. *)
Lemma handle_identity (rq : request) (sv : service) :
  application (snd (handle rq sv)) = application sv /\
  guilds (snd (handle rq sv)) = guilds sv /\
  bot_token (snd (handle rq sv)) = bot_token sv.
Proof.
  unfold handle, create.
  repeat
    match goal with
    | |- context [if ?b then _ else _] => destruct b
    | |- context [match ?x with _ => _ end] => destruct x
    end;
    repeat split.
Qed.

Lemma route_after (rq : request) (sv : service) (u : string) :
  route (snd (handle rq sv)) u = route sv u.
Proof.
  destruct (handle_identity rq sv) as (Ha & Hg & _).
  unfold route. rewrite Ha, Hg. reflexivity.
Qed.

Lemma authenticated_after (rq rq' : request) (sv : service) :
  authenticated (snd (handle rq sv)) rq' = authenticated sv rq'.
Proof.
  destruct (handle_identity rq sv) as (_ & _ & Ht).
  unfold authenticated. rewrite Ht. reflexivity.
Qed.

(** A list or a delete adds nothing to the registry. *)
Lemma handle_shrinks (rq : request) (sv : service) :
  verb rq = GET \/ verb rq = DELETE ->
  incl (registry (snd (handle rq sv))) (registry sv).
Proof.
  intros Hv. unfold handle.
  destruct (negb (authenticated sv rq)); [apply interfered_incl |].
  destruct (route sv (url rq)) as [[sc [id|]]|];
    destruct (verb rq); try (destruct Hv; discriminate);
    try apply interfered_incl.
  destruct (known sc id (interfered sv)); [| apply interfered_incl].
  eapply incl_tran; [apply incl_filter | apply interfered_incl].
Qed.

(** A delete that succeeds removed the command its URL names. *)
Lemma delete_succeeds (rq : request) (sv : service) (r : response) :
  verb rq = DELETE ->
  fst (handle rq sv) = Answered r ->
  is_success (Answered r) = true ->
  exists sc id,
    route sv (url rq) = Some (sc, Some id) /\
    registry (snd (handle rq sv)) = without_id sc id (interfered sv).
Proof.
  intros Hv. unfold handle. rewrite Hv.
  destruct (negb (authenticated sv rq)).
  { intros H Hs. injection H as <-. discriminate Hs. }
  destruct (route sv (url rq)) as [[sc [id|]]|].
  - destruct (known sc id (interfered sv)).
    + intros _ _. exists sc, id. split; reflexivity.
    + intros H Hs. injection H as <-. discriminate Hs.
  - intros H Hs. injection H as <-. discriminate Hs.
  - intros H Hs. injection H as <-. discriminate Hs.
Qed.

(** A list call answered with a list was authenticated and named a
    scope. *)
Lemma listed_routed (rq : request) (sv : service) (r : response)
    (l : list json) :
  verb rq = GET ->
  fst (handle rq sv) = Answered r ->
  decoded r = Some (JList l) ->
  authenticated sv rq = true /\
  exists scp, route sv (url rq) = Some (scp, None).
Proof.
  intros Hv. unfold handle. rewrite Hv.
  destruct (authenticated sv rq); cbn [negb].
  2:{ intros H Hd. injection H as <-. discriminate Hd. }
  destruct (route sv (url rq)) as [[sc [id|]]|].
  - intros H Hd. injection H as <-. discriminate Hd.
  - intros _ _. split; [reflexivity |]. exists sc. reflexivity.
  - intros H Hd. injection H as <-. discriminate Hd.
Qed.

Lemma handle_get_list (rq : request) (sv : service) (scp : scope) :
  verb rq = GET ->
  authenticated sv rq = true ->
  route sv (url rq) = Some (scp, None) ->
  fst (handle rq sv)
  = Answered (success 200 (JList (listing scp (interfered sv)))).
Proof.
  intros Hv Ha Hr. unfold handle. rewrite Hv, Ha, Hr. reflexivity.
Qed.

End Gone.

(** C2 (amended).  A scope holds three commands; the delete of the second
    is answered 404 (another client removed it first), the other two
    deletes succeed.  Whatever the application, the guild, the token and
    the remote side, each delete block (the guild blocks of cleanup.py and
    delete_all_commands.py among them) lists the scope, sends all three
    deletes in list order, going on after the 404, and ends without
    raising: two deletes succeeded, one failed.  It prints the number of
    listed commands, 3, and where it announces them the three names: what
    it prints is fixed by the list, no count of successes or failures is
    in it.  On the remote service of the specification, whatever it holds
    and whatever other clients delete meanwhile, listing the scope again
    after the run is answered with a list that holds neither of the two
    commands whose deletes succeeded. *)
Theorem second_delete_fails_others_gone :
  (forall (P : Platform) (sw : sweep) (app guild token : string)
          (s : machine) (r r1 r2 r3 : response) (c1 c2 c3 : json),
      let h := authorization token in
      let u := api ++ base_path app (sweep_scope sw guild) in
      let get := mkRequest GET u h None in
      let s0 := served get s in
      let s1 := served (delete_request u h c1) s0 in
      let s2 := served (delete_request u h c2) s1 in
      let run := run_sweep sw app guild h s in
      fst (serve get (remote s)) = Answered r ->
      decoded r = Some (JList [c1; c2; c3]) ->
      forallb (deletable (sweep_announces sw)) [c1; c2; c3] = true ->
      fst (serve (delete_request u h c1) (remote s0)) = Answered r1 ->
      fst (serve (delete_request u h c2) (remote s1)) = Answered r2 ->
      fst (serve (delete_request u h c3) (remote s2)) = Answered r3 ->
      is_success (Answered r1) = true ->
      status_code r2 = 404 ->
      is_success (Answered r3) = true ->
      out run = Done tt /\
      requests_of (emitted run)
      = [get; delete_request u h c1; delete_request u h c2;
         delete_request u h c3] /\
      statuses (emitted run)
      = [status_code r; status_code r1; 404; status_code r3] /\
      tally (emitted run) = (2, 1) /\
      printed (emitted run)
      = count_line sw 3
          :: (if sweep_announces sw
              then [announcement c1; announcement c2; announcement c3]
              else [])) /\
  (forall (sw : sweep) (app guild token : string)
          (s : @machine Discord.platform) (r r1 r2 r3 : response)
          (c1 c2 c3 : json),
      let h := authorization token in
      let u := api ++ base_path app (sweep_scope sw guild) in
      let get := mkRequest GET u h None in
      let s0 := served get s in
      let s1 := served (delete_request u h c1) s0 in
      let s2 := served (delete_request u h c2) s1 in
      let run := @run_sweep Discord.platform sw app guild h s in
      fst (serve get (remote s)) = Answered r ->
      decoded r = Some (JList [c1; c2; c3]) ->
      forallb (deletable (sweep_announces sw)) [c1; c2; c3] = true ->
      fst (serve (delete_request u h c1) (remote s0)) = Answered r1 ->
      fst (serve (delete_request u h c2) (remote s1)) = Answered r2 ->
      fst (serve (delete_request u h c3) (remote s2)) = Answered r3 ->
      is_success (Answered r1) = true ->
      status_code r2 = 404 ->
      is_success (Answered r3) = true ->
      exists l,
        fst (Discord.handle get (remote (final run)))
        = Answered (Discord.success 200 (JList l)) /\
        Forall (fun c => Discord.has_id (id_of c1) c = false /\
                         Discord.has_id (id_of c3) c = false) l).
Proof.
  split.
  - intros P sw app guild token s r r1 r2 r3 c1 c2 c3 h u get s0 s1 s2 run
      Hget Hdec Hcmds H1 H2 H3 Hs1 H404 Hs3.
    destruct (three_rounds sw app guild h s r r1 r2 r3 c1 c2 c3
                Hget Hdec Hcmds H1 H2 H3) as (Hout & _ & Ht).
    fold u in Ht. fold get in Ht. subst run. rewrite Hout, Ht.
    assert (Hs2 : is_success (Answered r2) = false).
    { unfold is_success. rewrite H404. reflexivity. }
    repeat split.
    + destruct (sweep_announces sw); reflexivity.
    + destruct (sweep_announces sw);
        cbn [List.app statuses]; rewrite H404; reflexivity.
    + destruct (sweep_announces sw);
        cbn [List.app tally verb get delete_request];
        rewrite Hs1, Hs2, Hs3; reflexivity.
    + destruct (sweep_announces sw); reflexivity.
  - intros sw app guild token s r r1 r2 r3 c1 c2 c3 h u get s0 s1 s2 run
      Hget Hdec Hcmds H1 H2 H3 Hs1 H404 Hs3.
    destruct (@three_rounds Discord.platform sw app guild h s r r1 r2 r3
                c1 c2 c3 Hget Hdec Hcmds H1 H2 H3) as (_ & Hfinal & _).
    fold u in Hfinal. subst run. rewrite Hfinal.
    set (d1 := delete_request u h c1) in *.
    set (d2 := delete_request u h c2) in *.
    set (d3 := delete_request u h c3) in *.
    set (w := remote s) in *.
    set (w0 := snd (Discord.handle get w)).
    set (w1 := snd (Discord.handle d1 w0)).
    set (w2 := snd (Discord.handle d2 w1)).
    set (w3 := snd (Discord.handle d3 w2)).
    change (fst (Discord.handle get w) = Answered r) in Hget.
    change (fst (Discord.handle d1 w0) = Answered r1) in H1.
    change (fst (Discord.handle d3 w2) = Answered r3) in H3.
    change (remote (served d3 s2)) with w3.
    destruct (listed_routed get w r _ eq_refl Hget Hdec)
      as (Hauth & scp & Hroute).
    destruct (delete_succeeds d1 w0 r1 eq_refl H1 Hs1)
      as (sc1 & i1 & Hr1 & Hreg1).
    destruct (delete_succeeds d3 w2 r3 eq_refl H3 Hs3)
      as (sc3 & i3 & Hr3 & Hreg3).
    unfold w0 in Hr1. rewrite route_after in Hr1.
    unfold w2, w1, w0 in Hr3. rewrite !route_after in Hr3.
    destruct (route_command w u (id_of c1) scp sc1 i1 Hroute Hr1) as [-> ->].
    destruct (route_command w u (id_of c3) scp sc3 i3 Hroute Hr3) as [-> ->].
    fold w0 in Hreg1. fold w1 in Hreg1. fold w3 in Hreg3.
    exists (Discord.listing scp (Discord.interfered w3)). split.
    + apply handle_get_list; [reflexivity | |].
      * unfold w3, w2, w1, w0. rewrite !authenticated_after. exact Hauth.
      * unfold w3, w2, w1, w0. rewrite !route_after. exact Hroute.
    + assert (Hk1 : Discord.known scp (id_of c1) (Discord.interfered w3)
                    = false).
      { apply (unknown_incl _ _ (Discord.registry w1)).
        - eapply incl_tran; [apply interfered_incl |].
          eapply incl_tran;
            [apply (handle_shrinks d3 w2); right; reflexivity |].
          apply (handle_shrinks d2 w1). right. reflexivity.
        - rewrite Hreg1. apply known_without. }
      assert (Hk3 : Discord.known scp (id_of c3) (Discord.interfered w3)
                    = false).
      { apply (unknown_incl _ _ (Discord.registry w3)).
        - apply interfered_incl.
        - rewrite Hreg3. apply known_without. }
      apply Forall_forall. intros c Hin. split.
      * exact (proj1 (Forall_forall _ _) (listing_unknown _ _ _ Hk1) c Hin).
      * exact (proj1 (Forall_forall _ _) (listing_unknown _ _ _ Hk3) c Hin).
Qed.

(** C2 on the guild of the scenario: another client removes the second
    command just before the guild block of cleanup.py deletes it. *)
Lemma second_delete_fails_others_gone_witness :
  (out (@run_sweep Discord.platform CleanupGuild "42" "123"
          (authorization "s3cret")
          (Scenario.at_guild_block Scenario.contended)) = Done tt /\
   requests_of
     (emitted (@run_sweep Discord.platform CleanupGuild "42" "123"
                 (authorization "s3cret")
                 (Scenario.at_guild_block Scenario.contended)))
   = [mkRequest GET Scenario.guild_url (authorization "s3cret") None;
      delete_request Scenario.guild_url (authorization "s3cret")
        Scenario.first;
      delete_request Scenario.guild_url (authorization "s3cret")
        Scenario.second;
      delete_request Scenario.guild_url (authorization "s3cret")
        Scenario.third] /\
   statuses
     (emitted (@run_sweep Discord.platform CleanupGuild "42" "123"
                 (authorization "s3cret")
                 (Scenario.at_guild_block Scenario.contended)))
   = [200; 204; 404; 204] /\
   tally
     (emitted (@run_sweep Discord.platform CleanupGuild "42" "123"
                 (authorization "s3cret")
                 (Scenario.at_guild_block Scenario.contended)))
   = (2, 1) /\
   printed
     (emitted (@run_sweep Discord.platform CleanupGuild "42" "123"
                 (authorization "s3cret")
                 (Scenario.at_guild_block Scenario.contended)))
   = ["Number of guilds commands: 3"]) /\
  exists l,
    fst (Discord.handle
           (mkRequest GET Scenario.guild_url (authorization "s3cret") None)
           (remote
              (final (@run_sweep Discord.platform CleanupGuild "42" "123"
                        (authorization "s3cret")
                        (Scenario.at_guild_block Scenario.contended)))))
    = Answered (Discord.success 200 (JList l)) /\
    Forall (fun c => Discord.has_id "1001" c = false /\
                     Discord.has_id "1003" c = false) l.
Proof.
  destruct second_delete_fails_others_gone as [Hcode Hgone].
  split.
  - exact (Hcode Discord.platform CleanupGuild "42" "123" "s3cret"
             (Scenario.at_guild_block Scenario.contended)
             (Discord.success 200
                (JList [Scenario.first; Scenario.second; Scenario.third]))
             (mkResponse 204 EmptyString None)
             (Discord.failure 404 "Unknown application command" 10063)
             (mkResponse 204 EmptyString None)
             Scenario.first Scenario.second Scenario.third
             eq_refl eq_refl eq_refl eq_refl eq_refl eq_refl
             eq_refl eq_refl eq_refl).
  - exact (Hgone CleanupGuild "42" "123" "s3cret"
             (Scenario.at_guild_block Scenario.contended)
             (Discord.success 200
                (JList [Scenario.first; Scenario.second; Scenario.third]))
             (mkResponse 204 EmptyString None)
             (Discord.failure 404 "Unknown application command" 10063)
             (mkResponse 204 EmptyString None)
             Scenario.first Scenario.second Scenario.third
             eq_refl eq_refl eq_refl eq_refl eq_refl eq_refl
             eq_refl eq_refl eq_refl).
Defined.
